(** * The workflow engine of the multimodal debugging assistant

    A shallow embedding of [backend/services/ai_agent_service.py]
    (class [AIAgentService]) and of the records of
    [backend/models/schemas.py] it works on, followed by the properties
    of the task planner, the workflow executor, the generative client
    adapter, the heuristic code scanners, the result extractors and the
    suggestion compiler.

    Conventions of the embedding.
    - A Python [str] is a [string]; the text is taken to be ASCII, so
      [strip], [lower] and [title] act on ASCII white space and letters.
    - A Python value of type [Any] (task results, facts, payloads decoded
      from JSON) is a [json]; a [dict] is an association list in
      insertion order, read by first match.
    - A Python [float] is a binary64 number; a finite one is the
      rational ([Q]) it denotes, and the arithmetic of floats rounds
      its exact result to the nearest binary64 number (module
      [Float64]).
    - An exception is a value of type [exn]; a call that may raise
      returns an [outcome].  Only exceptions of class [Exception] are
      modelled.
    - The functions of the libraries the service calls ([json.loads],
      [re], [uuid], [datetime], [repr], the validation of pydantic
      fields) and the answers of the remote service are parameters. *)

From Stdlib Require Import String Ascii List Bool Arith ZArith QArith Lia.
From Stdlib Require Import Qround Qabs Qpower Lqa.
From Stdlib Require Import DecimalString.
From Stdlib Require DecimalZ DecimalPos Finite.
From Stdlib Require Floats.SpecFloat.
Import ListNotations.

Local Close Scope Q_scope.
Local Open Scope nat_scope.
Local Open Scope string_scope.
Local Open Scope list_scope.

Infix "+++" := String.append (at level 60, right associativity).

(** ** Python strings *)

Module PyStr.

Definition chr (n : nat) : string := String (ascii_of_nat n) EmptyString.

(** The newline and the two docstring openers (three double quotes,
    three single quotes). *)
Definition nl : string := chr 10.
Definition dquote3 : string := chr 34 +++ chr 34 +++ chr 34.
Definition squote3 : string := "'''".

(** [c.isspace()] on ASCII. *)
Definition isspace (c : ascii) : bool :=
  let n := nat_of_ascii c in
  ((9 <=? n)%nat && (n <=? 13)%nat) || ((28 <=? n)%nat && (n <=? 32)%nat).

Definition isupper (c : ascii) : bool :=
  let n := nat_of_ascii c in (65 <=? n)%nat && (n <=? 90)%nat.

Definition islower (c : ascii) : bool :=
  let n := nat_of_ascii c in (97 <=? n)%nat && (n <=? 122)%nat.

Definition to_lower (c : ascii) : ascii :=
  if isupper c then ascii_of_nat (nat_of_ascii c + 32) else c.

Definition to_upper (c : ascii) : ascii :=
  if islower c then ascii_of_nat (nat_of_ascii c - 32) else c.

(** [s.startswith(p)]. *)
Fixpoint startswith (p s : string) : bool :=
  match p, s with
  | EmptyString, _ => true
  | String _ _, EmptyString => false
  | String a p', String b s' => Ascii.eqb a b && startswith p' s'
  end.

(** [sub in s]. *)
Fixpoint contains (sub s : string) : bool :=
  startswith sub s ||
  match s with
  | EmptyString => false
  | String _ s' => contains sub s'
  end.

(** [s.lower()]. *)
Fixpoint lower (s : string) : string :=
  match s with
  | EmptyString => EmptyString
  | String c s' => String (to_lower c) (lower s')
  end.

(** [s.title()]: a letter is upper-cased when the character before it
    is not a letter, lower-cased otherwise. *)
Fixpoint title_from (prev_cased : bool) (s : string) : string :=
  match s with
  | EmptyString => EmptyString
  | String c s' =>
      if isupper c || islower c
      then String (if prev_cased then to_lower c else to_upper c)
                  (title_from true s')
      else String c (title_from false s')
  end.

Definition titlecase (s : string) : string := title_from false s.

Fixpoint lstrip (s : string) : string :=
  match s with
  | EmptyString => EmptyString
  | String c s' => if isspace c then lstrip s' else s
  end.

Fixpoint rstrip (s : string) : string :=
  match s with
  | EmptyString => EmptyString
  | String c s' =>
      match rstrip s' with
      | EmptyString => if isspace c then EmptyString else String c EmptyString
      | r => String c r
      end
  end.

(** [s.strip()]. *)
Definition strip (s : string) : string := rstrip (lstrip s).

(** [s.split(sep)] for a one-character separator: never the empty
    list, [''.split(sep) == ['']]. *)
Fixpoint split (sep : ascii) (s : string) : list string :=
  match s with
  | EmptyString => [EmptyString]
  | String c s' =>
      if Ascii.eqb c sep then EmptyString :: split sep s'
      else match split sep s' with
           | h :: t => String c h :: t
           | [] => [String c EmptyString]
           end
  end.

Definition splitlines (s : string) : list string := split (ascii_of_nat 10) s.

(** [s.split(sep)] and [s.replace(old, new)] for a separator of one
    or more characters: occurrences are found from the left and do not
    overlap; [skip] counts the characters of a found occurrence that
    are still to be passed over. *)
Fixpoint split_from (sep : string) (skip : nat) (s : string) : list string :=
  match s with
  | EmptyString => [EmptyString]
  | String c s' =>
      match skip with
      | S k => split_from sep k s'
      | O =>
          if startswith sep s
          then EmptyString :: split_from sep (String.length sep - 1) s'
          else match split_from sep 0 s' with
               | h :: t => String c h :: t
               | [] => [String c EmptyString]
               end
      end
  end.

Definition split_str (sep s : string) : list string := split_from sep 0 s.

Fixpoint replace_from (old new : string) (skip : nat) (s : string) : string :=
  match s with
  | EmptyString => EmptyString
  | String c s' =>
      match skip with
      | S k => replace_from old new k s'
      | O =>
          if startswith old s
          then new +++ replace_from old new (String.length old - 1) s'
          else String c (replace_from old new 0 s')
      end
  end.

(** [s.replace(old, new)], [old] not empty (every call of the service
    passes a literal of one to four characters). *)
Definition replace (old new s : string) : string := replace_from old new 0 s.

(** [s[:n]]. *)
Fixpoint take (n : nat) (s : string) : string :=
  match n, s with
  | S k, String c s' => String c (take k s')
  | _, _ => EmptyString
  end.

(** [sep.join(l)]. *)
Fixpoint join (sep : string) (l : list string) : string :=
  match l with
  | [] => EmptyString
  | [x] => x
  | x :: r => x +++ sep +++ join sep r
  end.

(** [str(n)] for an [int]. *)
Definition of_Z (z : Z) : string := NilZero.string_of_int (Z.to_int z).

End PyStr.

(** ** Python values, exceptions and library functions *)

Module Py.
Import PyStr.

(** A value of type [Any]: [None], [bool], [int], [float], [str],
    [list] and [dict] with string keys. *)
#[warnings="-register-all"]
Inductive json : Type :=
| JNull
| JBool (b : bool)
| JInt (z : Z)
| JFloat (q : Q)
| JStr (s : string)
| JArr (l : list json)
| JObj (kv : list (string * json)).

Inductive exn_class : Type :=
| TypeError | AttributeError | KeyError | IndexError | UnboundLocalError
| JSONDecodeError | ValidationError | ClientError | OtherError.

(** An exception: its class and [str(e)]. *)
Record exn : Type := Exn { exn_class_of : exn_class; exn_str : string }.

Inductive outcome (A : Type) : Type :=
| Returned (a : A)
| Raised (e : exn).
Arguments Returned {A} a.
Arguments Raised {A} e.

Definition bind {A B} (m : outcome A) (k : A -> outcome B) : outcome B :=
  match m with
  | Returned a => k a
  | Raised e => Raised e
  end.

Definition raise {A} (c : exn_class) (msg : string) : outcome A :=
  Raised (Exn c msg).

Definition is_json_decode_error (e : exn) : bool :=
  match exn_class_of e with JSONDecodeError => true | _ => false end.

(** [isinstance(v, dict)], [isinstance(v, list)]. *)
Definition is_dict (v : json) : bool :=
  match v with JObj _ => true | _ => false end.
Definition is_list (v : json) : bool :=
  match v with JArr _ => true | _ => false end.

(** [bool(v)]. *)
Definition truthy (v : json) : bool :=
  match v with
  | JNull => false
  | JBool b => b
  | JInt z => negb (Z.eqb z 0)
  | JFloat q => negb (Qeq_bool q 0)
  | JStr s => negb (String.eqb s EmptyString)
  | JArr l => match l with [] => false | _ => true end
  | JObj kv => match kv with [] => false | _ => true end
  end.

(** Lookup in a [dict]. *)
Fixpoint lookup (k : string) (kv : list (string * json)) : option json :=
  match kv with
  | [] => None
  | (k', v) :: r => if String.eqb k k' then Some v else lookup k r
  end.

Definition has_key (k : string) (kv : list (string * json)) : bool :=
  match lookup k kv with Some _ => true | None => false end.

(** [d.get(k, default)] for a dict [d]. *)
Definition dict_get (kv : list (string * json)) (k : string) (default : json) : json :=
  match lookup k kv with Some v => v | None => default end.

(** [v.get(k, default)] for any [v]: only a dict has [get]. *)
Definition get (v : json) (k : string) (default : json) : outcome json :=
  match v with
  | JObj kv => Returned (dict_get kv k default)
  | _ => raise AttributeError "object has no attribute 'get'"
  end.

(** [v[k]] for a string key. *)
Definition getitem (v : json) (k : string) : outcome json :=
  match v with
  | JObj kv =>
      match lookup k kv with
      | Some x => Returned x
      | None => raise KeyError k
      end
  | _ => raise TypeError "indices must be integers or the object is not subscriptable"
  end.

(** [v[i]] for an index [i >= 0]. *)
Definition getindex (v : json) (i : nat) : outcome json :=
  match v with
  | JArr l =>
      match nth_error l i with
      | Some x => Returned x
      | None => raise IndexError "list index out of range"
      end
  | JStr s =>
      match String.get i s with
      | Some c => Returned (JStr (String c EmptyString))
      | None => raise IndexError "string index out of range"
      end
  | JObj _ => raise KeyError "integer key"
  | _ => raise TypeError "object is not subscriptable"
  end.

(** [len(v)]. *)
Definition len (v : json) : outcome nat :=
  match v with
  | JStr s => Returned (String.length s)
  | JArr l => Returned (List.length l)
  | JObj kv => Returned (List.length kv)
  | _ => raise TypeError "object has no len()"
  end.

(** [k in v] for a string [k]. *)
Definition json_is_str (k : string) (v : json) : bool :=
  match v with JStr s => String.eqb k s | _ => false end.

Definition contains_key (k : string) (v : json) : outcome bool :=
  match v with
  | JObj kv => Returned (has_key k kv)
  | JStr s => Returned (contains k s)
  | JArr l => Returned (existsb (json_is_str k) l)
  | _ => raise TypeError "argument is not iterable"
  end.

(** The values a [for] loop over [v] yields. *)
Definition iterate (v : json) : outcome (list json) :=
  match v with
  | JArr l => Returned l
  | JStr s => Returned (map (fun c => JStr (String c EmptyString)) (list_ascii_of_string s))
  | JObj kv => Returned (map (fun p => JStr (fst p)) kv)
  | _ => raise TypeError "object is not iterable"
  end.

(** A number, for [min] and [max]; [True] is 1. *)
Definition number (v : json) : outcome Q :=
  match v with
  | JInt z => Returned (inject_Z z)
  | JFloat q => Returned q
  | JBool b => Returned (if b then 1%Q else 0%Q)
  | _ => raise TypeError "'<' not supported between these instances"
  end.

Definition Qmin (a b : Q) : Q := if Qle_bool a b then a else b.
Definition Qmax (a b : Q) : Q := if Qle_bool b a then a else b.

(** [max(lo, min(hi, v))]. *)
Definition clamp (lo hi : Z) (v : json) : outcome Q :=
  bind (number v) (fun q => Returned (Qmax (inject_Z lo) (Qmin (inject_Z hi) q))).

(** Methods of [str] called on a value of type [Any]. *)
Definition as_str (v : json) : outcome string :=
  match v with
  | JStr s => Returned s
  | _ => raise AttributeError "object has no such str method"
  end.

Definition str_list (l : list string) : json := JArr (map JStr l).

(** The library functions the service calls. *)
Class Lib : Type := {
  (** [json.loads]; [None] is [JSONDecodeError]. *)
  json_loads : string -> option json;
  (** [repr] of a value other than [None], a [bool], an [int] or a [str]. *)
  repr_other : json -> string;
  (** [re.sub(r'^[\d\.\-\*\s]+', '', s)]. *)
  re_sub_markers : string -> string;
  (** [re.sub(r'\*\*(.*?)\*\*', r'\1', s)]. *)
  re_sub_bold : string -> string;
  (** [re.search(r'\*\*(.*?)\*\*', s)], group 1. *)
  re_search_bold : string -> option string;
  (** [re.search(r'\[.*?\]', s, re.DOTALL)], group 0. *)
  re_search_array : string -> option string;
  (** [re.findall] of the spans between two backticks. *)
  re_findall_code : string -> list string;
  (** [str(uuid.uuid4())], by the number of the call. *)
  uuid4 : nat -> string;
  (** [datetime.now()], by the number of the call. *)
  now : nat -> Z;
  (** Validation of a value given to a pydantic field of type [str],
      [Optional[str]] and [List[str]]; [None] is a validation error. *)
  field_str : json -> option string;
  field_opt_str : json -> option (option string);
  field_str_list : json -> option (list string)
}.

(** [str(v)], as an f-string formats a value. *)
Definition str {lib : Lib} (v : json) : string :=
  match v with
  | JStr s => s
  | JNull => "None"
  | JBool true => "True"
  | JBool false => "False"
  | JInt z => of_Z z
  | _ => repr_other v
  end.

End Py.

(** ** Python floats *)

Module Float64.

(** The integer part of the binary logarithm of a positive rational. *)
Definition ilog2 (x : Q) : Z :=
  let c := (Z.log2 (Qnum x) - Z.log2 (Zpos (Qden x)))%Z in
  if Qle_bool (2 ^ c) x then c else (c - 1)%Z.

(** The exponent of the last bit of the binary64 numbers around [x]:
    53 bits of precision, and -1074 for the subnormal numbers. *)
Definition exponent (x : Q) : Z := Z.max (ilog2 (Qabs x) - 52) (-1074).

(** The nearest integer, the even one of two that are equally near. *)
Definition nearest_even (x : Q) : Z :=
  let f := Qfloor x in
  match (x - inject_Z f ?= 1 # 2)%Q with
  | Lt => f
  | Gt => (f + 1)%Z
  | Eq => if Z.even f then f else (f + 1)%Z
  end.

(** The binary64 number nearest to [x], for [x] below the overflow
    threshold (the largest value the engine rounds is 100). *)
Definition round (x : Q) : Q :=
  (inject_Z (nearest_even (x / 2 ^ exponent x)) * 2 ^ exponent x)%Q.

(** [a / b] on two [int]: the correctly rounded quotient; [b] is not
    zero. *)
Definition truediv (a b : Z) : Q := round (inject_Z a / inject_Z b).

(** [x * y] on floats; an [int] operand is converted first, exactly
    when it is below 2^53. *)
Definition mul (x y : Q) : Q := round (x * y).

(** The float a decimal literal denotes. *)
Definition literal (q : Q) : Q := round q.

(** The same quotient and product in the specification of binary64 of
    the standard library, to compare [round] with. *)
Definition of_int (z : Z) : SpecFloat.spec_float :=
  SpecFloat.binary_normalize 53 1024 z 0 false.

Definition value (f : SpecFloat.spec_float) : Q :=
  match f with
  | SpecFloat.S754_finite s m e =>
      (inject_Z (if s then Z.neg m else Z.pos m) * 2 ^ e)%Q
  | _ => 0%Q
  end.

Definition spec_truediv_mul (a b c : Z) : SpecFloat.spec_float :=
  SpecFloat.SFmul 53 1024 (SpecFloat.SFdiv 53 1024 (of_int a) (of_int b)) (of_int c).

End Float64.

(** ** The heuristic code scanners *)

Module Scanner.
Import PyStr Py.

(** [enumerate(l, start)]. *)
Fixpoint enumerate {A} (start : nat) (l : list A) : list (nat * A) :=
  match l with
  | [] => []
  | x :: r => (start, x) :: enumerate (S start) r
  end.

Definition line_no (i : nat) : json := JInt (Z.of_nat i).

Definition js_debug_issue (i : nat) (line : string) : json :=
  JObj [ ("type", JStr "Debug Code");
         ("line", line_no i);
         ("code", JStr (strip line));
         ("issue", JStr "Console.log statement found");
         ("fix", JStr "Remove console.log or replace with proper logging");
         ("severity", JStr "low");
         ("rationale", JStr "Console statements should not remain in production code") ].

Definition js_var_issue (i : nat) (line : string) : json :=
  JObj [ ("type", JStr "Outdated Syntax");
         ("line", line_no i);
         ("code", JStr (strip line));
         ("issue", JStr "Using 'var' instead of 'let' or 'const'");
         ("fix", JStr (replace "var " (if contains "=" line then "const " else "let ") line));
         ("severity", JStr "medium");
         ("rationale", JStr "'let' and 'const' have better scoping rules than 'var'") ].

Definition js_coercion_issue (i : nat) (line : string) : json :=
  JObj [ ("type", JStr "Type Coercion");
         ("line", line_no i);
         ("code", JStr (strip line));
         ("issue", JStr "Using loose equality (==) instead of strict equality (===)");
         ("fix", JStr (replace "!=" "!==" (replace "==" "===" line)));
         ("severity", JStr "medium");
         ("rationale", JStr "Strict equality prevents unexpected type coercion bugs") ].

(** The body of the loop of [_analyze_js_code] for line [i]. *)
Definition js_line_issues (i : nat) (line : string) : list json :=
  (if contains "console.log" line && negb (startswith "//" (strip line))
   then [js_debug_issue i line] else [])
  ++ (if startswith "var " (strip line)
      then [js_var_issue i line] else [])
  ++ (if contains "==" line && negb (contains "===" line) && contains "!=" line
      then [js_coercion_issue i line] else []).

(** [_analyze_js_code]. *)
Definition _analyze_js_code (content : string) : list json :=
  flat_map (fun il => js_line_issues (fst il) (snd il))
           (enumerate 1 (splitlines content)).

Definition py_except_issue (i : nat) (line : string) : json :=
  JObj [ ("type", JStr "Exception Handling");
         ("line", line_no i);
         ("code", JStr (strip line));
         ("issue", JStr "Bare except clause catches all exceptions");
         ("fix", JStr (if contains ":" line then "except Exception as e:"
                       else "except Exception as e:"));
         ("severity", JStr "high");
         ("rationale", JStr "Bare except can hide important errors and make debugging difficult") ].

Definition py_print_issue (i : nat) (line : string) : json :=
  JObj [ ("type", JStr "Debug Code");
         ("line", line_no i);
         ("code", JStr (strip line));
         ("issue", JStr "Print statement found - might be debug code");
         ("fix", JStr "Consider using logging instead: import logging; logging.info(...)");
         ("severity", JStr "low");
         ("rationale", JStr "Use proper logging instead of print statements for better control") ].

Definition py_docstring_issue (i : nat) (line : string) : json :=
  JObj [ ("type", JStr "Documentation");
         ("line", line_no i);
         ("code", JStr (strip line));
         ("issue", JStr "Function missing docstring");
         ("fix", JStr (line +++ nl +++ "    " +++ dquote3
                       +++ "Brief description of what this function does."
                       +++ dquote3));
         ("severity", JStr "low");
         ("rationale", JStr "Docstrings improve code maintainability and help other developers") ].

(** [lines[i] if i < len(lines) else ''], the line after line [i]
    (lines are numbered from 1, the list is indexed from 0). *)
Definition next_line (lines : list string) (i : nat) : string :=
  if (i <? List.length lines)%nat then nth i lines EmptyString else EmptyString.

(** The body of the loop of [_analyze_python_code] for line [i]. *)
Definition py_line_issues (lines : list string) (i : nat) (line : string) : list json :=
  let line_stripped := strip line in
  (if startswith "except:" line_stripped || String.eqb line_stripped "except:"
   then [py_except_issue i line] else [])
  ++ (if startswith "print(" line_stripped && negb (startswith "#" (strip line))
      then [py_print_issue i line] else [])
  ++ (if startswith "def " line_stripped && contains ":" line
      then if negb (startswith dquote3 (strip (next_line lines i)))
              && negb (startswith squote3 (strip (next_line lines i)))
           then [py_docstring_issue i line] else []
      else []).

(** [_analyze_python_code]. *)
Definition _analyze_python_code (content : string) : list json :=
  let lines := splitlines content in
  flat_map (fun il => py_line_issues lines (fst il) (snd il))
           (enumerate 1 lines).

End Scanner.

(** ** The records of [models/schemas.py] *)

Module InputType.
Inductive t : Type := code | logs | screenshot | error_trace | diagram.

(** The value of the enumeration member. *)
Definition value (x : t) : string :=
  match x with
  | code => "code"
  | logs => "logs"
  | screenshot => "screenshot"
  | error_trace => "error_trace"
  | diagram => "diagram"
  end.
End InputType.

Module TaskStatus.
Inductive t : Type := pending | running | completed | failed.

Definition eqb (a b : t) : bool :=
  match a, b with
  | pending, pending | running, running
  | completed, completed | failed, failed => true
  | _, _ => false
  end.
End TaskStatus.

Module WorkflowStatus.
Inductive t : Type := analyzing | completed | failed.
End WorkflowStatus.

Module SuggestionType.
Inductive t : Type := code_fix | configuration | dependency | architecture.
End SuggestionType.

Module Schema.
Import PyStr Py.

Record DebugInput : Type := {
  input_id : string;
  input_type : InputType.t;
  content : json;
  metadata : list (string * json);
  input_timestamp : Z
}.

(** [input_item.dict()]. *)
Definition input_dict (d : DebugInput) : json :=
  JObj [ ("id", JStr (input_id d));
         ("type", JStr (InputType.value (input_type d)));
         ("content", content d);
         ("metadata", JObj (metadata d));
         ("timestamp", JInt (input_timestamp d)) ].

(** [result] is [JNull] for [None]. *)
Record AgentTask : Type := {
  task_id : string;
  agentId : string;
  task_type : string;
  task_input : json;
  task_status : TaskStatus.t;
  result : json;
  error : option string;
  task_timestamp : Z
}.

Record FixSuggestion : Type := {
  sugg_id : string;
  title : string;
  description : string;
  confidence : Q;
  sugg_type : SuggestionType.t;
  originalCode : option string;
  suggestedCode : option string;
  steps : list string;
  rationale : string;
  documentation : list string;
  relatedInputs : list string;
  agent : string
}.

Record AgentWorkflow : Type := {
  wf_id : string;
  inputs : list DebugInput;
  tasks : list AgentTask;
  suggestions : list FixSuggestion;
  status : WorkflowStatus.t;
  progress : Q
}.

Definition set_tasks (wf : AgentWorkflow) (ts : list AgentTask) : AgentWorkflow :=
  {| wf_id := wf_id wf; inputs := inputs wf; tasks := ts;
     suggestions := suggestions wf; status := status wf; progress := progress wf |}.

Definition set_progress (wf : AgentWorkflow) (p : Q) : AgentWorkflow :=
  {| wf_id := wf_id wf; inputs := inputs wf; tasks := tasks wf;
     suggestions := suggestions wf; status := status wf; progress := p |}.

Definition set_status (wf : AgentWorkflow) (st : WorkflowStatus.t) : AgentWorkflow :=
  {| wf_id := wf_id wf; inputs := inputs wf; tasks := tasks wf;
     suggestions := suggestions wf; status := st; progress := progress wf |}.

Definition set_suggestions (wf : AgentWorkflow) (l : list FixSuggestion) : AgentWorkflow :=
  {| wf_id := wf_id wf; inputs := inputs wf; tasks := tasks wf;
     suggestions := l; status := status wf; progress := progress wf |}.

End Schema.

(** ** The task planner *)

Module Planner.
Import PyStr Py Schema.

Section WithLib.
Context {lib : Lib}.

(** A pending task; its timestamp is the reading of the clock at the
    creation of the task, the [k]-th since the start of the plan. *)
Definition new_task (k : nat) (id agent ty : string) (payload : json) : AgentTask :=
  {| task_id := id; agentId := agent; task_type := ty; task_input := payload;
     task_status := TaskStatus.pending; result := JNull; error := None;
     task_timestamp := now k |}.

(** The chain of tests on [input_item.type]: the agent and the task
    type of the per-input task. The chain has no final [else]. *)
Definition route (ty : InputType.t) : option (string * string) :=
  match ty with
  | InputType.logs | InputType.error_trace =>
      Some ("error-extractor", "error_extraction")
  | InputType.code =>
      Some ("code-analyzer", "code_analysis")
  | InputType.screenshot | InputType.diagram =>
      Some ("multimodal-analyzer", "multimodal_analysis")
  end.

Definition task_name (task_counter : nat) : string :=
  "task-" +++ of_Z (Z.of_nat task_counter).

(** The body of the loop over the inputs, on [(tasks, task_counter)]. *)
Definition plan_input (st : list AgentTask * nat) (input_item : DebugInput)
  : list AgentTask * nat :=
  let (tasks, task_counter) := st in
  let task_id := task_name task_counter in
  let task_counter := S task_counter in
  match route (input_type input_item) with
  | Some (agent, ty) =>
      (tasks ++ [new_task (List.length tasks) task_id agent ty (input_dict input_item)],
       task_counter)
  | None => (tasks, task_counter)
  end.

Definition all_inputs (inputs : list DebugInput) : json :=
  JArr (map input_dict inputs).

(** [_plan_tasks]. *)
Definition _plan_tasks (inputs : list DebugInput) : list AgentTask :=
  let (tasks, task_counter) := fold_left plan_input inputs ([], 1) in
  let (tasks, task_counter) :=
    match tasks with
    | _ :: _ =>
        (tasks ++ [new_task (List.length tasks) (task_name task_counter)
                            "doc-retriever" "documentation_search"
                            (all_inputs inputs)],
         S task_counter)
    | [] => (tasks, task_counter)
    end in
  tasks ++ [new_task (List.length tasks) (task_name task_counter)
                     "fix-generator" "fix_generation" (all_inputs inputs)].

End WithLib.
End Planner.

(** ** The result extractors *)

Module Extractors.
Import PyStr Py Scanner.

(** A fact: the dict an extractor appends to its list. *)
Definition fact : Type := list (string * json).

Section WithLib.
Context {lib : Lib}.

(** *** The error-detail extractor *)

(** [xs[i] if i < len(xs) else default]. *)
Definition item_or (xs : json) (i : nat) (default : json) : outcome json :=
  bind (len xs) (fun n => if (i <? n)%nat then getindex xs i else Returned default).

(** [severity in ['critical', 'high']]. *)
Definition severity_is_high (severity : json) : bool :=
  json_is_str "critical" severity || json_is_str "high" severity.

Definition error_fact (error_type severity cause : json) : fact :=
  [ ("type", error_type);
    ("severity", severity);
    ("description", JStr ("Found " +++ str error_type +++ " error"));
    ("rationale", JStr ("Root cause: " +++ str cause));
    ("confidence", JInt (if severity_is_high severity then 85 else 70));
    ("location", JStr "Check the error trace or logs");
    ("steps", str_list [ "Investigate " +++ str error_type +++ " in the codebase";
                         "Address the root cause: " +++ str cause;
                         "Test the fix thoroughly" ]) ].

Definition runtime_error_fact : fact :=
  [ ("type", JStr "Runtime Error");
    ("severity", JStr "high");
    ("description", JStr "Error detected in the provided content");
    ("rationale", JStr "Based on error patterns found in the text");
    ("confidence", JInt 75);
    ("location", JStr "Check the provided logs or stack trace");
    ("steps", str_list [ "Review the error message carefully";
                         "Identify the root cause";
                         "Apply appropriate fixes" ]) ].

(** The body of the loop over [enumerate(error_types)]. *)
Definition error_type_fact (severities root_causes : json) (ie : nat * json)
  : outcome fact :=
  bind (item_or severities (fst ie) (JStr "medium")) (fun severity =>
  bind (item_or root_causes (fst ie) (JStr "Unknown cause")) (fun cause =>
  Returned (error_fact (snd ie) severity cause))).

(** A loop that appends one fact per item, inside a [try] whose handler
    keeps what was appended: the facts up to the first exception. *)
Fixpoint until_raise {X} (body : X -> outcome fact) (xs : list X) : list fact :=
  match xs with
  | [] => []
  | x :: r =>
      match body x with
      | Returned f => f :: until_raise body r
      | Raised _ => []
      end
  end.

(** [_extract_error_details]. *)
Definition _extract_error_details (analysis_result : json) : list fact :=
  match analysis_result with
  | JObj kv =>
      if has_key "error_types" kv then
        let error_types := dict_get kv "error_types" (JArr []) in
        let severities := dict_get kv "severity_levels" (JArr []) in
        let root_causes := dict_get kv "root_causes" (JArr []) in
        match iterate error_types with
        | Returned l =>
            until_raise (error_type_fact severities root_causes) (enumerate 0 l)
        | Raised _ => []
        end
      else if has_key "raw_response" kv then
        match as_str (dict_get kv "raw_response" JNull) with
        | Returned s =>
            let text := lower s in
            if contains "error" text || contains "exception" text
            then [runtime_error_fact] else []
        | Raised _ => []
        end
      else []
  | _ => []
  end.

(** *** The code-issue extractor *)

(** The list [issues] inside the [try] of [_extract_code_issues]: the
    statements so far ran to their end ([Cont]) or raised ([Abort]). *)
Inductive flow : Type :=
| Cont (issues : list fact)
| Abort (e : exn) (issues : list fact).

Definition lift {A} (o : outcome A) (issues : list fact) (k : A -> flow) : flow :=
  match o with
  | Returned a => k a
  | Raised e => Abort e issues
  end.

Definition and_then (f : flow) (k : list fact -> flow) : flow :=
  match f with
  | Cont issues => k issues
  | Abort e issues => Abort e issues
  end.

Fixpoint for_each {X} (body : X -> list fact -> flow) (xs : list X)
  (issues : list fact) : flow :=
  match xs with
  | [] => Cont issues
  | x :: r => and_then (body x issues) (for_each body r)
  end.

Definition direct_fact (issue : list (string * json)) : fact :=
  [ ("category", dict_get issue "type" (JStr "Code Issue"));
    ("description", JStr ("Line " +++ str (dict_get issue "line" (JStr "?")) +++ ": "
                          +++ str (dict_get issue "issue" (JStr "Code issue found"))));
    ("confidence", JInt (if json_is_str "high" (dict_get issue "severity" JNull)
                         then 90 else 75));
    ("code_snippet", dict_get issue "code" (JStr EmptyString));
    ("suggested_improvement", dict_get issue "fix" (JStr EmptyString));
    ("rationale", dict_get issue "rationale" (JStr "Code improvement recommended"));
    ("line_number", dict_get issue "line" JNull);
    ("severity", dict_get issue "severity" (JStr "medium"));
    ("steps", str_list
       [ "Go to line " +++ str (dict_get issue "line" (JStr "?")) +++ " in your code";
         "Replace: " +++ str (dict_get issue "code" (JStr "the problematic code"));
         "With: " +++ str (dict_get issue "fix" (JStr "the suggested fix"));
         "Test to ensure the change works correctly" ]) ].

Definition add_direct_issue (issue : json) (issues : list fact) : flow :=
  match issue with
  | JObj kv => Cont (issues ++ [direct_fact kv])
  | _ => Abort (Exn AttributeError "object has no attribute 'get'") issues
  end.

(** The three places that turn an issue object of the generative
    service into a fact differ in the wording of the steps only. *)
Inductive ai_wording : Type := DirectArray | WholeText | EmbeddedArray.

Definition ai_steps (w : ai_wording) (ai_issue : list (string * json)) : list string :=
  match w with
  | DirectArray =>
      [ "Locate the issue: " +++ str (dict_get ai_issue "description" (JStr "the problem"));
        "Replace: " +++ str (dict_get ai_issue "original_code" (JStr "problematic code"));
        "With: " +++ str (dict_get ai_issue "fixed_code" (JStr "improved code"));
        "Test the changes thoroughly" ]
  | WholeText =>
      [ "Locate: " +++ str (dict_get ai_issue "description" (JStr "the issue"));
        "Replace: " +++ str (dict_get ai_issue "original_code" (JStr "problematic code"));
        "With: " +++ str (dict_get ai_issue "fixed_code" (JStr "improved code"));
        "Test the changes" ]
  | EmbeddedArray =>
      [ "Locate the issue on line " +++ str (dict_get ai_issue "line" (JStr "?"));
        "Current code: " +++ str (dict_get ai_issue "original_code" (JStr "problematic code"));
        "Replace with: " +++ str (dict_get ai_issue "fixed_code" (JStr "improved code"));
        "Test the changes to ensure they work correctly" ]
  end.

Definition ai_fact (w : ai_wording) (ai_issue : list (string * json)) : outcome fact :=
  bind (as_str (dict_get ai_issue "type" (JStr "AI Analysis"))) (fun ty =>
  Returned
    [ ("category", JStr (titlecase (replace "_" " " ty)));
      ("description", dict_get ai_issue "description" (JStr "AI identified issue"));
      ("confidence", JInt 85);
      ("code_snippet", dict_get ai_issue "original_code" (JStr EmptyString));
      ("suggested_improvement", dict_get ai_issue "fixed_code" (JStr EmptyString));
      ("rationale", dict_get ai_issue "rationale" (JStr "Based on AI analysis"));
      ("line_number", dict_get ai_issue "line" JNull);
      ("severity", dict_get ai_issue "severity" (JStr "medium"));
      ("steps", str_list (ai_steps w ai_issue)) ]).

(** [for ai_issue in l: if isinstance(ai_issue, dict): issues.append(...)]. *)
Definition add_ai_issue (w : ai_wording) (ai_issue : json) (issues : list fact) : flow :=
  match ai_issue with
  | JObj kv => lift (ai_fact w kv) issues (fun f => Cont (issues ++ [f]))
  | _ => Cont issues
  end.

(** [if isinstance(parsed_issues, list): for ai_issue in parsed_issues: ...]. *)
Definition add_parsed_issues (w : ai_wording) (parsed_issues : json)
  (issues : list fact) : flow :=
  match parsed_issues with
  | JArr l => for_each (add_ai_issue w) l issues
  | _ => Cont issues
  end.

Definition json_decode_error : exn := Exn JSONDecodeError "No JSON found".

(** The body of the inner [try]; its second branch starts with
    [import re]. *)
Definition parse_raw_text (text : string) (issues : list fact) : flow :=
  if startswith "[" (strip text) then
    match json_loads text with
    | Some parsed_issues => add_parsed_issues WholeText parsed_issues issues
    | None => Abort json_decode_error issues
    end
  else
    match re_search_array text with
    | Some m =>
        match json_loads m with
        | Some parsed_issues => add_parsed_issues EmbeddedArray parsed_issues issues
        | None => Abort json_decode_error issues
        end
    | None => Abort json_decode_error issues
    end.

Definition set_key (k : string) (v : json) (d : fact) : fact :=
  map (fun p => if String.eqb (fst p) k then (fst p, v) else p) d.

Definition numbered (line : string) : bool :=
  startswith "1." line || startswith "2." line || startswith "3." line
  || startswith "4." line || startswith "5." line.

Definition titled_issue (title_text line : string) : fact :=
  let parts := split_str "**" line in
  [ ("category", JStr title_text);
    ("description", JStr (if (2 <? List.length parts)%nat
                          then strip (nth 2 parts EmptyString) else title_text));
    ("confidence", JInt 80);
    ("code_snippet", JStr EmptyString);
    ("suggested_improvement", JStr EmptyString);
    ("rationale", JStr "Identified by AI analysis");
    ("steps", JArr []) ].

(** [current_issue['description'] == current_issue['category']]; both
    entries hold strings. *)
Definition description_is_category (cur : fact) : bool :=
  match dict_get cur "description" JNull, dict_get cur "category" JNull with
  | JStr a, JStr b => String.eqb a b
  | _, _ => false
  end.

(** The state of the loop over the lines of the text: the list
    [issues] and [current_issue]. *)
Definition text_state : Type := (list fact * option fact)%type.

Definition flush (st : text_state) : list fact :=
  match snd st with
  | Some cur => fst st ++ [cur]
  | None => fst st
  end.

(** The body of the loop over the lines, in the handler of
    [JSONDecodeError]. The name [re] is local to the function and bound
    by the [import re] of the second branch of the inner [try] only. *)
Definition text_line (re_imported : bool) (raw_line : string) (st : text_state)
  : outcome text_state :=
  let line := strip raw_line in
  if numbered line && contains "**" line then
    if re_imported then
      match re_search_bold line with
      | Some title_text => Returned (flush st, Some (titled_issue title_text line))
      | None => Returned st
      end
    else raise UnboundLocalError "local variable 're' referenced before assignment"
  else
    match snd st with
    | Some cur =>
        if negb (String.eqb line EmptyString) then
          if contains "should use" (lower line) || contains "instead of" (lower line)
          then Returned (fst st, Some (set_key "suggested_improvement" (JStr line) cur))
          else if description_is_category cur
               then Returned (fst st, Some (set_key "description" (JStr line) cur))
               else Returned st
        else Returned st
    | None => Returned st
    end.

Fixpoint text_lines (re_imported : bool) (lines : list string) (st : text_state)
  : exn * list fact + text_state :=
  match lines with
  | [] => inr st
  | l :: r =>
      match text_line re_imported l st with
      | Returned st' => text_lines re_imported r st'
      | Raised e => inl (e, fst st)
      end
  end.

Definition general_fact (text : string) : fact :=
  [ ("category", JStr "AI Code Analysis");
    ("description", JStr "Code improvements recommended");
    ("confidence", JInt 75);
    ("code_snippet", JStr EmptyString);
    ("suggested_improvement",
       JStr (if (300 <? String.length text)%nat then take 300 text +++ "..." else text));
    ("rationale", JStr "Based on comprehensive AI analysis");
    ("steps", str_list [ "Review the AI analysis findings";
                         "Identify the specific issues mentioned";
                         "Apply the suggested improvements";
                         "Test the updated code thoroughly" ]) ].

(** The handler of [JSONDecodeError]. *)
Definition mine_text (re_imported : bool) (text : string) (issues : list fact) : flow :=
  match text_lines re_imported (splitlines text) (issues, None) with
  | inl (e, issues') => Abort e issues'
  | inr st =>
      let issues' := flush st in
      match issues' with
      | [] => if negb (String.eqb text EmptyString) && (50 <? String.length text)%nat
              then Cont [general_fact text] else Cont []
      | _ :: _ => Cont issues'
      end
  end.

(** The branch [elif 'raw_response' in ai_analysis]. *)
Definition add_raw_response (raw : json) (issues : list fact) : flow :=
  lift (as_str raw) issues (fun text =>
    match parse_raw_text text issues with
    | Cont issues' => Cont issues'
    | Abort e issues' =>
        if is_json_decode_error e
        then mine_text (negb (startswith "[" (strip text))) text issues'
        else Abort e issues'
    end).

(** [ai_analysis = analysis_result.get('ai_analysis', {})] and the
    tests on it, nested as in the source. *)
Definition add_ai_analysis (ai_analysis : json) (issues : list fact) : flow :=
  if is_dict ai_analysis then
    if is_list ai_analysis then
      match ai_analysis with
      | JArr l => for_each (add_ai_issue DirectArray) l issues
      | _ => Cont issues
      end
    else
      match ai_analysis with
      | JObj kv =>
          if has_key "raw_response" kv
          then add_raw_response (dict_get kv "raw_response" JNull) issues
          else Cont issues
      | _ => Cont issues
      end
  else Cont issues.

Definition categories : list string :=
  [ "syntax_errors"; "logic_errors"; "performance_issues";
    "security_vulnerabilities"; "best_practice_violations" ].

Definition legacy_fact (category : string) (issue : list (string * json)) : fact :=
  [ ("category", JStr (titlecase (replace "_" " " category)));
    ("description", dict_get issue "description" (JStr ("Found " +++ category +++ " issue")));
    ("confidence", dict_get issue "confidence" (JInt 80));
    ("code_snippet", dict_get issue "code_snippet" JNull);
    ("suggested_improvement", dict_get issue "suggested_fix" JNull);
    ("rationale", dict_get issue "rationale"
                    (JStr ("This addresses a " +++ category +++ " in your code")));
    ("steps", dict_get issue "steps"
                (str_list [ "Locate the " +++ category +++ " issue";
                            "Apply the suggested improvement";
                            "Verify the code works correctly" ])) ].

Definition add_legacy_issue (category : string) (issue : json) (issues : list fact) : flow :=
  match issue with
  | JObj kv => Cont (issues ++ [legacy_fact category kv])
  | _ => Abort (Exn AttributeError "object has no attribute 'get'") issues
  end.

Definition add_category (analysis_result : list (string * json)) (category : string)
  (issues : list fact) : flow :=
  match lookup category analysis_result with
  | Some (JArr l) => for_each (add_legacy_issue category) l issues
  | _ => Cont issues
  end.

Definition quality_fact : fact :=
  [ ("category", JStr "Code Quality");
    ("description", JStr "Code improvement opportunities identified");
    ("confidence", JInt 70);
    ("rationale", JStr "Based on code analysis patterns");
    ("steps", str_list [ "Review the analysis findings";
                         "Apply suggested improvements";
                         "Test the updated code" ]) ].

Definition quality_terms : list string :=
  [ "bug"; "issue"; "problem"; "improve"; "optimize" ].

(** The body of the [try] of [_extract_code_issues]. *)
Definition code_issues_flow (analysis_result : json) : flow :=
  match analysis_result with
  | JObj kv =>
      if has_key "direct_issues" kv then
        lift (iterate (dict_get kv "direct_issues" (JArr []))) [] (fun l =>
        and_then (for_each add_direct_issue l [])
                 (add_ai_analysis (dict_get kv "ai_analysis" (JObj []))))
      else
        for_each (add_category kv) categories []
  | _ =>
      lift (contains_key "raw_response" analysis_result) [] (fun present =>
        if present then
          lift (getitem analysis_result "raw_response") [] (fun raw =>
          lift (as_str raw) [] (fun s =>
            let text := lower s in
            if existsb (fun term => contains term text) quality_terms
            then Cont [quality_fact] else Cont []))
        else Cont [])
  end.

(** [_extract_code_issues]: the handler of the outer [try] keeps the
    issues appended so far. *)
Definition _extract_code_issues (analysis_result : json) : list fact :=
  match code_issues_flow analysis_result with
  | Cont issues => issues
  | Abort _ issues => issues
  end.

End WithLib.
End Extractors.

(** ** The suggestion compiler *)

Module Compiler.
Import PyStr Py Schema Extractors.

Section WithLib.
Context {lib : Lib}.

(** [task.status == TaskStatus.completed and task.result]. *)
Definition usable (task : AgentTask) : bool :=
  TaskStatus.eqb (task_status task) TaskStatus.completed && truthy (result task).

(** What one task adds to [errors_found], [code_issues] and
    [analysis_content] in the loop over the tasks. *)
Definition errors_of (task : AgentTask) : list fact :=
  if usable task then
    if String.eqb (task_type task) "error_extraction"
    then _extract_error_details (result task) else []
  else [].

Definition code_issues_of (task : AgentTask) : list fact :=
  if usable task then
    if String.eqb (task_type task) "error_extraction" then []
    else if String.eqb (task_type task) "code_analysis"
         then _extract_code_issues (result task) else []
  else [].

(** An entry of [analysis_content]: the dict with the keys [agent],
    [type] and [result]. *)
Record analysis : Type := {
  a_agent : string;
  a_type : string;
  a_result : json
}.

Definition analysis_of (task : AgentTask) : list analysis :=
  if usable task
  then [ {| a_agent := agentId task; a_type := task_type task; a_result := result task |} ]
  else [].

(** The construction of a [FixSuggestion] validates its fields. *)
Definition valid {A} (o : option A) : outcome A :=
  match o with
  | Some a => Returned a
  | None => raise ValidationError "validation error for FixSuggestion"
  end.

(** The suggestion made from an error fact; [k] numbers the call of
    [uuid.uuid4]. *)
Definition error_suggestion (related : list string) (k : nat) (error : fact)
  : outcome FixSuggestion :=
  bind (clamp 70 95 (dict_get error "confidence" (JInt 80))) (fun conf =>
  bind (valid (field_str (dict_get error "description"
                 (JStr "Address this critical error in your code")))) (fun desc =>
  bind (valid (field_opt_str (dict_get error "code_snippet" JNull))) (fun orig =>
  bind (valid (field_opt_str (dict_get error "suggested_fix" JNull))) (fun sugg =>
  bind (valid (field_str_list (dict_get error "steps" (str_list
          [ "Locate the issue in "
              +++ str (dict_get error "location" (JStr "the problematic code"));
            "Apply the suggested fix for "
              +++ str (dict_get error "type" (JStr "this error"));
            "Test the fix to ensure it resolves the issue" ])))) (fun stps =>
  bind (valid (field_str (dict_get error "rationale"
          (JStr ("This fixes a " +++ str (dict_get error "severity" (JStr "critical"))
                 +++ " issue that could cause runtime problems."))))) (fun rat =>
  Returned
    {| sugg_id := uuid4 k;
       title := "Fix " +++ str (dict_get error "type" (JStr "Error")) +++ " Issue";
       description := desc;
       confidence := conf;
       sugg_type := SuggestionType.code_fix;
       originalCode := orig;
       suggestedCode := sugg;
       steps := stps;
       rationale := rat;
       documentation := [];
       relatedInputs := related;
       agent := "Error Analysis Agent" |})))))).

(** The suggestion made from a code-issue fact. *)
Definition issue_suggestion (related : list string) (k : nat) (issue : fact)
  : outcome FixSuggestion :=
  bind (clamp 60 90 (dict_get issue "confidence" (JInt 75))) (fun conf =>
  bind (valid (field_str (dict_get issue "description"
                 (JStr "Address this code quality issue")))) (fun desc =>
  bind (valid (field_opt_str (dict_get issue "code_snippet" JNull))) (fun orig =>
  bind (valid (field_opt_str (dict_get issue "suggested_improvement" JNull))) (fun sugg =>
  bind (valid (field_str_list (dict_get issue "steps" (str_list
          [ "Review the " +++ str (dict_get issue "category" (JStr "code")) +++ " issue";
            "Apply the recommended improvements";
            "Verify the code still functions correctly" ])))) (fun stps =>
  bind (valid (field_str (dict_get issue "rationale"
          (JStr ("This improves " +++ str (dict_get issue "category" (JStr "code quality"))
                 +++ " and follows best practices."))))) (fun rat =>
  Returned
    {| sugg_id := uuid4 k;
       title := "Improve " +++ str (dict_get issue "category" (JStr "Code Quality"));
       description := desc;
       confidence := conf;
       sugg_type := SuggestionType.code_fix;
       originalCode := orig;
       suggestedCode := sugg;
       steps := stps;
       rationale := rat;
       documentation := [];
       relatedInputs := related;
       agent := "Code Analysis Agent" |})))))).

(** A loop that appends one suggestion per fact; an exception leaves
    the compiler. *)
Fixpoint suggest_all (make : nat -> fact -> outcome FixSuggestion) (k : nat)
  (facts : list fact) : outcome (list FixSuggestion) :=
  match facts with
  | [] => Returned []
  | f :: r =>
      bind (make k f) (fun s =>
      bind (suggest_all make (S k) r) (fun l => Returned (s :: l)))
  end.

(** *** The suggestion made from a raw answer of the generative service *)

Definition bullet (line : string) : bool :=
  numbered line || startswith "-" line || startswith "*" line.

Definition key_point (raw_line : string) : list string :=
  let line := strip raw_line in
  if bullet line && (10 <? String.length line)%nat then
    let clean_line := re_sub_markers line in
    let clean_line :=
      if contains "**" clean_line then re_sub_bold clean_line else clean_line in
    if negb (String.eqb clean_line EmptyString) && (5 <? String.length clean_line)%nat
    then [clean_line] else []
  else [].

Definition describe (key_points : list string) : string :=
  match key_points with
  | [] => "AI analysis found areas for improvement in your code."
  | _ :: _ =>
      join ". " (firstn 3 key_points) +++ "."
      +++ (if (3 <? List.length key_points)%nat
           then " Plus " +++ of_Z (Z.of_nat (List.length key_points - 3))
                +++ " more improvement"
                +++ (if (4 <? List.length key_points)%nat then "s" else EmptyString)
                +++ "."
           else EmptyString)
  end.

(** [original_code] and [suggested_code] from the spans in backticks. *)
Definition code_pair (code_matches : list string) : string * string :=
  match code_matches with
  | a :: b :: _ => (a, b)
  | [a] => if contains "==" a then (a, replace "==" "===" a)
           else (EmptyString, EmptyString)
  | [] => (EmptyString, EmptyString)
  end.

Definition clean_steps (original_code suggested_code : string) : list string :=
  if negb (String.eqb original_code EmptyString)
     && negb (String.eqb suggested_code EmptyString)
  then [ "Review the specific issues identified by AI analysis";
         "Replace '" +++ original_code +++ "' with '" +++ suggested_code +++ "'";
         "Focus on the most critical improvements first";
         "Apply the suggested code changes";
         "Test thoroughly to ensure functionality is preserved" ]
  else [ "Review the specific issues identified by AI analysis";
         "Focus on the most critical improvements first";
         "Apply the suggested code changes";
         "Test thoroughly to ensure functionality is preserved" ].

Definition raw_suggestion (related : list string) (k : nat) (ty raw_response : string)
  : FixSuggestion :=
  let key_points := flat_map key_point (splitlines raw_response) in
  let pair := code_pair (re_findall_code raw_response) in
  {| sugg_id := uuid4 k;
     title := "Code Quality Improvements";
     description := describe key_points;
     confidence := 80;
     sugg_type := SuggestionType.code_fix;
     originalCode := Some (fst pair);
     suggestedCode := Some (snd pair);
     steps := clean_steps (fst pair) (snd pair);
     rationale := "Based on AI code analysis";
     documentation := [];
     relatedInputs := related;
     agent := "AI " +++ titlecase (replace "_" " " ty) +++ " Agent" |}.

(** [raw_response = ai_response.get('raw_response', '') if
    isinstance(ai_response, dict) else ''] for [ai_response =
    result.get('ai_analysis', {})]. *)
Definition raw_response_of (result : list (string * json)) : json :=
  match dict_get result "ai_analysis" (JObj []) with
  | JObj d => dict_get d "raw_response" (JStr EmptyString)
  | _ => JStr EmptyString
  end.

(** The loop over [analysis_content], left by [break] after the first
    suggestion. The length of [raw_response] is printed before it is
    tested, and [split] is a method of [str] only. *)
Fixpoint first_raw_suggestion (related : list string) (k : nat) (l : list analysis)
  : outcome (option FixSuggestion) :=
  match l with
  | [] => Returned None
  | a :: r =>
      match a_result a with
      | JObj result =>
          if truthy (a_result a) then
            let raw_response := raw_response_of result in
            bind (len raw_response) (fun n =>
              if truthy raw_response && (50 <? n)%nat then
                bind (as_str raw_response) (fun text =>
                  Returned (Some (raw_suggestion related k (a_type a) text)))
              else first_raw_suggestion related k r)
          else first_raw_suggestion related k r
      | _ => first_raw_suggestion related k r
      end
  end.

Definition fallback_suggestion (related : list string) (k : nat) : FixSuggestion :=
  {| sugg_id := uuid4 k;
     title := "AI Analysis Unavailable";
     description :=
       "Unable to connect to AI analysis service. Please check your configuration.";
     confidence := 30;
     sugg_type := SuggestionType.configuration;
     originalCode := None;
     suggestedCode := None;
     steps := [ "Check internet connection";
                "Verify API configuration";
                "Retry the analysis";
                "Contact support if issues persist" ];
     rationale := "AI analysis service is currently unavailable.";
     documentation := [];
     relatedInputs := related;
     agent := "System" |}.

(** [_compile_suggestions]. *)
Definition _compile_suggestions (workflow : AgentWorkflow)
  : outcome (list FixSuggestion) :=
  let errors_found := flat_map errors_of (tasks workflow) in
  let code_issues := flat_map code_issues_of (tasks workflow) in
  let analysis_content := flat_map analysis_of (tasks workflow) in
  let related := map input_id (inputs workflow) in
  bind (suggest_all (error_suggestion related) 0 (firstn 3 errors_found)) (fun s1 =>
  bind (suggest_all (issue_suggestion related) (List.length s1) (firstn 2 code_issues))
       (fun s2 =>
  let suggestions := s1 ++ s2 in
  match suggestions, analysis_content with
  | [], _ :: _ =>
      bind (first_raw_suggestion related 0 analysis_content) (fun found =>
        match found with
        | Some s => Returned [s]
        | None => Returned [fallback_suggestion related 0]
        end)
  | _, _ => Returned suggestions
  end)).

End WithLib.
End Compiler.

(** ** The generative client adapter *)

Module Adapter.
Import PyStr Py.

(** What [session.post(url, json=payload)] gives: an exception of the
    transport, or a response with its status, [await response.json()]
    and [await response.text()]. *)
Inductive http_reply : Type :=
| NoReply (e : exn)
| Reply (status : nat) (body_json : outcome json) (body_text : outcome string).

(** The remote service. *)
Class Remote : Type := { post : string -> json -> http_reply }.

Section WithLib.
Context {lib : Lib} {remote : Remote}.

Definition base_url : string := "https://generativelanguage.googleapis.com/v1beta".

Definition endpoint (api_key : string) : string :=
  base_url +++ "/models/gemini-1.5-flash:generateContent?key=" +++ api_key.

Definition payload (prompt : string) : json :=
  JObj [ ("contents", JArr [ JObj [ ("parts", JArr [ JObj [ ("text", JStr prompt) ] ]) ] ]);
         ("generationConfig",
            JObj [ ("temperature", JFloat (Float64.literal (3 # 10)));
                   ("topK", JInt 40);
                   ("topP", JFloat (Float64.literal (95 # 100)));
                   ("maxOutputTokens", JInt 2048) ]) ].

(** [data.get('candidates', [{}])[0].get('content', {}).get('parts',
    [{}])[0].get('text', '')]. *)
Definition generated_text (data : json) : outcome json :=
  bind (get data "candidates" (JArr [JObj []])) (fun candidates =>
  bind (getindex candidates 0) (fun candidate =>
  bind (get candidate "content" (JObj [])) (fun content =>
  bind (get content "parts" (JArr [JObj []])) (fun parts =>
  bind (getindex parts 0) (fun part =>
  get part "text" (JStr EmptyString)))))).

Definition raw_text_payload (text : string) : json :=
  JObj [ ("raw_response", JStr text); ("parsed", JBool false) ].

Definition http_error_payload (status : nat) (error_text : string) : json :=
  JObj [ ("error", JStr ("API call failed: " +++ of_Z (Z.of_nat status)));
         ("details", JStr error_text) ].

Definition exception_payload (e : exn) : json :=
  JObj [ ("error", JStr ("Failed to call Gemini API: " +++ exn_str e)) ].

(** The inner [try]: [json.loads(text)], with the handler of
    [JSONDecodeError]. [json.loads] takes a [str]. *)
Definition decode (text : json) : outcome json :=
  match text with
  | JStr t =>
      match json_loads t with
      | Some parsed => Returned parsed
      | None => Returned (raw_text_payload t)
      end
  | _ => raise TypeError "the JSON object must be str, bytes or bytearray"
  end.

(** The body of the outer [try]. The length of the text is printed
    before the text is decoded. *)
Definition call_body (api_key prompt : string) : outcome json :=
  match post (endpoint api_key) (payload prompt) with
  | NoReply e => Raised e
  | Reply status body_json body_text =>
      if (status =? 200)%nat then
        bind body_json (fun data =>
        bind (generated_text data) (fun text =>
        bind (len text) (fun _ =>
        decode text)))
      else
        bind body_text (fun error_text =>
        Returned (http_error_payload status error_text))
  end.

(** [_call_gemini_api]: the handler of the outer [try] returns. *)
Definition _call_gemini_api (api_key prompt : string) : outcome json :=
  match call_body api_key prompt with
  | Returned v => Returned v
  | Raised e => Returned (exception_payload e)
  end.

End WithLib.
End Adapter.

(** ** The workflow executor *)

Module Executor.
Import PyStr Py Schema Planner Compiler.

(** The five handlers of the tasks. Each one awaits the remote service
    or the file system: it reads and changes a world of type [World],
    and returns or raises. *)
Class Handlers (World : Type) : Type := {
  _extract_errors : json -> World -> outcome json * World;
  _analyze_code : json -> World -> outcome json * World;
  _analyze_multimodal : json -> World -> outcome json * World;
  _search_documentation : json -> World -> outcome json * World;
  _generate_fixes : AgentWorkflow -> World -> outcome json * World
}.

(** [l[i] = x]. *)
Fixpoint set_nth {A} (i : nat) (x : A) (l : list A) : list A :=
  match l, i with
  | [], _ => []
  | _ :: r, O => x :: r
  | y :: r, S j => y :: set_nth j x r
  end.

Definition with_status (t : AgentTask) (st : TaskStatus.t) : AgentTask :=
  {| task_id := task_id t; agentId := agentId t; task_type := task_type t;
     task_input := task_input t; task_status := st; result := result t;
     error := error t; task_timestamp := task_timestamp t |}.

Definition with_result (t : AgentTask) (r : json) : AgentTask :=
  {| task_id := task_id t; agentId := agentId t; task_type := task_type t;
     task_input := task_input t; task_status := task_status t; result := r;
     error := error t; task_timestamp := task_timestamp t |}.

Definition with_error (t : AgentTask) (msg : string) : AgentTask :=
  {| task_id := task_id t; agentId := agentId t; task_type := task_type t;
     task_input := task_input t; task_status := task_status t; result := result t;
     error := Some msg; task_timestamp := task_timestamp t |}.

(** [(completed_tasks / total_tasks) * 100]: the quotient of the two
    counters as a float, times 100 as a float. In the loop
    [total_tasks] is at least 1 and [completed_tasks] at most
    [total_tasks]. *)
Definition progress_of (completed_tasks total_tasks : nat) : Q :=
  Float64.mul (Float64.truediv (Z.of_nat completed_tasks) (Z.of_nat total_tasks)) 100.

Section WithWorld.
Context {lib : Lib} {World : Type} {handlers : Handlers World}.

(** The state of the loop of [_execute_workflow]. *)
Record loop_state : Type := {
  workflow : AgentWorkflow;
  completed_tasks : nat;
  world : World
}.

(** The chain of tests on [task.type] in the body of the [try]: the
    value of [task.result] after it, or the exception. With no branch
    taken the result is left as it is. *)
Definition dispatch (task : AgentTask) (wf : AgentWorkflow) (w : World)
  : outcome json * World :=
  if String.eqb (task_type task) "error_extraction"
  then _extract_errors (task_input task) w
  else if String.eqb (task_type task) "code_analysis"
  then _analyze_code (task_input task) w
  else if String.eqb (task_type task) "multimodal_analysis"
  then _analyze_multimodal (task_input task) w
  else if String.eqb (task_type task) "documentation_search"
  then _search_documentation (task_input task) w
  else if String.eqb (task_type task) "fix_generation"
  then _generate_fixes wf w
  else (Returned (result task), w).

(** The workflow as the handler of task [i] sees it: the task is
    running. *)
Definition started (wf : AgentWorkflow) (i : nat) (task : AgentTask) : AgentWorkflow :=
  set_tasks wf (set_nth i (with_status task TaskStatus.running) (tasks wf)).

(** What the handler of task [i] does in state [st]. *)
Definition handler_outcome (st : loop_state) (i : nat) (task : AgentTask)
  : outcome json * World :=
  dispatch (with_status task TaskStatus.running) (started (workflow st) i task) (world st).

(** The task after the body of the loop. *)
Definition finished (task : AgentTask) (o : outcome json) : AgentTask :=
  match o with
  | Returned r =>
      with_status (with_result (with_status task TaskStatus.running) r)
                  TaskStatus.completed
  | Raised e =>
      with_error (with_status (with_status task TaskStatus.running) TaskStatus.failed)
                 (exn_str e)
  end.

(** One turn of the loop, for the task at position [i]. *)
Definition run_task (total_tasks : nat) (st : loop_state) (i : nat) : loop_state :=
  match nth_error (tasks (workflow st)) i with
  | None => st
  | Some task =>
      let (o, w) := handler_outcome st i task in
      let completed_tasks := S (completed_tasks st) in
      {| workflow :=
           set_progress
             (set_tasks (workflow st) (set_nth i (finished task o) (tasks (workflow st))))
             (progress_of completed_tasks total_tasks);
         completed_tasks := completed_tasks;
         world := w |}
  end.

Definition initial (wf : AgentWorkflow) (w : World) : loop_state :=
  {| workflow := wf; completed_tasks := 0; world := w |}.

(** The state of the loop after the first [k] tasks. *)
Definition after (wf : AgentWorkflow) (w : World) (k : nat) : loop_state :=
  fold_left (run_task (List.length (tasks wf))) (seq 0 k) (initial wf w).

(** [_execute_workflow]: the workflow it leaves behind, and whether it
    returned or raised. *)
Definition _execute_workflow (wf : AgentWorkflow) (w : World)
  : outcome unit * AgentWorkflow * World :=
  let st := after wf w (List.length (tasks wf)) in
  match _compile_suggestions (workflow st) with
  | Returned l =>
      (Returned tt,
       set_status (set_suggestions (workflow st) l) WorkflowStatus.completed,
       world st)
  | Raised e => (Raised e, workflow st, world st)
  end.

(** [start_workflow], for the identifier [workflow_id] it draws. *)
Definition start_workflow (workflow_id : string) (inputs : list DebugInput) (w : World)
  : AgentWorkflow * World :=
  let workflow :=
    {| wf_id := workflow_id; inputs := inputs; tasks := []; suggestions := [];
       status := WorkflowStatus.analyzing; progress := 0 |} in
  let workflow := set_tasks workflow (_plan_tasks inputs) in
  match _execute_workflow workflow w with
  | (Returned _, workflow', w') => (workflow', w')
  | (Raised _, workflow', w') =>
      (set_progress (set_status workflow' WorkflowStatus.failed) 100, w')
  end.

End WithWorld.
End Executor.

(** ** The handlers of the service *)

Module Service.
Import PyStr Py Schema Scanner Adapter Compiler Executor.

(** What the handlers take from outside the engine: the key of the
    remote service, the file system, [json.dumps] and the wording of
    the four prompts. *)
Class Environment : Type := {
  api_key : string;
  (** Reading the file at a path, as [aiofiles] does. *)
  read_file : json -> outcome string;
  (** [json.dumps(v, indent=2)]. *)
  json_dumps : json -> outcome string;
  (** The prompts, from the values their f-strings insert. *)
  errors_prompt : json -> string -> string;
  code_prompt : string -> string;
  documentation_prompt : string -> string;
  fixes_prompt : string -> string
}.

Section WithEnvironment.
Context {lib : Lib} {remote : Remote} {env : Environment}.

(** [input_data.get('metadata', {}).get(k, default)]. *)
Definition metadata_get (input_data : json) (k : string) (default : json)
  : outcome json :=
  bind (get input_data "metadata" (JObj [])) (fun md => get md k default).

(** [_get_content]. *)
Definition _get_content (input_data : json) : outcome string :=
  bind (metadata_get input_data "is_file" JNull) (fun is_file =>
  if truthy is_file then
    bind (getitem input_data "content") (fun file_path =>
    match read_file file_path with
    | Returned text => Returned text
    | Raised e => Returned ("[Error reading file: " +++ exn_str e +++ "]")
    end)
  else
    bind (getitem input_data "content") (fun c => Returned (str c))).

(** [_extract_errors]. *)
Definition _extract_errors (input_data : json) : outcome json :=
  bind (_get_content input_data) (fun content =>
  bind (getitem input_data "type") (fun ty =>
  _call_gemini_api api_key (errors_prompt ty content))).

(** The file name of the input, in lower case. *)
Definition filename_of (input_data : json) : outcome string :=
  bind (metadata_get input_data "filename" (JStr EmptyString)) (fun name =>
  bind (as_str name) (fun s => Returned (lower s))).

Definition js_suffixes : list string := [ ".js"; ".ts"; ".jsx"; ".tsx" ].

(** [_analyze_code]: the scanner of the language of the file name,
    then the generative service on the first 1500 characters. *)
Definition _analyze_code (input_data : json) : outcome json :=
  bind (_get_content input_data) (fun content =>
  bind (filename_of input_data) (fun filename =>
  let issues :=
    if existsb (fun lang => contains lang filename) js_suffixes
    then _analyze_js_code content
    else if contains ".py" filename
         then _analyze_python_code content
         else [] in
  bind (_call_gemini_api api_key (code_prompt (take 1500 content))) (fun api_result =>
  Returned (JObj [ ("direct_issues", JArr issues);
                   ("ai_analysis", api_result);
                   ("analysis_type", JStr "code_review") ])))).

Definition image_analysis : json :=
  JObj [ ("type", JStr "multimodal_analysis");
         ("image_analyzed", JBool true);
         ("elements_detected",
            str_list [ "UI components"; "Error dialogs"; "Layout elements"; "Text content" ]);
         ("issues_found",
            JArr [ JObj [ ("type", JStr "ui_bug");
                          ("description", JStr "Button alignment issue detected");
                          ("severity", JStr "medium");
                          ("location", JStr "top-right corner");
                          ("confidence", JFloat (Float64.literal (85 # 100))) ];
                   JObj [ ("type", JStr "layout_issue");
                          ("description",
                             JStr "Responsive design problem on mobile viewport");
                          ("severity", JStr "high");
                          ("location", JStr "main content area");
                          ("confidence", JFloat (Float64.literal (92 # 100))) ] ]);
         ("suggestions",
            str_list [ "Check CSS flexbox alignment properties";
                       "Verify responsive design breakpoints";
                       "Test on different screen sizes";
                       "Validate accessibility standards" ]);
         ("technical_details",
            JObj [ ("image_dimensions", JStr "1920x1080");
                   ("analysis_confidence", JFloat (Float64.literal (88 # 100)));
                   ("processing_time_ms", JInt 1250) ]) ].

Definition diagram_analysis (description : json) : json :=
  JObj [ ("type", JStr "diagram_analysis");
         ("description_analyzed", description);
         ("architectural_elements", str_list [ "components"; "connections"; "data_flow" ]);
         ("potential_issues",
            str_list [ "coupling"; "scalability"; "single_points_of_failure" ]);
         ("recommendations",
            str_list [ "decouple services"; "add redundancy"; "implement caching" ]) ].

(** [_analyze_multimodal]. *)
Definition _analyze_multimodal (input_data : json) : outcome json :=
  bind (metadata_get input_data "is_file" JNull) (fun is_file =>
  if truthy is_file then
    bind (getitem input_data "content") (fun _ => Returned image_analysis)
  else
    bind (getitem input_data "content") (fun c => Returned (diagram_analysis c))).

(** The body of the loop of [_search_documentation]. *)
Definition context_line (input_data : json) : outcome string :=
  bind (_get_content input_data) (fun content =>
  bind (getitem input_data "type") (fun ty =>
  Returned (str ty +++ ": " +++ take 500 content +++ "..."))).

Fixpoint context_lines (l : list json) : outcome (list string) :=
  match l with
  | [] => Returned []
  | x :: r =>
      bind (context_line x) (fun line =>
      bind (context_lines r) (fun lines => Returned (line :: lines)))
  end.

(** [_search_documentation]. *)
Definition _search_documentation (inputs : json) : outcome json :=
  bind (iterate inputs) (fun l =>
  bind (context_lines l) (fun error_context =>
  _call_gemini_api api_key (documentation_prompt (join nl error_context)))).

Definition analysis_result_of (task : AgentTask) : list json :=
  if usable task
  then [ JObj [ ("agent", JStr (agentId task));
                ("type", JStr (task_type task));
                ("result", result task) ] ]
  else [].

(** [_generate_fixes]. *)
Definition _generate_fixes (workflow : AgentWorkflow) : outcome json :=
  bind (json_dumps (JArr (flat_map analysis_result_of (tasks workflow)))) (fun dumped =>
  _call_gemini_api api_key (fixes_prompt dumped)).

(** The handlers of [AIAgentService]; what they read of the world is
    in [remote] and [env]. *)
Definition handlers : Handlers unit :=
  {| Executor._extract_errors := fun input w => (_extract_errors input, w);
     Executor._analyze_code := fun input w => (_analyze_code input, w);
     Executor._analyze_multimodal := fun input w => (_analyze_multimodal input, w);
     Executor._search_documentation := fun inputs w => (_search_documentation inputs, w);
     Executor._generate_fixes := fun workflow w => (_generate_fixes workflow, w) |}.

End WithEnvironment.
End Service.

(** ** The agents of the service *)

Module Registry.
Import PyStr Py.

Record AIAgent : Type := {
  agent_id : string;
  agent_name : string;
  agent_description : string;
  capabilities : list string
}.

(** [self.agents], as [__init__] builds it. *)
Definition agents : list AIAgent :=
  [ {| agent_id := "error-extractor";
       agent_name := "Error Extraction Agent";
       agent_description := "Extracts and categorizes errors from logs and stack traces";
       capabilities := [ "log_parsing"; "error_classification"; "stack_trace_analysis" ] |};
    {| agent_id := "code-analyzer";
       agent_name := "Code Analysis Agent";
       agent_description :=
         "Analyzes code for bugs, performance issues, and best practices";
       capabilities := [ "static_analysis"; "bug_detection"; "performance_analysis" ] |};
    {| agent_id := "doc-retriever";
       agent_name := "Documentation Retrieval Agent";
       agent_description := "Searches and retrieves relevant documentation and solutions";
       capabilities := [ "documentation_search"; "solution_matching"; "api_reference" ] |};
    {| agent_id := "fix-generator";
       agent_name := "Fix Generation Agent";
       agent_description := "Generates code fixes and provides detailed rationales";
       capabilities := [ "code_generation"; "fix_validation"; "explanation_generation" ] |};
    {| agent_id := "multimodal-analyzer";
       agent_name := "Multimodal Analysis Agent";
       agent_description := "Analyzes screenshots, diagrams, and UI elements for bugs";
       capabilities := [ "image_analysis"; "ui_bug_detection"; "diagram_interpretation" ] |} ].

(** [get_agents]. *)
Definition get_agents : list AIAgent := agents.

(** [get_agent_by_id]: the first agent with the identifier, or [None]. *)
Definition get_agent_by_id (id : string) : option AIAgent :=
  find (fun agent => String.eqb (agent_id agent) id) agents.

(** [_get_agent_name]. *)
Definition _get_agent_name (id : string) : string :=
  match get_agent_by_id id with
  | Some agent => agent_name agent
  | None => "Unknown Agent"
  end.

End Registry.

(** ** The endpoints of [main.py] that drive the engine *)

Module Api.
Import PyStr Py Schema Planner Compiler Executor.

(** [determine_file_type]; a missing content type counts as the empty
    string. *)
Definition determine_file_type (filename content_type : string) : string :=
  let filename_lower := lower filename in
  if negb (String.eqb content_type EmptyString) && startswith "image/" content_type
  then "screenshot"
  else if existsb (fun ext => contains ext filename_lower) [ ".log"; ".logs" ]
  then "logs"
  else if existsb (fun ext => contains ext filename_lower) [ ".trace"; ".stack" ]
  then "error_trace"
  else if existsb (fun ext => contains ext filename_lower)
            [ ".js"; ".ts"; ".py"; ".java"; ".cpp"; ".c"; ".go"; ".rb" ]
  then "code"
  else if existsb (fun ext => contains ext filename_lower) [ ".svg"; ".drawio"; ".vsd" ]
  then "diagram"
  else "code".

(** [workflows_storage]: a dict from workflow identifiers to workflows. *)
Definition storage : Type := list (string * AgentWorkflow).

Fixpoint stored (workflow_id : string) (s : storage) : option AgentWorkflow :=
  match s with
  | [] => None
  | (k, wf) :: r => if String.eqb workflow_id k then Some wf else stored workflow_id r
  end.

(** [workflows_storage[workflow_id] = workflow]. *)
Fixpoint store (workflow_id : string) (wf : AgentWorkflow) (s : storage) : storage :=
  match s with
  | [] => [(workflow_id, wf)]
  | (k, old) :: r =>
      if String.eqb workflow_id k then (k, wf) :: r
      else (k, old) :: store workflow_id wf r
  end.

(** A session of [analysis_queue]: its inputs, its status and the
    workflow started for it. The inputs are kept as the dicts of
    [DebugInput] records and read back as such records. *)
Record session : Type := {
  session_inputs : list DebugInput;
  session_status : string;
  session_workflow : option string
}.

Definition queue : Type := list (string * session).

Fixpoint queued (session_id : string) (q : queue) : option session :=
  match q with
  | [] => None
  | (k, x) :: r => if String.eqb session_id k then Some x else queued session_id r
  end.

Fixpoint enqueue (session_id : string) (x : session) (q : queue) : queue :=
  match q with
  | [] => [(session_id, x)]
  | (k, old) :: r =>
      if String.eqb session_id k then (k, x) :: r
      else (k, old) :: enqueue session_id x r
  end.

(** An [HTTPException]: its status code and detail. *)
Record http_exception : Type := { status_code : nat; detail : string }.

(** [request.session_id or 'default']. *)
Definition session_key (session_id : option string) : string :=
  match session_id with
  | Some id => if String.eqb id EmptyString then "default" else id
  | None => "default"
  end.

Section WithLib.
Context {lib : Lib}.

(** [start_analysis], for the identifier [workflow_id] it draws: the
    workflow it stores and the session it marks, or the exception. The
    execution is left to the background task. *)
Definition start_analysis (session_id : option string) (workflow_id : string)
  (q : queue) (s : storage) : http_exception + (AgentWorkflow * queue * storage) :=
  let session_id := session_key session_id in
  match queued session_id q with
  | None => inl {| status_code := 404; detail := "No inputs found for session" |}
  | Some session_data =>
      match session_inputs session_data with
      | [] => inl {| status_code := 400; detail := "No inputs available for analysis" |}
      | inputs =>
          let workflow :=
            {| wf_id := workflow_id; inputs := inputs; tasks := _plan_tasks inputs;
               suggestions := []; status := WorkflowStatus.analyzing; progress := 0 |} in
          inr (workflow,
               enqueue session_id
                 {| session_inputs := session_inputs session_data;
                    session_status := "analyzing";
                    session_workflow := Some workflow_id |} q,
               store workflow_id workflow s)
      end
  end.

End WithLib.

Section WithWorld.
Context {lib : Lib} {World : Type} {handlers : Handlers World}.

(** [run_analysis_workflow]: the workflow object in the storage is the
    one the executor changes; when the executor raises it is marked
    failed at progress 100. An unknown identifier raises inside the
    [try] and leaves the storage as it is. *)
Definition run_analysis_workflow (workflow_id : string) (s : storage) (w : World)
  : storage * World :=
  match stored workflow_id s with
  | None => (s, w)
  | Some workflow =>
      match _execute_workflow workflow w with
      | (Returned _, workflow', w') => (store workflow_id workflow' s, w')
      | (Raised _, workflow', w') =>
          (store workflow_id
             (set_progress (set_status workflow' WorkflowStatus.failed) 100) s,
           w')
      end
  end.

End WithWorld.

(** An entry of the task list of [get_workflow_status]. *)
Record task_view : Type := {
  view_id : string;
  view_agent_id : string;
  view_type : string;
  view_status : TaskStatus.t;
  view_error : option string
}.

Definition view_of (task : AgentTask) : task_view :=
  {| view_id := task_id task;
     view_agent_id := agentId task;
     view_type := task_type task;
     view_status := task_status task;
     view_error := if TaskStatus.eqb (task_status task) TaskStatus.failed
                   then error task else None |}.

Definition count_status (st : TaskStatus.t) (l : list AgentTask) : nat :=
  List.length (filter (fun t => TaskStatus.eqb (task_status t) st) l).

Record workflow_view : Type := {
  wv_workflow_id : string;
  wv_status : WorkflowStatus.t;
  wv_progress : Q;
  wv_tasks : list task_view;
  wv_suggestions_count : nat;
  wv_completed_tasks : nat;
  wv_total_tasks : nat
}.

(** [get_workflow_status]; [None] is the exception 404. *)
Definition get_workflow_status (workflow_id : string) (s : storage)
  : option workflow_view :=
  match stored workflow_id s with
  | None => None
  | Some workflow =>
      Some {| wv_workflow_id := workflow_id;
              wv_status := status workflow;
              wv_progress := progress workflow;
              wv_tasks := map view_of (tasks workflow);
              wv_suggestions_count := List.length (suggestions workflow);
              wv_completed_tasks := count_status TaskStatus.completed (tasks workflow);
              wv_total_tasks := List.length (tasks workflow) |}
  end.

(** The answer of [get_suggestions]: without the suggestions and with
    a message while the workflow is not completed, with them and the
    summary of the analysis once it is. *)
Inductive suggestions_view : Type :=
| NotCompleted (st : WorkflowStatus.t) (message : string)
| Completed (l : list FixSuggestion) (suggestions_count total_tasks
             completed_tasks failed_tasks : nat) (agents_used : list string).

(** [list(set(...))]; the order of a set is not fixed, the agents are
    listed here in the order of their last task. *)
Definition agents_used_of (l : list AgentTask) : list string :=
  nodup string_dec (map agentId l).

(** [get_suggestions]; [None] is the exception 404. *)
Definition get_suggestions (workflow_id : string) (s : storage)
  : option suggestions_view :=
  match stored workflow_id s with
  | None => None
  | Some workflow =>
      match status workflow with
      | WorkflowStatus.completed =>
          Some (Completed (suggestions workflow)
                          (List.length (suggestions workflow))
                          (List.length (tasks workflow))
                          (count_status TaskStatus.completed (tasks workflow))
                          (count_status TaskStatus.failed (tasks workflow))
                          (agents_used_of (tasks workflow)))
      | WorkflowStatus.analyzing =>
          Some (NotCompleted WorkflowStatus.analyzing "Analysis still in progress")
      | WorkflowStatus.failed =>
          Some (NotCompleted WorkflowStatus.failed "Analysis failed")
      end
  end.

End Api.

(** ** Stand-ins for the libraries and the remote service

    Enough of the libraries, of the handlers and of the remote service
    to run the embedding on examples. *)

Module Examples.
Import PyStr Py Schema Adapter Executor.

(** A decoder for three JSON texts, and regular expressions that match
    nothing. *)
Definition sample_lib : Lib :=
  {| json_loads := fun text =>
       if String.eqb text "{}" then Some (JObj [])
       else if String.eqb text "[]" then Some (JArr [])
       else if String.eqb text "null" then Some JNull
       else None;
     repr_other := fun _ => "<object>";
     re_sub_markers := fun s => s;
     re_sub_bold := fun s => s;
     re_search_bold := fun _ => None;
     re_search_array := fun _ => None;
     re_findall_code := fun _ => [];
     uuid4 := fun k => "uuid-" +++ of_Z (Z.of_nat k);
     now := fun k => Z.of_nat k;
     field_str := fun v => match v with JStr s => Some s | _ => None end;
     field_opt_str := fun v =>
       match v with JStr s => Some (Some s) | JNull => Some None | _ => None end;
     field_str_list := fun v =>
       match v with
       | JArr l =>
           fold_right (fun x acc =>
                         match x, acc with
                         | JStr s, Some r => Some (s :: r)
                         | _, _ => None
                         end) (Some []) l
       | _ => None
       end |}.

Definition boom : exn := Exn OtherError "boom".

(** Handlers that all raise. *)
Definition failing_handlers : Handlers unit :=
  {| _extract_errors := fun _ w => (Raised boom, w);
     _analyze_code := fun _ w => (Raised boom, w);
     _analyze_multimodal := fun _ w => (Raised boom, w);
     _search_documentation := fun _ w => (Raised boom, w);
     _generate_fixes := fun _ w => (Raised boom, w) |}.

(** Handlers of which the code analysis raises and the others return a
    raw text without bullets. *)
Definition mixed_handlers : Handlers unit :=
  {| _extract_errors := fun _ w =>
       (Returned (raw_text_payload "ERROR: TypeError in line 3"), w);
     _analyze_code := fun _ w => (Raised boom, w);
     _analyze_multimodal := fun _ w => (Returned (JObj [("type", JStr "diagram_analysis")]), w);
     _search_documentation := fun _ w => (Returned (raw_text_payload "see the manual"), w);
     _generate_fixes := fun _ w => (Returned (raw_text_payload "no fix"), w) |}.

Definition sample_input (id : string) (ty : InputType.t) (text : string) : DebugInput :=
  {| input_id := id; input_type := ty; content := JStr text; metadata := [];
     input_timestamp := 0 |}.

(** A remote service that answers every request with the given reply. *)
Definition always (r : http_reply) : Remote := {| post := fun _ _ => r |}.

(** The body of an answer of the service whose generated text is [text]. *)
Definition envelope (text : string) : json :=
  JObj [ ("candidates",
          JArr [ JObj [ ("content",
                         JObj [ ("parts", JArr [ JObj [ ("text", JStr text) ] ]) ]) ] ]) ].

(** The service answers 200 with the generated text [text]. *)
Definition answers (text : string) : Remote :=
  always (Reply 200 (Returned (envelope text)) (Returned text)).

(** A text of the service: an object whose raw_response is a number. *)
Definition quoted (s : string) : string := PyStr.chr 34 +++ s +++ PyStr.chr 34.

Definition number_answer : string :=
  "{" +++ quoted "ai_analysis" +++ ": {" +++ quoted "raw_response" +++ ": 5}}".

(** A decoder that knows this text as well. *)
Definition number_lib : Lib :=
  {| json_loads := fun text =>
       if String.eqb text number_answer
       then Some (JObj [ ("ai_analysis", JObj [ ("raw_response", JInt 5) ]) ])
       else json_loads (Lib := sample_lib) text;
     repr_other := repr_other (Lib := sample_lib);
     re_sub_markers := re_sub_markers (Lib := sample_lib);
     re_sub_bold := re_sub_bold (Lib := sample_lib);
     re_search_bold := re_search_bold (Lib := sample_lib);
     re_search_array := re_search_array (Lib := sample_lib);
     re_findall_code := re_findall_code (Lib := sample_lib);
     uuid4 := uuid4 (Lib := sample_lib);
     now := now (Lib := sample_lib);
     field_str := field_str (Lib := sample_lib);
     field_opt_str := field_opt_str (Lib := sample_lib);
     field_str_list := field_str_list (Lib := sample_lib) |}.

(** A code input whose file name is a number. *)
Definition numbered_input : DebugInput :=
  {| input_id := "in-1"; input_type := InputType.code; content := JStr "x = 1";
     metadata := [ ("filename", JInt 5) ]; input_timestamp := 0 |}.

(** No file can be read; the prompts are their arguments. *)
Definition sample_env : Service.Environment :=
  {| Service.api_key := "key";
     Service.read_file := fun _ => Raised (Exn OtherError "No such file or directory");
     Service.json_dumps := fun _ => Returned "[...]";
     Service.errors_prompt := fun ty content => "Analyze the following " +++ str (lib := sample_lib) ty +++ ": " +++ content;
     Service.code_prompt := fun content => "Analyze this code: " +++ content;
     Service.documentation_prompt := fun context => "Suggest documentation for: " +++ context;
     Service.fixes_prompt := fun results => "Generate fixes for: " +++ results |}.

End Examples.

(** * Properties *)

(** ** The task planner *)

Module PlannerFacts.
Import PyStr Py Schema Planner.

Section WithLib.
Context {lib : Lib}.

(** What the planner makes of one input: a pending task for the agent
    of its kind, carrying the input. *)
Definition planned_for (d : DebugInput) (t : AgentTask) : Prop :=
  route (input_type d) = Some (agentId t, task_type t)
  /\ task_input t = input_dict d
  /\ task_status t = TaskStatus.pending.

Lemma route_total (ty : InputType.t) :
  exists agent kind, route ty = Some (agent, kind) /\ kind <> "fix_generation"
                     /\ kind <> "documentation_search".
Proof.
  destruct ty; simpl; eexists; eexists; (split; [reflexivity | split; discriminate]).
Qed.

(** The loop over the inputs appends one task per input and counts
    the inputs. *)
Lemma plan_inputs (inputs : list DebugInput) :
  forall tasks task_counter,
  exists per_input,
    fold_left plan_input inputs (tasks, task_counter)
      = (tasks ++ per_input, task_counter + List.length inputs)
    /\ Forall2 planned_for inputs per_input.
Proof.
  induction inputs as [| d inputs IH]; intros tasks task_counter.
  - exists []. simpl. rewrite app_nil_r, Nat.add_0_r. split; constructor.
  - destruct (route_total (input_type d)) as (agent & kind & Hr & _).
    assert (Hstep : plan_input (tasks, task_counter) d
                    = (tasks ++ [new_task (List.length tasks) (task_name task_counter)
                                   agent kind (input_dict d)], S task_counter)).
    { unfold plan_input. rewrite Hr. reflexivity. }
    cbn [fold_left]. rewrite Hstep.
    destruct (IH (tasks ++ [new_task (List.length tasks) (task_name task_counter)
                              agent kind (input_dict d)]) (S task_counter))
      as (rest & Hfold & Hrest).
    eexists (_ :: rest). split.
    + rewrite Hfold, <- app_assoc. simpl. f_equal. lia.
    + constructor; [| exact Hrest].
      repeat split; simpl; assumption.
Qed.

Lemma planned_not_fix (d : DebugInput) (t : AgentTask) :
  planned_for d t -> task_type t <> "fix_generation".
Proof.
  intros [Hr _]. destruct (input_type d); simpl in Hr; inversion Hr; discriminate.
Qed.

(** The plan, spelled out. *)
Lemma plan_tasks_shape (inputs : list DebugInput) :
  exists per_input,
    Forall2 planned_for inputs per_input
    /\ _plan_tasks inputs =
       match per_input with
       | [] => [ new_task 0 (task_name (1 + List.length inputs))
                          "fix-generator" "fix_generation" (all_inputs inputs) ]
       | _ :: _ =>
           per_input
           ++ [ new_task (List.length per_input) (task_name (1 + List.length inputs))
                         "doc-retriever" "documentation_search" (all_inputs inputs);
                new_task (S (List.length per_input)) (task_name (2 + List.length inputs))
                         "fix-generator" "fix_generation" (all_inputs inputs) ]
       end.
Proof.
  destruct (plan_inputs inputs [] 1) as (per_input & Hfold & Hall).
  exists per_input. split; [exact Hall |].
  unfold _plan_tasks. rewrite Hfold. simpl app.
  destruct per_input as [| t r]; [reflexivity |].
  rewrite <- app_assoc. simpl. rewrite length_app. simpl.
  repeat f_equal. lia.
Qed.

End WithLib.

(** C4. For a non-empty input list the planner returns one per-input
    task for each input, then the documentation_search task, then the
    fix_generation task: (number of inputs) + 2 tasks. For the empty
    input list it returns the fix_generation task alone. *)
Theorem plan_tasks_count {lib : Lib} (inputs : list DebugInput) :
  match inputs with
  | [] =>
      exists fix_task,
        _plan_tasks inputs = [fix_task] /\ task_type fix_task = "fix_generation"
  | _ :: _ =>
      exists per_input doc fix_task,
        _plan_tasks inputs = per_input ++ [doc; fix_task]
        /\ Forall2 planned_for inputs per_input
        /\ task_type doc = "documentation_search"
        /\ task_type fix_task = "fix_generation"
        /\ List.length (_plan_tasks inputs) = List.length inputs + 2
  end.
Proof.
  destruct (plan_tasks_shape inputs) as (per_input & Hall & Hplan).
  destruct inputs as [| d inputs].
  - inversion Hall; subst. eexists. split; [exact Hplan | reflexivity].
  - inversion Hall as [| d' t ds ts Ht Hts]; subst.
    eexists (t :: ts), _, _. split; [exact Hplan |].
    split; [exact Hall |]. split; [reflexivity |]. split; [reflexivity |].
    rewrite Hplan, length_app. apply Forall2_length in Hts. simpl. lia.
Qed.

(** C5. The last task of every plan is the fix_generation task of the
    agent fix-generator, and no task before it has that type. *)
Theorem plan_tasks_fix_last {lib : Lib} (inputs : list DebugInput) :
  exists before fix_task,
    _plan_tasks inputs = before ++ [fix_task]
    /\ task_type fix_task = "fix_generation"
    /\ agentId fix_task = "fix-generator"
    /\ Forall (fun t => task_type t <> "fix_generation") before.
Proof.
  destruct (plan_tasks_shape inputs) as (per_input & Hall & Hplan).
  assert (Hper : Forall (fun t => task_type t <> "fix_generation") per_input).
  { clear Hplan. induction Hall; constructor; eauto using planned_not_fix. }
  destruct per_input as [| t r].
  - exists [], (new_task 0 (task_name (1 + List.length inputs))
                  "fix-generator" "fix_generation" (all_inputs inputs)).
    rewrite Hplan. repeat split. constructor.
  - eexists (_ ++ [_]), _. split.
    + rewrite Hplan, <- app_assoc. reflexivity.
    + split; [reflexivity |]. split; [reflexivity |].
      apply Forall_app. split; [exact Hper |].
      constructor; [discriminate | constructor].
Qed.

End PlannerFacts.

(** ** The heuristic code scanners *)

Module ScannerFacts.
Import PyStr Py Scanner.

(** The content of scenario A: two lines of JavaScript. *)
Definition scenario_a : string :=
  "var x = 5;" +++ nl +++ "if (x == 5) console.log(x);".

(** The category of an issue. *)
Definition issue_type (issue : json) : json :=
  match issue with
  | JObj kv => dict_get kv "type" JNull
  | _ => JNull
  end.

(** The type-coercion rule asks for both operators on the line. *)
Lemma coercion_needs_both (i : nat) (line : string) :
  In (js_coercion_issue i line) (js_line_issues i line) ->
  contains "==" line = true /\ contains "!=" line = true.
Proof.
  unfold js_line_issues. intros Hin.
  apply in_app_or in Hin. destruct Hin as [Hin | Hin].
  - destruct (_ && _); simpl in Hin; [| contradiction].
    destruct Hin as [Heq | []]. discriminate Heq.
  - apply in_app_or in Hin. destruct Hin as [Hin | Hin].
    + destruct (startswith _ _); simpl in Hin; [| contradiction].
      destruct Hin as [Heq | []]. discriminate Heq.
    + destruct (contains "==" line); [| destruct Hin].
      destruct (contains "===" line); [destruct Hin |].
      destruct (contains "!=" line); [| destruct Hin].
      split; reflexivity.
Qed.

(** C9. The scan of the two lines of scenario A gives exactly two
    issues: Outdated Syntax for the var declaration of line 1, whose
    fix puts const for var, and Debug Code for the console.log of line
    2. The second line holds == but not !=, and no issue is of type
    Type Coercion. *)
Theorem analyze_js_scenario_a :
  _analyze_js_code scenario_a =
    [ JObj [ ("type", JStr "Outdated Syntax");
             ("line", JInt 1);
             ("code", JStr "var x = 5;");
             ("issue", JStr "Using 'var' instead of 'let' or 'const'");
             ("fix", JStr "const x = 5;");
             ("severity", JStr "medium");
             ("rationale", JStr "'let' and 'const' have better scoping rules than 'var'") ];
      JObj [ ("type", JStr "Debug Code");
             ("line", JInt 2);
             ("code", JStr "if (x == 5) console.log(x);");
             ("issue", JStr "Console.log statement found");
             ("fix", JStr "Remove console.log or replace with proper logging");
             ("severity", JStr "low");
             ("rationale", JStr "Console statements should not remain in production code") ] ]
  /\ contains "==" "if (x == 5) console.log(x);" = true
  /\ contains "!=" "if (x == 5) console.log(x);" = false
  /\ existsb (fun issue => json_is_str "Type Coercion" (issue_type issue))
             (_analyze_js_code scenario_a) = false.
Proof.
  repeat split; vm_compute; reflexivity.
Qed.

Lemma split_not_nil (sep : ascii) (s : string) : split sep s <> [].
Proof.
  induction s as [| c s IH]; simpl; [discriminate |].
  destruct (Ascii.eqb c sep); [discriminate |].
  destruct (split sep s); discriminate.
Qed.

Lemma enumerate_app {A} (l1 l2 : list A) (start : nat) :
  enumerate start (l1 ++ l2)
  = enumerate start l1 ++ enumerate (start + List.length l1) l2.
Proof.
  revert start. induction l1 as [| x l1 IH]; intros start; simpl.
  - rewrite Nat.add_0_r. reflexivity.
  - rewrite IH. replace (S start + List.length l1) with (start + S (List.length l1)) by lia.
    reflexivity.
Qed.

(** After the last line there is no line. *)
Lemma next_line_last (lines : list string) :
  next_line lines (List.length lines) = EmptyString.
Proof.
  unfold next_line. rewrite Nat.ltb_irrefl. reflexivity.
Qed.

(** The docstring rule on a line that starts a definition and is not
    followed by a docstring opener. *)
Lemma docstring_rule (lines : list string) (i : nat) (line : string) :
  startswith "def " (strip line) = true ->
  contains ":" line = true ->
  startswith dquote3 (strip (next_line lines i)) = false ->
  startswith squote3 (strip (next_line lines i)) = false ->
  In (py_docstring_issue i line) (py_line_issues lines i line).
Proof.
  intros Hdef Hcolon Hd Hs. unfold py_line_issues.
  apply in_or_app. right. apply in_or_app. right.
  rewrite Hdef, Hcolon, Hd, Hs. simpl. left. reflexivity.
Qed.

(** C10. When the last line of a Python source starts, once stripped,
    with def and holds a colon, the scanner reports for that line, under
    its line number, an issue of type Documentation and severity low:
    the line after the last one is read as the empty string, which opens
    no docstring. *)
Theorem analyze_python_final_def (content : string) :
  let lines := splitlines content in
  let final := last lines EmptyString in
  startswith "def " (strip final) = true ->
  contains ":" final = true ->
  In (py_docstring_issue (List.length lines) final) (_analyze_python_code content)
  /\ issue_type (py_docstring_issue (List.length lines) final) = JStr "Documentation"
  /\ py_docstring_issue (List.length lines) final =
       JObj [ ("type", JStr "Documentation");
              ("line", JInt (Z.of_nat (List.length lines)));
              ("code", JStr (strip final));
              ("issue", JStr "Function missing docstring");
              ("fix", JStr (final +++ nl +++ "    " +++ dquote3
                            +++ "Brief description of what this function does."
                            +++ dquote3));
              ("severity", JStr "low");
              ("rationale",
                 JStr "Docstrings improve code maintainability and help other developers") ]
  /\ next_line lines (List.length lines) = EmptyString.
Proof.
  intros lines final Hdef Hcolon.
  split; [| split; [reflexivity | split; [reflexivity | apply next_line_last]]].
  assert (Hne : lines <> []) by apply split_not_nil.
  destruct (exists_last Hne) as (before & l & Hlines).
  assert (Hfinal : final = l).
  { unfold final. rewrite Hlines. apply last_last. }
  rewrite Hfinal in *. clear Hfinal.
  assert (Henum : enumerate 1 lines = enumerate 1 before ++ [(List.length lines, l)]).
  { rewrite Hlines, enumerate_app, length_app. simpl.
    replace (List.length before + 1) with (S (List.length before)) by lia.
    reflexivity. }
  unfold _analyze_python_code. cbv zeta. change (splitlines content) with lines.
  rewrite Henum, flat_map_app.
  apply in_or_app. right. simpl. rewrite app_nil_r.
  apply docstring_rule; try assumption; rewrite next_line_last; reflexivity.
Qed.

(** A source of one line, a definition. *)
Lemma analyze_python_final_def_witness :
  startswith "def " (strip (last (splitlines "def f(x):") EmptyString)) = true
  /\ contains ":" (last (splitlines "def f(x):") EmptyString) = true
  /\ In (py_docstring_issue 1 "def f(x):") (_analyze_python_code "def f(x):").
Proof.
  split; [reflexivity |]. split; [reflexivity |].
  apply (analyze_python_final_def "def f(x):"); reflexivity.
Defined.

End ScannerFacts.

(** ** The result extractors *)

Module ExtractorFacts.
Import PyStr Py Scanner Extractors.

(** [w] occurs in [text] up to the case of the letters. *)
Definition occurs_ci (w text : string) : Prop :=
  exists before found rest, text = before +++ found +++ rest /\ lower found = w.

Lemma startswith_app (p s : string) : startswith p (p +++ s) = true.
Proof.
  induction p as [| c p IH]; simpl; [reflexivity |].
  rewrite Ascii.eqb_refl. exact IH.
Qed.

Lemma contains_app (sub before rest : string) :
  contains sub (before +++ sub +++ rest) = true.
Proof.
  induction before as [| c before IH].
  - simpl append. destruct (sub +++ rest) eqn:E; simpl;
      rewrite <- E, startswith_app; reflexivity.
  - simpl. rewrite IH. apply orb_true_r.
Qed.

Lemma lower_app (a b : string) : lower (a +++ b) = lower a +++ lower b.
Proof.
  induction a as [| c a IH]; simpl; [reflexivity |]. rewrite IH. reflexivity.
Qed.

(** The test of the source finds every occurrence up to case. *)
Lemma contains_lower (w text : string) :
  occurs_ci w text -> contains w (lower text) = true.
Proof.
  intros (before & found & rest & Htext & Hw). subst.
  rewrite !lower_app. apply contains_app.
Qed.

Lemma lookup_has_key (k : string) (kv : list (string * json)) (v : json) :
  lookup k kv = Some v -> has_key k kv = true /\ forall d, dict_get kv k d = v.
Proof.
  intros Hl. unfold has_key, dict_get. rewrite Hl. split; reflexivity.
Qed.

Lemma lookup_no_key (k : string) (kv : list (string * json)) :
  lookup k kv = None -> has_key k kv = false /\ forall d, dict_get kv k d = d.
Proof.
  intros Hl. unfold has_key, dict_get. rewrite Hl. split; reflexivity.
Qed.

(** Indexing a list with a default for the missing entries. *)
Lemma item_or_list (l : list json) (i : nat) (default : json) :
  item_or (JArr l) i default = Returned (nth i l default).
Proof.
  unfold item_or. simpl.
  destruct (Nat.ltb_spec i (List.length l)) as [Hlt | Hge].
  - unfold getindex. destruct (nth_error l i) eqn:E.
    + rewrite (nth_error_nth _ _ _ E). reflexivity.
    + apply nth_error_None in E. lia.
  - rewrite nth_overflow by lia. reflexivity.
Qed.

Section WithLib.
Context {lib : Lib}.

(** The fact for the error type at position [i], with the defaults for
    the missing severity and root cause. *)
Definition aligned_fact (severities root_causes : list json) (ie : nat * json) : fact :=
  error_fact (snd ie)
             (nth (fst ie) severities (JStr "medium"))
             (nth (fst ie) root_causes (JStr "Unknown cause")).

Lemma until_raise_lists (severities root_causes : list json) (l : list (nat * json)) :
  until_raise (error_type_fact (JArr severities) (JArr root_causes)) l
  = map (aligned_fact severities root_causes) l.
Proof.
  induction l as [| ie l IH]; simpl; [reflexivity |].
  unfold error_type_fact at 1. rewrite !item_or_list. simpl.
  rewrite IH. reflexivity.
Qed.

(** The confidence of a fact made from an error type. *)
Lemma error_fact_confidence (error_type severity cause : json) :
  dict_get (error_fact error_type severity cause) "severity" JNull = severity
  /\ dict_get (error_fact error_type severity cause) "type" JNull = error_type
  /\ (severity = JStr "high" \/ severity = JStr "critical" ->
      dict_get (error_fact error_type severity cause) "confidence" JNull = JInt 85)
  /\ (severity <> JStr "high" -> severity <> JStr "critical" ->
      dict_get (error_fact error_type severity cause) "confidence" JNull = JInt 70).
Proof.
  split; [reflexivity |]. split; [reflexivity |]. split.
  - intros [-> | ->]; reflexivity.
  - intros Hh Hc.
    change (dict_get (error_fact error_type severity cause) "confidence" JNull)
      with (JInt (if severity_is_high severity then 85 else 70)).
    assert (Hs : severity_is_high severity = false).
    { unfold severity_is_high, json_is_str. destruct severity; try reflexivity.
      destruct (String.eqb_spec "critical" s) as [<- | _]; [congruence |].
      destruct (String.eqb_spec "high" s) as [<- | _]; [congruence | reflexivity]. }
    rewrite Hs. reflexivity.
Qed.

(** The grading of a fact: 85 for the severities high and critical,
    70 for every other severity. *)
Definition graded (f : fact) : Prop :=
  let severity := dict_get f "severity" JNull in
  (severity = JStr "high" \/ severity = JStr "critical" ->
   dict_get f "confidence" JNull = JInt 85)
  /\ (severity <> JStr "high" -> severity <> JStr "critical" ->
      dict_get f "confidence" JNull = JInt 70).

Lemma error_fact_graded (error_type severity cause : json) :
  graded (error_fact error_type severity cause).
Proof.
  destruct (error_fact_confidence error_type severity cause) as (Hs & _ & Hh & Hl).
  unfold graded. cbv zeta. rewrite Hs. split; assumption.
Qed.

Lemma until_raise_forall {X} (P : fact -> Prop) (body : X -> outcome fact)
  (xs : list X) :
  (forall x f, body x = Returned f -> P f) -> Forall P (until_raise body xs).
Proof.
  intros Hbody. induction xs as [| x xs IH]; simpl; [constructor |].
  destruct (body x) as [f | e] eqn:Hx; constructor; eauto.
Qed.

(** Whatever the parallel entries are, lists or not, every fact made
    of an error type is graded by its severity. *)
Lemma error_types_graded (kv : list (string * json)) :
  has_key "error_types" kv = true ->
  Forall graded (_extract_error_details (JObj kv)).
Proof.
  intros Hk. unfold _extract_error_details. rewrite Hk.
  destruct (iterate (dict_get kv "error_types" (JArr []))) as [l | e];
    [| constructor].
  apply until_raise_forall. intros ie f. unfold error_type_fact.
  destruct (item_or _ (fst ie) (JStr "medium")) as [severity | e]; simpl;
    [| discriminate].
  destruct (item_or _ (fst ie) (JStr "Unknown cause")) as [cause | e]; simpl;
    [| discriminate].
  intros Hf. inversion Hf. apply error_fact_graded.
Qed.

End WithLib.

(** C8. A result with a raw_response text in which error or exception
    occurs, in any case of the letters, and with no error_types entry,
    gives exactly one fact, of type Runtime Error and confidence 75. A
    result with a list of error types gives one fact per error type, in
    order, with the severity and the root cause of the same index, or
    medium and Unknown cause where the parallel list is missing or too
    short; the confidence of the fact is 85 when that severity is high
    or critical and 70 otherwise. Whatever the shape of the parallel
    entries, every fact emitted for a result with an error_types entry
    has confidence 85 for the severities high and critical and 70 for
    any other. *)
Theorem extract_error_details_facts {lib : Lib}
  (kv : list (string * json)) (text : string)
  (error_types severities root_causes : list json) :
  (lookup "error_types" kv = None ->
   lookup "raw_response" kv = Some (JStr text) ->
   occurs_ci "error" text \/ occurs_ci "exception" text ->
   _extract_error_details (JObj kv) = [runtime_error_fact]
   /\ dict_get runtime_error_fact "type" JNull = JStr "Runtime Error"
   /\ dict_get runtime_error_fact "confidence" JNull = JInt 75)
  /\
  (lookup "error_types" kv = Some (JArr error_types) ->
   dict_get kv "severity_levels" (JArr []) = JArr severities ->
   dict_get kv "root_causes" (JArr []) = JArr root_causes ->
   _extract_error_details (JObj kv)
     = map (aligned_fact severities root_causes) (enumerate 0 error_types)
   /\ List.length (_extract_error_details (JObj kv)) = List.length error_types
   /\ forall i error_type,
        nth_error error_types i = Some error_type ->
        let severity := nth i severities (JStr "medium") in
        let cause := nth i root_causes (JStr "Unknown cause") in
        let f := error_fact error_type severity cause in
        nth_error (_extract_error_details (JObj kv)) i = Some f
        /\ dict_get f "type" JNull = error_type
        /\ dict_get f "severity" JNull = severity
        /\ dict_get f "rationale" JNull = JStr ("Root cause: " +++ str cause)
        /\ (severity = JStr "high" \/ severity = JStr "critical" ->
            dict_get f "confidence" JNull = JInt 85)
        /\ (severity <> JStr "high" -> severity <> JStr "critical" ->
            dict_get f "confidence" JNull = JInt 70))
  /\
  (has_key "error_types" kv = true ->
   Forall graded (_extract_error_details (JObj kv))).
Proof.
  split; [| split; [| apply error_types_graded]].
  - intros Hno Hraw Hocc.
    destruct (lookup_no_key _ _ Hno) as [Hk _].
    destruct (lookup_has_key _ _ _ Hraw) as [Hk' Hget].
    split; [| split; reflexivity].
    unfold _extract_error_details. rewrite Hk, Hk', Hget. simpl as_str. cbv iota.
    assert (Hc : contains "error" (lower text) || contains "exception" (lower text) = true).
    { destruct Hocc as [Ho | Ho]; apply contains_lower in Ho; rewrite Ho;
        [reflexivity | apply orb_true_r]. }
    rewrite Hc. reflexivity.
  - intros Hets Hsev Hcauses.
    destruct (lookup_has_key _ _ _ Hets) as [Hk Hget].
    assert (Hout : _extract_error_details (JObj kv)
                   = map (aligned_fact severities root_causes) (enumerate 0 error_types)).
    { unfold _extract_error_details. rewrite Hk, Hget, Hsev, Hcauses. simpl iterate.
      cbv iota. apply until_raise_lists. }
    assert (Hnth : forall (l : list json) start i x,
               nth_error l i = Some x ->
               nth_error (enumerate start l) i = Some (start + i, x)).
    { induction l as [| y l IH]; intros start [| i] x Hx; simpl in *; try discriminate.
      - inversion Hx. rewrite Nat.add_0_r. reflexivity.
      - rewrite (IH _ _ _ Hx). f_equal. f_equal. lia. }
    assert (Hlen : forall (l : list json) start,
               List.length (enumerate start l) = List.length l).
    { induction l as [| y l IH]; intros start; simpl; [reflexivity |].
      rewrite IH. reflexivity. }
    split; [exact Hout |]. split.
    + rewrite Hout, length_map. apply Hlen.
    + intros i error_type Hi severity cause f.
      split.
      * rewrite Hout. rewrite nth_error_map, (Hnth _ 0 _ _ Hi). reflexivity.
      * destruct (error_fact_confidence error_type severity cause)
          as (Hs & Ht & Hhigh & Hlow).
        repeat split; assumption || reflexivity.
Qed.

(** Scenario B: the raw text of the adapter holds the word error; and
    a structured result of two error types with one severity. *)
Lemma extract_error_details_facts_witness :
  _extract_error_details (lib := Examples.sample_lib)
    (JObj [ ("raw_response", JStr "An ERROR was found in the logs");
            ("parsed", JBool false) ])
  = [runtime_error_fact]
  /\ List.length
       (_extract_error_details (lib := Examples.sample_lib)
          (JObj [ ("error_types", JArr [JStr "TypeError"; JStr "KeyError"]);
                  ("severity_levels", JArr [JStr "critical"]) ])) = 2.
Proof.
  split.
  - apply (extract_error_details_facts (lib := Examples.sample_lib)
             [ ("raw_response", JStr "An ERROR was found in the logs");
               ("parsed", JBool false) ]
             "An ERROR was found in the logs" [] [] []);
      [reflexivity | reflexivity |].
    left. exists "An ", "ERROR", " was found in the logs". split; reflexivity.
  - apply (extract_error_details_facts (lib := Examples.sample_lib)
             [ ("error_types", JArr [JStr "TypeError"; JStr "KeyError"]);
               ("severity_levels", JArr [JStr "critical"]) ]
             EmptyString [JStr "TypeError"; JStr "KeyError"] [JStr "critical"] []);
      reflexivity.
Defined.

End ExtractorFacts.

Module CodeIssueFacts.
Import PyStr Py Scanner Extractors ScannerFacts.

(** The result of a code-analysis task on scenario A when the
    generative service answers with an array of one issue object. *)
Definition array_answer : json :=
  JArr [ JObj [ ("type", JStr "logic_error");
                ("line", JInt 2);
                ("description", JStr "Loose equality compares with coercion");
                ("original_code", JStr "x == 5");
                ("fixed_code", JStr "x === 5");
                ("rationale", JStr "Strict equality avoids coercion");
                ("severity", JStr "medium") ] ].

Definition scenario_a_result : json :=
  JObj [ ("direct_issues", JArr (_analyze_js_code scenario_a));
         ("ai_analysis", array_answer);
         ("analysis_type", JStr "code_review") ].

Definition fact_confidence (f : fact) : json := dict_get f "confidence" JNull.

Section WithLib.
Context {lib : Lib}.

(** A list is not a dict: the test on [ai_analysis] that encloses the
    branch of the direct array fails on an array. *)
Lemma add_ai_analysis_array (l : list json) (issues : list fact) :
  add_ai_analysis (JArr l) issues = Cont issues.
Proof. reflexivity. Qed.

(** The facts of the scanner issues alone. *)
Definition direct_facts (kv : list (string * json)) : list fact :=
  match iterate (dict_get kv "direct_issues" (JArr [])) with
  | Returned l =>
      match for_each add_direct_issue l [] with
      | Cont issues => issues
      | Abort _ issues => issues
      end
  | Raised _ => []
  end.

(** With an array for [ai_analysis], the extractor returns the facts
    of the scanner issues and nothing else. *)
Lemma direct_array_ignored (kv : list (string * json)) (l : list json) :
  has_key "direct_issues" kv = true ->
  dict_get kv "ai_analysis" (JObj []) = JArr l ->
  _extract_code_issues (JObj kv) = direct_facts kv.
Proof.
  intros Hk Hai. unfold _extract_code_issues, code_issues_flow, direct_facts.
  rewrite Hk, Hai.
  destruct (iterate (dict_get kv "direct_issues" (JArr []))) as [direct | e];
    [| reflexivity].
  simpl lift. destruct (for_each add_direct_issue direct []); reflexivity.
Qed.

End WithLib.

(** C7, on the code. For the result of scenario A with a direct array
    of one issue object as ai_analysis, the extractor returns the two
    facts of the scanner issues only: no fact is made of the element of
    the array, and no fact has confidence 85. *)
Theorem extract_code_issues_direct_array {lib : Lib} :
  _extract_code_issues scenario_a_result
    = direct_facts [ ("direct_issues", JArr (_analyze_js_code scenario_a)) ]
  /\ List.length (_extract_code_issues scenario_a_result) = 2
  /\ map fact_confidence (_extract_code_issues scenario_a_result) = [JInt 75; JInt 75]
  /\ add_ai_issue DirectArray
       (JObj [ ("type", JStr "logic_error") ]) []
     = Cont [ [ ("category", JStr "Logic Error");
                ("description", JStr "AI identified issue");
                ("confidence", JInt 85);
                ("code_snippet", JStr EmptyString);
                ("suggested_improvement", JStr EmptyString);
                ("rationale", JStr "Based on AI analysis");
                ("line_number", JNull);
                ("severity", JStr "medium");
                ("steps", str_list [ "Locate the issue: the problem";
                                     "Replace: problematic code";
                                     "With: improved code";
                                     "Test the changes thoroughly" ]) ] ].
Proof.
  repeat split; reflexivity.
Qed.

End CodeIssueFacts.

(** ** Python floats *)

Module FloatFacts.
Import Float64.
Local Open Scope Q_scope.

Lemma pow2_pos (e : Z) : 0 < 2 ^ e.
Proof. apply Qpower_0_lt. reflexivity. Qed.

Lemma pow2_succ (e : Z) : 2 ^ (e + 1) == 2 * 2 ^ e.
Proof. rewrite Qpower_plus by discriminate. rewrite Qpower_1_r. ring. Qed.

Lemma pow2_le (a b : Z) : (a <= b)%Z -> 2 ^ a <= 2 ^ b.
Proof. intros H. apply Qpower_le_compat_l; [exact H | discriminate]. Qed.

Lemma pow2_lt_inv (a b : Z) : 2 ^ a < 2 ^ b -> (a < b)%Z.
Proof. intros H. apply (Qpower_lt_compat_l_inv 2); [exact H | reflexivity]. Qed.

Lemma pow2_Z (n : Z) : (0 <= n)%Z -> inject_Z (2 ^ n) == 2 ^ n.
Proof. intros H. apply (Zpower_Qpower 2 n H). Qed.

(** [ilog2 x] is the integer part of the binary logarithm of [x]. *)
Lemma ilog2_spec (x : Q) : 0 < x -> 2 ^ ilog2 x <= x /\ x < 2 ^ (ilog2 x + 1).
Proof.
  intros Hx. unfold ilog2.
  destruct x as [n d]. simpl Qnum. simpl Qden.
  assert (Hn : (0 < n)%Z).
  { unfold Qlt in Hx. simpl in Hx. lia. }
  set (a := Z.log2 n). set (b := Z.log2 (Z.pos d)).
  destruct (Z.log2_spec n Hn) as [Ha1 Ha2]. fold a in Ha1, Ha2.
  destruct (Z.log2_spec (Z.pos d) eq_refl) as [Hb1 Hb2]. fold b in Hb1, Hb2.
  assert (Ha0 : (0 <= a)%Z) by apply Z.log2_nonneg.
  assert (Hb0 : (0 <= b)%Z) by apply Z.log2_nonneg.
  assert (Hx' : (n # d) * inject_Z (Z.pos d) == inject_Z n).
  { unfold Qeq, Qmult, inject_Z. simpl. lia. }
  set (x := n # d) in *.
  assert (Qa1 : 2 ^ a <= inject_Z n).
  { rewrite <- pow2_Z by exact Ha0. rewrite <- Zle_Qle. exact Ha1. }
  assert (Qa2 : inject_Z n < 2 * 2 ^ a).
  { rewrite <- pow2_succ. rewrite <- pow2_Z by lia. rewrite <- Zlt_Qlt.
    unfold Z.succ in Ha2. exact Ha2. }
  assert (Qb1 : 2 ^ b <= inject_Z (Z.pos d)).
  { rewrite <- pow2_Z by exact Hb0. rewrite <- Zle_Qle. exact Hb1. }
  assert (Qb2 : inject_Z (Z.pos d) < 2 * 2 ^ b).
  { rewrite <- pow2_succ. rewrite <- pow2_Z by lia. rewrite <- Zlt_Qlt.
    unfold Z.succ in Hb2. exact Hb2. }
  assert (Hc : 2 ^ (a - b) * 2 ^ b == 2 ^ a).
  { rewrite <- Qpower_plus by discriminate. replace (a - b + b)%Z with a by lia.
    reflexivity. }
  assert (Hc2 : 2 * 2 ^ (a - b - 1) == 2 ^ (a - b)).
  { rewrite <- pow2_succ. replace (a - b - 1 + 1)%Z with (a - b)%Z by lia.
    reflexivity. }
  pose proof (pow2_pos a) as Pa. pose proof (pow2_pos b) as Pb.
  pose proof (pow2_pos (a - b)) as Pc. pose proof (pow2_pos (a - b - 1)) as Pc'.
  pose proof (pow2_succ (a - b)) as Hs.
  assert (E : if Qle_bool (2 ^ (a - b)) x then 2 ^ (a - b) <= x else x < 2 ^ (a - b)).
  { destruct (Qle_bool (2 ^ (a - b)) x) eqn:E.
    - apply Qle_bool_iff. exact E.
    - apply Qnot_le_lt. intros H. apply Qle_bool_iff in H. congruence. }
  destruct (Qle_bool (2 ^ (a - b)) x).
  - split; [exact E |]. rewrite Hs.
    set (pa := 2 ^ a) in *. set (pb := 2 ^ b) in *. set (pc := 2 ^ (a - b)) in *.
    set (D := inject_Z (Z.pos d)) in *. set (N := inject_Z n) in *.
    clearbody pa pb pc D N x. nra.
  - replace (a - b - 1 + 1)%Z with (a - b)%Z by lia.
    split; [| exact E].
    set (pa := 2 ^ a) in *. set (pb := 2 ^ b) in *. set (pc := 2 ^ (a - b)) in *.
    set (pc' := 2 ^ (a - b - 1)) in *.
    set (D := inject_Z (Z.pos d)) in *. set (N := inject_Z n) in *.
    clearbody pa pb pc pc' D N x. nra.
Qed.

Lemma ilog2_unique (x : Q) (c : Z) : 2 ^ c <= x -> x < 2 ^ (c + 1) -> ilog2 x = c.
Proof.
  intros Hlo Hhi.
  assert (Hx : 0 < x) by (eapply Qlt_le_trans; [apply (pow2_pos c) | exact Hlo]).
  destruct (ilog2_spec x Hx) as [Hl Hh].
  assert (H1 : (ilog2 x < c + 1)%Z).
  { apply pow2_lt_inv. eapply Qle_lt_trans; [exact Hl | exact Hhi]. }
  assert (H2 : (c < ilog2 x + 1)%Z).
  { apply pow2_lt_inv. eapply Qle_lt_trans; [exact Hlo | exact Hh]. }
  lia.
Qed.

Lemma ilog2_comp (x y : Q) : 0 < x -> x == y -> ilog2 x = ilog2 y.
Proof.
  intros Hx E. destruct (ilog2_spec x Hx) as [Hl Hh].
  symmetry. apply ilog2_unique; rewrite <- E; assumption.
Qed.

Lemma ilog2_le (x y : Q) : 0 < x -> x <= y -> (ilog2 x <= ilog2 y)%Z.
Proof.
  intros Hx Hxy.
  assert (Hy : 0 < y) by (eapply Qlt_le_trans; eassumption).
  destruct (ilog2_spec x Hx) as [Hl _]. destruct (ilog2_spec y Hy) as [_ Hh].
  assert (H : (ilog2 x < ilog2 y + 1)%Z).
  { apply pow2_lt_inv. eapply Qle_lt_trans; [exact Hl |].
    eapply Qle_lt_trans; [exact Hxy | exact Hh]. }
  lia.
Qed.

Lemma ilog2_lt (x : Q) (p : Z) : 0 < x -> x < 2 ^ p -> (ilog2 x < p)%Z.
Proof.
  intros Hx Hp. destruct (ilog2_spec x Hx) as [Hl _].
  apply pow2_lt_inv. eapply Qle_lt_trans; eassumption.
Qed.

Lemma exponent_comp (x y : Q) : 0 < x -> x == y -> exponent x = exponent y.
Proof.
  intros Hx E. unfold exponent.
  rewrite (ilog2_comp (Qabs x) (Qabs y)); [reflexivity | |].
  - rewrite Qabs_pos by (apply Qlt_le_weak; exact Hx). exact Hx.
  - rewrite E. reflexivity.
Qed.

Lemma exponent_pos (x : Q) : 0 < x -> exponent x = Z.max (ilog2 x - 52) (-1074).
Proof.
  intros Hx. unfold exponent.
  rewrite (ilog2_comp (Qabs x) x); [reflexivity | |].
  - rewrite Qabs_pos by (apply Qlt_le_weak; exact Hx). exact Hx.
  - apply Qabs_pos. apply Qlt_le_weak. exact Hx.
Qed.

Lemma exponent_le (x y : Q) : 0 < x -> x <= y -> (exponent x <= exponent y)%Z.
Proof.
  intros Hx Hxy.
  assert (Hy : 0 < y) by (eapply Qlt_le_trans; eassumption).
  rewrite (exponent_pos x Hx), (exponent_pos y Hy).
  pose proof (ilog2_le x y Hx Hxy). lia.
Qed.

(** *** Rounding to the nearest integer *)

Lemma nearest_even_comp (x y : Q) : x == y -> nearest_even x = nearest_even y.
Proof.
  intros E. unfold nearest_even.
  rewrite (Qfloor_comp x y E).
  assert (E' : x - inject_Z (Qfloor y) == y - inject_Z (Qfloor y)) by (rewrite E; reflexivity).
  rewrite (Qcompare_comp _ _ E' (1 # 2) (1 # 2) (Qeq_refl _)). reflexivity.
Qed.

Lemma nearest_even_cases (x : Q) :
  let f := Qfloor x in
  (nearest_even x = f /\ x - inject_Z f <= 1 # 2)
  \/ (nearest_even x = (f + 1)%Z /\ 1 # 2 <= x - inject_Z f).
Proof.
  intros f. unfold nearest_even. fold f.
  destruct (x - inject_Z f ?= 1 # 2) eqn:E.
  - apply Qeq_alt in E. destruct (Z.even f).
    + left. split; [reflexivity |]. rewrite E. apply Qle_refl.
    + right. split; [reflexivity |]. rewrite E. apply Qle_refl.
  - apply Qlt_alt in E. left. split; [reflexivity |]. apply Qlt_le_weak. exact E.
  - apply Qgt_alt in E. right. split; [reflexivity |]. apply Qlt_le_weak. exact E.
Qed.

Lemma floor_bounds (x : Q) : inject_Z (Qfloor x) <= x /\ x < inject_Z (Qfloor x) + 1.
Proof.
  split; [apply Qfloor_le |].
  pose proof (Qlt_floor x) as H. rewrite inject_Z_plus in H. exact H.
Qed.

Lemma nearest_even_near (x : Q) :
  x - (1 # 2) <= inject_Z (nearest_even x) /\ inject_Z (nearest_even x) <= x + (1 # 2).
Proof.
  destruct (floor_bounds x) as [Hl Hh].
  destruct (nearest_even_cases x) as [[-> H] | [-> H]].
  - split; lra.
  - rewrite inject_Z_plus. change (inject_Z 1) with 1. split; lra.
Qed.

Lemma nearest_even_Z (z : Z) : nearest_even (inject_Z z) = z.
Proof.
  unfold nearest_even. rewrite Qfloor_Z.
  assert (E : (inject_Z z - inject_Z z ?= 1 # 2) = Lt).
  { apply (proj1 (Qlt_alt _ _)). generalize (inject_Z z). intros q. lra. }
  rewrite E. reflexivity.
Qed.

Lemma nearest_even_le (x y : Q) : x <= y -> (nearest_even x <= nearest_even y)%Z.
Proof.
  intros Hxy.
  pose proof (Qfloor_resp_le x y Hxy) as Hf.
  destruct (floor_bounds x) as [Hxl Hxh]. destruct (floor_bounds y) as [Hyl Hyh].
  destruct (Z.eq_dec (Qfloor x) (Qfloor y)) as [E | NE].
  - unfold nearest_even. rewrite <- E.
    assert (Hx : match x - inject_Z (Qfloor x) ?= 1 # 2 with
                 | Eq => x - inject_Z (Qfloor x) == 1 # 2
                 | Lt => x - inject_Z (Qfloor x) < 1 # 2
                 | Gt => 1 # 2 < x - inject_Z (Qfloor x)
                 end).
    { destruct (x - inject_Z (Qfloor x) ?= 1 # 2) eqn:Ex;
        [apply Qeq_alt | apply Qlt_alt | apply Qgt_alt]; exact Ex. }
    assert (Hy : match y - inject_Z (Qfloor x) ?= 1 # 2 with
                 | Eq => y - inject_Z (Qfloor x) == 1 # 2
                 | Lt => y - inject_Z (Qfloor x) < 1 # 2
                 | Gt => 1 # 2 < y - inject_Z (Qfloor x)
                 end).
    { destruct (y - inject_Z (Qfloor x) ?= 1 # 2) eqn:Ey;
        [apply Qeq_alt | apply Qlt_alt | apply Qgt_alt]; exact Ey. }
    destruct (x - inject_Z (Qfloor x) ?= 1 # 2);
      destruct (y - inject_Z (Qfloor x) ?= 1 # 2);
      try (destruct (Z.even (Qfloor x))); try lia; exfalso; lra.
  - assert (Hlt : (Qfloor x + 1 <= Qfloor y)%Z) by lia.
    destruct (nearest_even_cases x) as [[-> _] | [-> _]];
      destruct (nearest_even_cases y) as [[-> _] | [-> _]]; lia.
Qed.

(** *** Rounding to binary64 *)

Lemma scale_back (x : Q) (e : Z) : x / 2 ^ e * 2 ^ e == x.
Proof. field. apply Qpower_not_0. discriminate. Qed.

Lemma round_zero (x : Q) : x == 0 -> round x == 0.
Proof.
  intros E. unfold round.
  rewrite (nearest_even_comp (x / 2 ^ exponent x) (inject_Z 0)).
  - rewrite nearest_even_Z. ring.
  - generalize (exponent x). intros e. rewrite E. unfold Qdiv. ring.
Qed.

Lemma round_comp (x y : Q) : 0 <= x -> x == y -> round x == round y.
Proof.
  intros Hx E. destruct (Qlt_le_dec 0 x) as [Hpos | Hneg].
  - unfold round. rewrite <- (exponent_comp x y Hpos E).
    rewrite (nearest_even_comp (x / 2 ^ exponent x) (y / 2 ^ exponent x));
      [reflexivity | generalize (exponent x); intros e; rewrite E; reflexivity].
  - assert (E0 : x == 0) by (apply Qle_antisym; assumption).
    rewrite (round_zero x E0). rewrite round_zero; [reflexivity |].
    rewrite <- E. exact E0.
Qed.

(** A multiple of the unit in the last place of [x] on one side of
    [x] is on the same side of the float nearest to [x]. *)
Lemma round_above (x : Q) (m : Z) :
  inject_Z m * 2 ^ exponent x <= x -> inject_Z m * 2 ^ exponent x <= round x.
Proof.
  intros H. unfold round. pose proof (pow2_pos (exponent x)) as P.
  apply Qmult_le_compat_r; [| apply Qlt_le_weak; exact P].
  rewrite <- Zle_Qle. rewrite <- (nearest_even_Z m) at 1.
  apply nearest_even_le. apply Qle_shift_div_l; assumption.
Qed.

Lemma round_below (x : Q) (m : Z) :
  x <= inject_Z m * 2 ^ exponent x -> round x <= inject_Z m * 2 ^ exponent x.
Proof.
  intros H. unfold round. pose proof (pow2_pos (exponent x)) as P.
  apply Qmult_le_compat_r; [| apply Qlt_le_weak; exact P].
  rewrite <- Zle_Qle. rewrite <- (nearest_even_Z m) at 1.
  apply nearest_even_le. apply Qle_shift_div_r; assumption.
Qed.

Lemma pow2_multiple (p e : Z) : (e <= p)%Z -> 2 ^ p == inject_Z (2 ^ (p - e)) * 2 ^ e.
Proof.
  intros H. rewrite pow2_Z by lia. rewrite <- Qpower_plus by discriminate.
  replace (p - e + e)%Z with p by lia. reflexivity.
Qed.

Lemma round_nonneg (x : Q) : 0 <= x -> 0 <= round x.
Proof.
  intros H. assert (E : 0 == inject_Z 0 * 2 ^ exponent x) by ring.
  rewrite E at 1. apply round_above. rewrite <- E. exact H.
Qed.

(** Rounding keeps the order. *)
Lemma round_le (x y : Q) : 0 <= x -> x <= y -> round x <= round y.
Proof.
  intros Hx Hxy. destruct (Qlt_le_dec 0 x) as [Hpos | Hneg].
  - assert (Hy : 0 < y) by (eapply Qlt_le_trans; eassumption).
    pose proof (exponent_le x y Hpos Hxy) as He.
    destruct (Z.eq_dec (exponent x) (exponent y)) as [E | NE].
    + unfold round. rewrite <- E. pose proof (pow2_pos (exponent x)) as P.
      apply Qmult_le_compat_r; [| apply Qlt_le_weak; exact P].
      rewrite <- Zle_Qle. apply nearest_even_le.
      apply Qmult_le_compat_r; [exact Hxy |].
      apply Qlt_le_weak. apply Qinv_lt_0_compat. exact P.
    + rewrite (exponent_pos x Hpos) in He, NE. rewrite (exponent_pos y Hy) in He, NE.
      destruct (ilog2_spec x Hpos) as [_ Hxh]. destruct (ilog2_spec y Hy) as [Hyl _].
      assert (Hc : (ilog2 x + 1 <= ilog2 y)%Z) by lia.
      apply Qle_trans with (2 ^ ilog2 y).
      * rewrite (pow2_multiple (ilog2 y) (exponent x))
          by (rewrite (exponent_pos x Hpos); lia).
        apply round_below.
        rewrite <- (pow2_multiple (ilog2 y) (exponent x))
          by (rewrite (exponent_pos x Hpos); lia).
        apply Qlt_le_weak. eapply Qlt_le_trans; [exact Hxh |]. apply pow2_le. exact Hc.
      * rewrite (pow2_multiple (ilog2 y) (exponent y))
          by (rewrite (exponent_pos y Hy); lia).
        apply round_above.
        rewrite <- (pow2_multiple (ilog2 y) (exponent y))
          by (rewrite (exponent_pos y Hy); lia).
        exact Hyl.
  - assert (E0 : x == 0) by (apply Qle_antisym; assumption).
    rewrite (round_zero x E0). apply round_nonneg. lra.
Qed.

(** The float nearest to [x] is within half a unit in the last place
    of [x]. *)
Lemma round_near (x : Q) (p : Z) :
  (exponent x <= p)%Z ->
  x - 2 ^ p / 2 <= round x /\ round x <= x + 2 ^ p / 2.
Proof.
  intros Hp. pose proof (pow2_le _ _ Hp) as Hle.
  pose proof (pow2_pos (exponent x)) as P.
  destruct (nearest_even_near (x / 2 ^ exponent x)) as [Hl Hh].
  unfold round. pose proof (scale_back x (exponent x)) as Hx.
  set (t := x / 2 ^ exponent x) in *. set (u := 2 ^ exponent x) in *.
  set (n := inject_Z (nearest_even t)) in *. set (v := 2 ^ p) in *.
  clearbody t u n v.
  assert (H1 : (t - (1 # 2)) * u <= n * u) by (apply Qmult_le_compat_r; lra).
  assert (H2 : n * u <= (t + (1 # 2)) * u) by (apply Qmult_le_compat_r; lra).
  unfold Qdiv. change (/ 2) with (1 # 2). split; nra.
Qed.

Lemma exponent_below (x : Q) (p : Z) :
  0 < x -> x < 2 ^ p -> (-1021 <= p)%Z -> (exponent x <= p - 53)%Z.
Proof.
  intros Hx Hp Hmin. rewrite (exponent_pos x Hx).
  pose proof (ilog2_lt x p Hx Hp). lia.
Qed.

Lemma round_one : round 1 == 1.
Proof. vm_compute. reflexivity. Qed.

Lemma round_hundred : round 100 == 100.
Proof. vm_compute. reflexivity. Qed.

(** *** The quotient of two counters *)

Lemma ratio_bounds (k n : nat) :
  (k <= n)%nat ->
  0 <= inject_Z (Z.of_nat k) / inject_Z (Z.of_nat n)
  /\ inject_Z (Z.of_nat k) / inject_Z (Z.of_nat n) <= 1.
Proof.
  intros H. destruct n as [| n].
  - assert (k = 0%nat) by lia. subst k. split; vm_compute; discriminate.
  - assert (Hn : 0 < inject_Z (Z.of_nat (S n))).
    { change 0 with (inject_Z 0). rewrite <- Zlt_Qlt. lia. }
    split.
    + apply Qle_shift_div_l; [exact Hn |]. rewrite Qmult_0_l.
      change 0 with (inject_Z 0). rewrite <- Zle_Qle. lia.
    + apply Qle_shift_div_r; [exact Hn |]. rewrite Qmult_1_l.
      rewrite <- Zle_Qle. lia.
Qed.

Lemma truediv_bounds (k n : nat) :
  (k <= n)%nat ->
  0 <= truediv (Z.of_nat k) (Z.of_nat n) /\ truediv (Z.of_nat k) (Z.of_nat n) <= 1.
Proof.
  intros H. destruct (ratio_bounds k n H) as [Hl Hh]. unfold truediv. split.
  - apply round_nonneg. exact Hl.
  - rewrite <- round_one. apply round_le; assumption.
Qed.

End FloatFacts.

(** ** The workflow executor *)

Module ExecutorFacts.
Import PyStr Py Schema Planner Compiler Executor.
Import Float64 FloatFacts.

Lemma length_set_nth {A} (i : nat) (x : A) (l : list A) :
  List.length (set_nth i x l) = List.length l.
Proof.
  revert i. induction l as [| y l IH]; intros [| i]; simpl; auto.
Qed.

Lemma nth_error_set_nth_eq {A} (i : nat) (x : A) (l : list A) :
  i < List.length l -> nth_error (set_nth i x l) i = Some x.
Proof.
  revert i. induction l as [| y l IH]; intros [| i] Hi; simpl in *; try lia.
  - reflexivity.
  - apply IH. lia.
Qed.

Lemma nth_error_set_nth_neq {A} (i j : nat) (x : A) (l : list A) :
  i <> j -> nth_error (set_nth i x l) j = nth_error l j.
Proof.
  revert i j. induction l as [| y l IH]; intros [| i] [| j] Hij; simpl;
    try reflexivity; try congruence.
  apply IH. congruence.
Qed.

(** *** Arithmetic of the progress *)

Section Progress.
Local Open Scope Q_scope.

Lemma progress_of_full (n : nat) : (1 <= n)%nat -> progress_of n n == 100.
Proof.
  intros Hn. unfold progress_of, mul, truediv.
  assert (E : inject_Z (Z.of_nat n) / inject_Z (Z.of_nat n) == 1).
  { field. intros E. unfold Qeq in E. simpl in E. lia. }
  assert (E1 : round (inject_Z (Z.of_nat n) / inject_Z (Z.of_nat n)) == 1).
  { rewrite (round_comp _ 1); [apply round_one | rewrite E; discriminate | exact E]. }
  rewrite (round_comp _ 100); [apply round_hundred | |].
  - rewrite E1. discriminate.
  - rewrite E1. reflexivity.
Qed.

Lemma progress_of_zero (n : nat) : progress_of 0 n == 0.
Proof.
  unfold progress_of, mul, truediv. apply round_zero.
  rewrite round_zero; [ring |]. unfold Qdiv. simpl. ring.
Qed.

Lemma progress_of_le (j k n : nat) :
  (j <= k)%nat -> progress_of j n <= progress_of k n.
Proof.
  intros H. unfold progress_of, mul, truediv.
  assert (Hinv : 0 <= / inject_Z (Z.of_nat n)).
  { apply Qinv_le_0_compat. change 0 with (inject_Z 0). rewrite <- Zle_Qle. lia. }
  assert (Hj : 0 <= inject_Z (Z.of_nat j) / inject_Z (Z.of_nat n)).
  { unfold Qdiv. apply Qmult_le_0_compat; [| exact Hinv].
    change 0 with (inject_Z 0). rewrite <- Zle_Qle. lia. }
  assert (Hjk : inject_Z (Z.of_nat j) / inject_Z (Z.of_nat n)
                <= inject_Z (Z.of_nat k) / inject_Z (Z.of_nat n)).
  { unfold Qdiv. apply Qmult_le_compat_r; [| exact Hinv]. rewrite <- Zle_Qle. lia. }
  pose proof (round_nonneg _ Hj) as Hrj.
  pose proof (round_le _ _ Hj Hjk) as Hr.
  apply round_le; lra.
Qed.

(** The progress is within 2^-45 of 100 k / n. *)
Lemma progress_of_near (k n : nat) :
  (k <= n)%nat ->
  Qabs (progress_of k n - 100 * inject_Z (Z.of_nat k) / inject_Z (Z.of_nat n))
  <= 1 # 2 ^ 45.
Proof.
  intros H. destruct (ratio_bounds k n H) as [Hql Hqh].
  destruct (truediv_bounds k n H) as [Hal Hah].
  unfold progress_of, mul. unfold truediv in *.
  set (q := inject_Z (Z.of_nat k) / inject_Z (Z.of_nat n)) in *.
  assert (Eq : 100 * inject_Z (Z.of_nat k) / inject_Z (Z.of_nat n) == 100 * q).
  { unfold q, Qdiv. ring. }
  rewrite Eq.
  assert (Ha : q - (1 # 2 ^ 53) <= round q /\ round q <= q + (1 # 2 ^ 53)).
  { destruct (Qlt_le_dec 0 q) as [Hpos | Hneg].
    - destruct (round_near q (-52)) as [Hl Hh].
      + replace (-52)%Z with (1 - 53)%Z by reflexivity.
        apply exponent_below; [exact Hpos | | lia].
        eapply Qle_lt_trans; [exact Hqh | reflexivity].
      + change (2 ^ (-52) / 2) with (1 # 2 ^ 53) in Hl, Hh. split; assumption.
    - assert (E0 : q == 0) by (apply Qle_antisym; assumption).
      rewrite (round_zero q E0), E0. split; discriminate. }
  set (a := round q) in *.
  assert (Hb : a * 100 - (1 # 2 ^ 47) <= round (a * 100)
               /\ round (a * 100) <= a * 100 + (1 # 2 ^ 47)).
  { destruct (Qlt_le_dec 0 (a * 100)) as [Hpos | Hneg].
    - destruct (round_near (a * 100) (-46)) as [Hl Hh].
      + replace (-46)%Z with (7 - 53)%Z by reflexivity.
        apply exponent_below; [exact Hpos | | lia].
        apply Qle_lt_trans with 100; [lra | reflexivity].
      + change (2 ^ (-46) / 2) with (1 # 2 ^ 47) in Hl, Hh. split; assumption.
    - assert (E0 : a * 100 == 0) by (apply Qle_antisym; [exact Hneg | lra]).
      rewrite (round_zero _ E0), E0. split; discriminate. }
  set (b := round (a * 100)) in *. clearbody a b q.
  change (2 ^ 53)%positive with 9007199254740992%positive in Ha.
  change (2 ^ 47)%positive with 140737488355328%positive in Hb.
  change (2 ^ 45)%positive with 35184372088832%positive.
  apply Qabs_Qle_condition. split; [| lra].
  change (- (1 # 35184372088832)) with (-1 # 35184372088832). lra.
Qed.

Lemma progress_of_mono (k n : nat) : progress_of k n <= progress_of (S k) n.
Proof. apply progress_of_le. lia. Qed.

(** A turn moves the progress by 100 / n, up to the rounding of the
    two floats. *)
Lemma progress_of_step (k n : nat) :
  (S k <= n)%nat ->
  Qabs (progress_of (S k) n - (progress_of k n + 100 / inject_Z (Z.of_nat n)))
  <= 1 # 2 ^ 44.
Proof.
  intros H.
  pose proof (progress_of_near k n ltac:(lia)) as Hk.
  pose proof (progress_of_near (S k) n H) as Hs.
  apply Qabs_Qle_condition in Hk. apply Qabs_Qle_condition in Hs.
  assert (E : 100 * inject_Z (Z.of_nat (S k)) / inject_Z (Z.of_nat n)
              == 100 * inject_Z (Z.of_nat k) / inject_Z (Z.of_nat n)
                 + 100 / inject_Z (Z.of_nat n)).
  { rewrite Nat2Z.inj_succ. unfold Z.succ. rewrite inject_Z_plus. unfold Qdiv. ring. }
  rewrite E in Hs.
  set (a := progress_of (S k) n) in *. set (b := progress_of k n) in *.
  set (c := 100 * inject_Z (Z.of_nat k) / inject_Z (Z.of_nat n)) in *.
  set (d := 100 / inject_Z (Z.of_nat n)) in *. clearbody a b c d.
  change (2 ^ 45)%positive with 35184372088832%positive in Hk, Hs.
  change (2 ^ 44)%positive with 17592186044416%positive.
  change (- (1 # 35184372088832)) with (-1 # 35184372088832) in Hk, Hs.
  apply Qabs_Qle_condition.
  change (- (1 # 17592186044416)) with (-1 # 17592186044416).
  split; lra.
Qed.

(** The progress is the float that the specification of binary64 of
    the standard library computes, checked for every count of at most
    64 tasks. *)
Lemma progress_of_binary64 (k n : nat) :
  (1 <= k)%nat -> (k <= n)%nat -> (n <= 64)%nat ->
  value (spec_truediv_mul (Z.of_nat k) (Z.of_nat n) 100) == progress_of k n.
Proof.
  intros H1 Hkn Hn.
  assert (Hall : forallb (fun n =>
                   forallb (fun k =>
                     Qeq_bool (value (spec_truediv_mul (Z.of_nat k) (Z.of_nat n) 100))
                              (progress_of k n))
                     (seq 1 n))
                   (seq 1 64) = true) by (vm_compute; reflexivity).
  rewrite forallb_forall in Hall.
  specialize (Hall n ltac:(apply in_seq; lia)).
  rewrite forallb_forall in Hall.
  specialize (Hall k ltac:(apply in_seq; lia)).
  apply Qeq_bool_iff. exact Hall.
Qed.

End Progress.

Section WithWorld.
Context {lib : Lib} {World : Type} {handlers : Handlers World}.

(** The task a handler failure leaves behind. *)
Definition failed_with (task : AgentTask) (e : exn) : AgentTask :=
  {| task_id := task_id task; agentId := agentId task; task_type := task_type task;
     task_input := task_input task; task_status := TaskStatus.failed;
     result := result task; error := Some (exn_str e);
     task_timestamp := task_timestamp task |}.

Definition processed (t : AgentTask) : Prop :=
  task_status t = TaskStatus.completed \/ task_status t = TaskStatus.failed.

Lemma finished_processed (task : AgentTask) (o : outcome json) :
  processed (finished task o).
Proof. destruct o; [left | right]; reflexivity. Qed.

(** One turn of the loop on a position that holds a task. *)
Lemma run_task_at (n : nat) (st : loop_state) (i : nat) (task : AgentTask) :
  nth_error (tasks (workflow st)) i = Some task ->
  run_task n st i =
    {| workflow :=
         set_progress
           (set_tasks (workflow st)
              (set_nth i (finished task (fst (handler_outcome st i task)))
                       (tasks (workflow st))))
           (progress_of (S (completed_tasks st)) n);
       completed_tasks := S (completed_tasks st);
       world := snd (handler_outcome st i task) |}.
Proof.
  intros Hi. unfold run_task. rewrite Hi.
  destruct (handler_outcome st i task). reflexivity.
Qed.

Lemma after_succ (wf : AgentWorkflow) (w : World) (k : nat) :
  after wf w (S k) = run_task (List.length (tasks wf)) (after wf w k) k.
Proof.
  unfold after. rewrite seq_S, fold_left_app. reflexivity.
Qed.

(** The invariant of the loop: after [k] turns the list of tasks has
    its length, [k] tasks are counted, the tasks from position [k] on
    are untouched, and the progress is that of [k] tasks. *)
Lemma after_invariant (wf : AgentWorkflow) (w : World) (k : nat) :
  k <= List.length (tasks wf) ->
  List.length (tasks (workflow (after wf w k))) = List.length (tasks wf)
  /\ completed_tasks (after wf w k) = k
  /\ (forall j, k <= j ->
        nth_error (tasks (workflow (after wf w k))) j = nth_error (tasks wf) j)
  /\ progress (workflow (after wf w k))
     = match k with
       | O => progress wf
       | S _ => progress_of k (List.length (tasks wf))
       end
  /\ inputs (workflow (after wf w k)) = inputs wf.
Proof.
  induction k as [| k IH]; intros Hk.
  - repeat split; reflexivity.
  - destruct IH as (Hlen & Hcount & Hrest & _ & Hin); [lia |].
    destruct (nth_error (tasks wf) k) as [task |] eqn:Htask;
      [| apply nth_error_None in Htask; lia].
    assert (Hcur : nth_error (tasks (workflow (after wf w k))) k = Some task).
    { rewrite Hrest by lia. exact Htask. }
    rewrite after_succ, (run_task_at _ _ _ _ Hcur). simpl.
    rewrite length_set_nth, Hcount. repeat split; try assumption.
    intros j Hj. rewrite nth_error_set_nth_neq by lia. apply Hrest. lia.
Qed.

(** The loop writes neither the status nor the suggestions of the
    workflow. *)
Lemma after_status (wf : AgentWorkflow) (w : World) (k : nat) :
  status (workflow (after wf w k)) = status wf
  /\ suggestions (workflow (after wf w k)) = suggestions wf.
Proof.
  induction k as [| k [IHst IHsug]]; [split; reflexivity |].
  rewrite after_succ. unfold run_task.
  destruct (nth_error (tasks (workflow (after wf w k))) k); [| split; assumption].
  destruct (handler_outcome (after wf w k) k a). simpl. split; assumption.
Qed.

(** The task at position [i] is the one of the plan until its turn. *)
Lemma task_before_turn (wf : AgentWorkflow) (w : World) (i : nat) (task : AgentTask) :
  nth_error (tasks wf) i = Some task ->
  nth_error (tasks (workflow (after wf w i))) i = Some task.
Proof.
  intros Hi.
  assert (Hlt : i < List.length (tasks wf)) by (apply nth_error_Some; congruence).
  destruct (after_invariant wf w i) as (_ & _ & Hrest & _); [lia |].
  rewrite Hrest by lia. exact Hi.
Qed.

(** The task right after its turn. *)
Lemma task_after_turn (wf : AgentWorkflow) (w : World) (i : nat) (task : AgentTask) :
  nth_error (tasks wf) i = Some task ->
  nth_error (tasks (workflow (after wf w (S i)))) i
  = Some (finished task (fst (handler_outcome (after wf w i) i task))).
Proof.
  intros Hi.
  assert (Hlt : i < List.length (tasks wf)) by (apply nth_error_Some; congruence).
  rewrite after_succ, (run_task_at _ _ _ _ (task_before_turn wf w i task Hi)). simpl.
  apply nth_error_set_nth_eq.
  destruct (after_invariant wf w i) as (Hlen & _); [lia |]. lia.
Qed.

(** Later turns leave the task as its own turn left it. *)
Lemma task_frozen (wf : AgentWorkflow) (w : World) (i k : nat) :
  i < k -> k <= List.length (tasks wf) ->
  nth_error (tasks (workflow (after wf w k))) i
  = nth_error (tasks (workflow (after wf w (S i)))) i.
Proof.
  induction k as [| k IH]; intros Hik Hk; [lia |].
  destruct (Nat.eq_dec i k) as [-> | Hne]; [reflexivity |].
  rewrite <- IH by lia.
  destruct (nth_error (tasks wf) k) as [task |] eqn:Htask;
    [| apply nth_error_None in Htask; lia].
  rewrite after_succ, (run_task_at _ _ _ _ (task_before_turn wf w k task Htask)). simpl.
  apply nth_error_set_nth_neq. congruence.
Qed.

(** After the loop every task is completed or failed. *)
Lemma all_processed (wf : AgentWorkflow) (w : World) :
  Forall processed (tasks (workflow (after wf w (List.length (tasks wf))))).
Proof.
  apply Forall_forall. intros t Hin.
  apply In_nth_error in Hin. destruct Hin as [i Hi].
  destruct (after_invariant wf w (List.length (tasks wf))) as (Hlen & _); [lia |].
  assert (Hlt : i < List.length (tasks wf)).
  { rewrite <- Hlen. apply nth_error_Some. congruence. }
  rewrite task_frozen in Hi by lia.
  destruct (nth_error (tasks wf) i) as [task |] eqn:Htask;
    [| apply nth_error_None in Htask; lia].
  rewrite (task_after_turn wf w i task Htask) in Hi.
  inversion Hi. apply finished_processed.
Qed.

End WithWorld.
End ExecutorFacts.

(** ** The suggestion compiler *)

Module CompilerFacts.
Import PyStr Py Schema Extractors Compiler Executor.

Section WithLib.
Context {lib : Lib}.

Lemma failed_not_usable (t : AgentTask) :
  task_status t = TaskStatus.failed -> usable t = false.
Proof. intros Hs. unfold usable. rewrite Hs. reflexivity. Qed.

Lemma flat_map_usable {B} (f : AgentTask -> list B) (l : list AgentTask) :
  (forall t, usable t = false -> f t = []) ->
  flat_map f l = flat_map f (filter usable l).
Proof.
  intros Hf. induction l as [| t l IH]; simpl; [reflexivity |].
  destruct (usable t) eqn:Hu; simpl.
  - rewrite IH. reflexivity.
  - rewrite (Hf t Hu). exact IH.
Qed.

Lemma skipped (t : AgentTask) :
  usable t = false ->
  errors_of t = [] /\ code_issues_of t = [] /\ analysis_of t = [].
Proof.
  intros Hu. unfold errors_of, code_issues_of, analysis_of. rewrite Hu.
  repeat split.
Qed.

(** The compiler reads the tasks that are completed with a result that
    counts as true, and no other task. *)
Lemma compile_reads_usable (wf : AgentWorkflow) :
  _compile_suggestions wf
  = _compile_suggestions (set_tasks wf (filter usable (tasks wf))).
Proof.
  unfold _compile_suggestions. simpl.
  rewrite <- !flat_map_usable; [reflexivity | | |]; intros t Hu; apply (skipped t Hu).
Qed.

(** Without such a task the compiler returns the empty list: the
    fallback is inside the test [if not suggestions and
    analysis_content]. *)
Lemma compile_nothing_usable (wf : AgentWorkflow) :
  filter usable (tasks wf) = [] -> _compile_suggestions wf = Returned [].
Proof.
  intros Hnone. rewrite compile_reads_usable, Hnone. reflexivity.
Qed.

Lemma analysis_of_usable (l : list AgentTask) :
  flat_map analysis_of l = [] <-> filter usable l = [].
Proof.
  induction l as [| t l IH]; simpl; [tauto |].
  unfold analysis_of at 1. destruct (usable t); simpl; [| exact IH].
  split; discriminate.
Qed.

(** With such a task the list the compiler returns is not empty. *)
Lemma compile_something_usable (wf : AgentWorkflow) (l : list FixSuggestion) :
  filter usable (tasks wf) <> [] ->
  _compile_suggestions wf = Returned l -> l <> [].
Proof.
  intros Hsome. unfold _compile_suggestions.
  destruct (suggest_all _ 0 _) as [s1 | e]; simpl; [| discriminate].
  destruct (suggest_all _ (List.length s1) _) as [s2 | e]; simpl; [| discriminate].
  destruct (s1 ++ s2) as [| s r] eqn:Hs.
  - destruct (flat_map analysis_of (tasks wf)) as [| a content] eqn:Hc.
    + apply analysis_of_usable in Hc. contradiction.
    + destruct (first_raw_suggestion _ 0 (a :: content)) as [[found |] | e];
        simpl; intros Hl; inversion Hl; discriminate.
  - intros Hl. inversion Hl. discriminate.
Qed.

End WithLib.

(** A workflow whose tasks all completed with the error payload of the
    adapter: here the fallback is reached. *)
Lemma fallback_reached {lib : Lib} (t : AgentTask) (inputs : list DebugInput) :
  task_status t = TaskStatus.completed ->
  task_type t = "fix_generation" ->
  result t = JObj [ ("error", JStr "Failed to call Gemini API: timeout") ] ->
  _compile_suggestions
    {| wf_id := "wf"; inputs := inputs; tasks := [t]; suggestions := [];
       status := WorkflowStatus.analyzing; progress := 100 |}
  = Returned [fallback_suggestion (map input_id inputs) 0].
Proof.
  intros Hs Ht Hr. unfold _compile_suggestions. simpl.
  unfold errors_of, code_issues_of, analysis_of, usable.
  rewrite Hs, Ht, Hr. reflexivity.
Qed.

(** C1, on the code. With handlers that all raise, the workflow of one
    code input is planned as three tasks, all of them fail, the executor
    sets the status completed, and the list of suggestions is empty: no
    AI Analysis Unavailable suggestion is made. The same happens with
    the handlers of the service on one log input when the generative
    service answers every prompt with the JSON text of an empty object:
    the three tasks complete, each with an empty dict as its result. *)
Theorem completed_without_suggestions {lib : Lib} :
  let run :=
    fst (start_workflow (handlers := Examples.failing_handlers) "wf-1"
           [Examples.sample_input "in-1" InputType.code "x = 1"] tt) in
  let run' :=
    fst (start_workflow
           (lib := Examples.sample_lib)
           (handlers := Service.handlers (lib := Examples.sample_lib)
                          (remote := Examples.answers "{}")
                          (env := Examples.sample_env))
           "wf-2"
           [Examples.sample_input "in-1" InputType.logs "ERROR: TypeError: x is undefined"]
           tt) in
  status run = WorkflowStatus.completed
  /\ map task_status (tasks run)
     = [TaskStatus.failed; TaskStatus.failed; TaskStatus.failed]
  /\ map error (tasks run) = [Some "boom"; Some "boom"; Some "boom"]
  /\ suggestions run = []
  /\ status run' = WorkflowStatus.completed
  /\ map task_type (tasks run')
     = ["error_extraction"; "documentation_search"; "fix_generation"]
  /\ map task_status (tasks run')
     = [TaskStatus.completed; TaskStatus.completed; TaskStatus.completed]
  /\ map result (tasks run') = [JObj []; JObj []; JObj []]
  /\ suggestions run' = [].
Proof.
  repeat split; reflexivity.
Qed.

End CompilerFacts.

(** ** The workflow, from the plan to the suggestions *)

Module WorkflowFacts.
Import PyStr Py Schema Planner Compiler Executor ExecutorFacts CompilerFacts.

Section WithWorld.
Context {lib : Lib} {World : Type} {handlers : Handlers World}.

(** The progress between two points of one pass. *)
Lemma progress_steps (wf : AgentWorkflow) (w : World) (j k : nat) :
  (progress wf == 0)%Q ->
  j <= k -> k <= List.length (tasks wf) ->
  (progress (workflow (after wf w j)) <= progress (workflow (after wf w k)))%Q.
Proof.
  intros Hzero Hjk. induction Hjk as [| k Hjk IH]; intros Hk.
  - apply Qle_refl.
  - eapply Qle_trans; [apply IH; lia |].
    destruct (after_invariant wf w k) as (_ & _ & _ & Hp & _); [lia |].
    destruct (after_invariant wf w (S k)) as (_ & _ & _ & Hp' & _); [lia |].
    rewrite Hp, Hp'. destruct k as [| k].
    + rewrite Hzero, <- (progress_of_zero (List.length (tasks wf))).
      apply progress_of_mono.
    + apply progress_of_mono.
Qed.

(** Every handler raises: each task is left failed, and the executor
    completes the workflow with an empty list of suggestions. *)
Lemma all_handlers_raise (wf : AgentWorkflow) (w : World) :
  let final := after wf w (List.length (tasks wf)) in
  (forall i task,
     nth_error (tasks wf) i = Some task ->
     exists e, fst (handler_outcome (after wf w i) i task) = Raised e) ->
  Forall (fun t => task_status t = TaskStatus.failed) (tasks (workflow final))
  /\ _execute_workflow wf w
     = (Returned tt,
        set_status (set_suggestions (workflow final) []) WorkflowStatus.completed,
        world final).
Proof.
  intros final Hall.
  assert (Hfailed : Forall (fun t => task_status t = TaskStatus.failed)
                           (tasks (workflow final))).
  { apply Forall_forall. intros t Hin.
    apply In_nth_error in Hin. destruct Hin as [i Hi].
    destruct (after_invariant wf w (List.length (tasks wf))) as (Hlen & _); [lia |].
    assert (Hlt : i < List.length (tasks wf)).
    { rewrite <- Hlen. apply nth_error_Some. unfold final in Hi. congruence. }
    destruct (nth_error (tasks wf) i) as [task |] eqn:Htask;
      [| apply nth_error_None in Htask; lia].
    destruct (Hall i task Htask) as [e He].
    unfold final in Hi. rewrite task_frozen in Hi by lia.
    rewrite (task_after_turn wf w i task Htask), He in Hi.
    inversion Hi. reflexivity. }
  split; [exact Hfailed |].
  unfold _execute_workflow. fold final.
  rewrite compile_nothing_usable; [reflexivity |].
  induction Hfailed as [| t l Ht _ IH]; simpl; [reflexivity |].
  rewrite (failed_not_usable t Ht). exact IH.
Qed.

End WithWorld.

(** C3. In a pass over a workflow that starts at progress 0, as
    [start_workflow] and the analysis endpoint create it, after [k] of
    the [N] tasks, whatever their handlers did, [k] tasks are counted
    and the progress is the float [(k / N) * 100]: the quotient rounded
    to binary64, times 100, rounded again. It is within 2^-45 of
    100 k / N, it is 100 when all the tasks are processed, and the
    progress at a point of the pass is at most the progress at any
    later point. *)
Theorem progress_after {World : Type} {handlers : Handlers World}
  (wf : AgentWorkflow) (w : World) (j k : nat) :
  (progress wf == 0)%Q ->
  j <= k -> k <= List.length (tasks wf) ->
  let n := List.length (tasks wf) in
  let p := progress (workflow (after wf w k)) in
  completed_tasks (after wf w k) = k
  /\ (1 <= k -> p = Float64.mul (Float64.truediv (Z.of_nat k) (Z.of_nat n)) 100)
  /\ (Qabs (p - 100 * inject_Z (Z.of_nat k) / inject_Z (Z.of_nat n)) <= 1 # 2 ^ 45)%Q
  /\ (1 <= k -> k = n -> (p == 100)%Q)
  /\ (progress (workflow (after wf w j)) <= p)%Q.
Proof.
  intros Hzero Hjk Hk n p.
  destruct (after_invariant wf w k Hk) as (_ & Hcount & _ & Hp & _).
  fold p in Hp. fold n in Hp.
  split; [exact Hcount |].
  split; [intros H1; destruct k; [lia | exact Hp] |].
  split; [| split; [| apply progress_steps; assumption]].
  - destruct k as [| k].
    + rewrite Hp, Hzero. unfold Qdiv. simpl. discriminate.
    + rewrite Hp. apply progress_of_near. exact Hk.
  - intros H1 E. destruct k as [| k]; [lia |].
    rewrite Hp, E. apply progress_of_full. lia.
Qed.

(** C2. When the handler of the task at position [i] raises [e], the
    task is left failed with [str(e)] as its error, right after its turn
    and in the workflow the executor leaves behind; the turn counts the
    task and moves the progress to the float of (i+1)/N, that is by
    100/N up to the rounding of the floats, and never down; the loop
    goes on to the end: all N tasks are counted and each is completed
    or failed; and the compiler does not read the failed task. When the
    compiler returns, the executor returns with the status completed
    and the suggestions of the compiler; when the compiler raises, the
    executor raises the same exception and leaves the status and the
    suggestions as they were. *)
Theorem handler_failure_contained {lib : Lib} {World : Type} {handlers : Handlers World}
  (wf : AgentWorkflow) (w : World) (i : nat) (task : AgentTask) (e : exn) :
  let n := List.length (tasks wf) in
  let final := after wf w n in
  let pass := fst (fst (_execute_workflow wf w)) in
  let wf' := snd (fst (_execute_workflow wf w)) in
  nth_error (tasks wf) i = Some task ->
  fst (handler_outcome (after wf w i) i task) = Raised e ->
  nth_error (tasks (workflow (after wf w (S i)))) i = Some (failed_with task e)
  /\ nth_error (tasks wf') i = Some (failed_with task e)
  /\ completed_tasks (after wf w (S i)) = S (completed_tasks (after wf w i))
  /\ progress (workflow (after wf w (S i))) = progress_of (S i) n
  /\ (progress_of i n <= progress_of (S i) n)%Q
  /\ (Qabs (progress_of (S i) n - (progress_of i n + 100 / inject_Z (Z.of_nat n)))
      <= 1 # 2 ^ 44)%Q
  /\ completed_tasks final = n
  /\ Forall processed (tasks wf')
  /\ usable (failed_with task e) = false
  /\ (forall l,
        _compile_suggestions (workflow final) = Returned l ->
        pass = Returned tt
        /\ status wf' = WorkflowStatus.completed
        /\ suggestions wf' = l)
  /\ (forall e',
        _compile_suggestions (workflow final) = Raised e' ->
        pass = Raised e'
        /\ status wf' = status wf
        /\ suggestions wf' = suggestions wf).
Proof.
  intros n final pass wf' Htask Hraise.
  assert (Hlt : i < n) by (apply nth_error_Some; congruence).
  assert (Hturn : nth_error (tasks (workflow (after wf w (S i)))) i
                  = Some (failed_with task e)).
  { rewrite (task_after_turn wf w i task Htask), Hraise. reflexivity. }
  assert (Hlast : nth_error (tasks (workflow final)) i = Some (failed_with task e)).
  { unfold final. destruct (Nat.eq_dec (S i) n) as [<- | Hne]; [exact Hturn |].
    rewrite task_frozen by lia. exact Hturn. }
  assert (Htasks : tasks wf' = tasks (workflow final)).
  { unfold wf', _execute_workflow. fold n. fold final.
    destruct (_compile_suggestions (workflow final)); reflexivity. }
  destruct (after_invariant wf w i) as (_ & Hci & _); [lia |].
  destruct (after_invariant wf w (S i)) as (_ & Hcs & _ & Hps & _); [lia |].
  destruct (after_invariant wf w n) as (_ & Hcn & _); [lia |].
  destruct (after_status wf w n) as [Hst Hsug].
  split; [exact Hturn |].
  split; [rewrite Htasks; exact Hlast |].
  split; [rewrite Hci, Hcs; reflexivity |].
  split; [exact Hps |].
  split; [apply progress_of_mono |].
  split; [apply progress_of_step; lia |].
  split; [exact Hcn |].
  split; [rewrite Htasks; apply all_processed |].
  split; [apply failed_not_usable; reflexivity |].
  split.
  - intros l Hl. unfold pass, wf', _execute_workflow. fold n. fold final.
    rewrite Hl. repeat split.
  - intros e' He'. unfold pass, wf', _execute_workflow. fold n. fold final.
    rewrite He'. repeat split; assumption.
Qed.

(** A workflow of a log and a code input, planned as four tasks, with
    handlers of which the code analysis raises. *)
Definition sample_workflow : AgentWorkflow :=
  {| wf_id := "wf-1";
     inputs := [ Examples.sample_input "in-1" InputType.logs "ERROR: TypeError";
                 Examples.sample_input "in-2" InputType.code "x = 1" ];
     tasks := _plan_tasks (lib := Examples.sample_lib)
                [ Examples.sample_input "in-1" InputType.logs "ERROR: TypeError";
                  Examples.sample_input "in-2" InputType.code "x = 1" ];
     suggestions := [];
     status := WorkflowStatus.analyzing;
     progress := 0 |}.

(** A workflow of one input, planned as three tasks. *)
Definition workflow_of (d : DebugInput) : AgentWorkflow :=
  {| wf_id := "wf-2";
     inputs := [d];
     tasks := _plan_tasks (lib := Examples.sample_lib) [d];
     suggestions := [];
     status := WorkflowStatus.analyzing;
     progress := 0 |}.

Lemma progress_after_witness :
  completed_tasks (after (handlers := Examples.mixed_handlers) sample_workflow tt 2) = 2
  /\ (Qabs (progress (workflow (after (handlers := Examples.mixed_handlers)
                                      sample_workflow tt 2))
            - 100 * inject_Z 2 / inject_Z 4) <= 1 # 2 ^ 45)%Q.
Proof.
  destruct (progress_after (handlers := Examples.mixed_handlers) sample_workflow tt 1 2)
    as (Hc & _ & Hp & _).
  - reflexivity.
  - lia.
  - simpl. lia.
  - split; [exact Hc | exact Hp].
Defined.

(** After the first of three tasks the progress is the float
    33.33333333333333, which is not 100/3. *)
Lemma progress_after_one_of_three :
  let wf := workflow_of (Examples.sample_input "in-1" InputType.logs "ERROR: TypeError") in
  let p := progress (workflow (after (handlers := Examples.mixed_handlers) wf tt 1)) in
  List.length (tasks wf) = 3
  /\ (progress wf == 0)%Q
  /\ completed_tasks (after (handlers := Examples.mixed_handlers) wf tt 1) = 1
  /\ (p == 4691249611844266 # 2 ^ 47)%Q
  /\ ~ (p == 100 * inject_Z 1 / inject_Z 3)%Q.
Proof.
  split; [reflexivity |]. split; [reflexivity |]. split; [reflexivity |].
  split; [vm_compute; reflexivity |].
  intros H. vm_compute in H. discriminate H.
Qed.

Lemma handler_failure_contained_witness :
  exists task,
    nth_error (tasks sample_workflow) 1 = Some task
    /\ nth_error (tasks (snd (fst (_execute_workflow (lib := Examples.sample_lib)
                                     (handlers := Examples.mixed_handlers)
                                     sample_workflow tt)))) 1
       = Some (failed_with task Examples.boom)
    /\ status (snd (fst (_execute_workflow (lib := Examples.sample_lib)
                            (handlers := Examples.mixed_handlers)
                            sample_workflow tt)))
       = WorkflowStatus.completed.
Proof.
  destruct (nth_error (tasks sample_workflow) 1) as [task |] eqn:Htask;
    [| discriminate Htask].
  exists task. split; [reflexivity |].
  destruct (handler_failure_contained (lib := Examples.sample_lib)
              (handlers := Examples.mixed_handlers) sample_workflow tt 1 task Examples.boom)
    as (_ & Hfinal & _ & _ & _ & _ & _ & _ & _ & Hreturned & _).
  - exact Htask.
  - vm_compute in Htask. inversion Htask. reflexivity.
  - split; [exact Hfinal |].
    destruct (_compile_suggestions
                (workflow (after (handlers := Examples.mixed_handlers) sample_workflow tt
                                 (List.length (tasks sample_workflow)))))
      as [l | e'] eqn:Hl; [| vm_compute in Hl; discriminate Hl].
    apply (Hreturned l eq_refl).
Defined.

(** A code input whose file name is a number, and a generative service
    that answers every prompt with an object whose raw_response is a
    number. The handler of the code analysis raises on the file name;
    the two other tasks complete; the compiler then raises on the
    length of the number, so the executor raises and leaves the status
    analyzing, and [start_workflow] marks the workflow failed. *)
Lemma compiler_failure_not_completed :
  let handlers :=
    Service.handlers (lib := Examples.number_lib)
      (remote := Examples.answers Examples.number_answer)
      (env := Examples.sample_env) in
  let wf := workflow_of Examples.numbered_input in
  let run := _execute_workflow (lib := Examples.number_lib) (handlers := handlers) wf tt in
  (exists task e,
     nth_error (tasks wf) 0 = Some task
     /\ fst (handler_outcome (handlers := handlers) (after (handlers := handlers) wf tt 0)
                             0 task) = Raised e)
  /\ map task_status (tasks (snd (fst run)))
     = [TaskStatus.failed; TaskStatus.completed; TaskStatus.completed]
  /\ (exists e', fst (fst run) = Raised e' /\ exn_class_of e' = TypeError)
  /\ status (snd (fst run)) = WorkflowStatus.analyzing
  /\ status (fst (start_workflow (lib := Examples.number_lib) (handlers := handlers)
                    "wf-2" [Examples.numbered_input] tt))
     = WorkflowStatus.failed.
Proof.
  split; [eexists; eexists; split; reflexivity |].
  split; [reflexivity |].
  split; [eexists; split; reflexivity |].
  split; reflexivity.
Qed.

End WorkflowFacts.

(** ** The generative client adapter *)

Module AdapterFacts.
Import PyStr Py Adapter.

(** An error wrapper: a dict with an error message, alone or with the
    diagnostic body. *)
Definition is_error_wrapper (v : json) : Prop :=
  exists msg,
    v = JObj [ ("error", JStr msg) ]
    \/ exists details, v = JObj [ ("error", JStr msg); ("details", JStr details) ].


Section WithLib.
Context {lib : Lib}.




Lemma payloads_are_error_wrappers (status : nat) (error_text : string) (e : exn) :
  is_error_wrapper (http_error_payload status error_text)
  /\ is_error_wrapper (exception_payload e).
Proof.
  split; eexists; [right; eexists |left]; reflexivity.
Qed.

End WithLib.




End AdapterFacts.

(** ** Runs of the whole engine *)

Module Scenarios.
Import PyStr Py Schema Adapter Compiler Executor.

(** [start_workflow] with the handlers of the service. *)
Definition run (remote : Remote) (inputs : list DebugInput) : AgentWorkflow :=
  fst (start_workflow
         (lib := Examples.sample_lib)
         (handlers := Service.handlers (lib := Examples.sample_lib)
                        (remote := remote) (env := Examples.sample_env))
         "wf" inputs tt).

(** Scenario B: a log input, and a generative service that answers in
    plain text with the word error. *)
Example scenario_b :
  let wf := run (Examples.answers "The log shows an ERROR: x is undefined")
                [Examples.sample_input "in-1" InputType.logs
                   "ERROR: TypeError: Cannot read property 'length' of undefined"] in
  status wf = WorkflowStatus.completed
  /\ map task_status (tasks wf)
     = [TaskStatus.completed; TaskStatus.completed; TaskStatus.completed]
  /\ map title (suggestions wf) = ["Fix Runtime Error Issue"]
  /\ map confidence (suggestions wf) = [75%Q]
  /\ map relatedInputs (suggestions wf) = [["in-1"]].
Proof. repeat split; reflexivity. Qed.

(** A code input when the remote service cannot be reached: the tasks
    complete with the error wrapper as their result, and the compiler
    reaches its fallback. *)
Example unreachable_service :
  let wf := run (Examples.always (NoReply (Exn ClientError "timeout")))
                [Examples.sample_input "in-1" InputType.code "var x = 5;"] in
  status wf = WorkflowStatus.completed
  /\ map task_status (tasks wf)
     = [TaskStatus.completed; TaskStatus.completed; TaskStatus.completed]
  /\ suggestions wf = [fallback_suggestion (lib := Examples.sample_lib) ["in-1"] 0]
  /\ map title (suggestions wf) = ["AI Analysis Unavailable"]
  /\ map confidence (suggestions wf) = [30%Q]
  /\ map sugg_type (suggestions wf) = [SuggestionType.configuration].
Proof. repeat split; reflexivity. Qed.

(** The string functions on the texts of the source. *)
Example strip_spaces : strip "  var x  " = "var x".
Proof. reflexivity. Qed.

Example replace_equalities :
  replace "!=" "!==" (replace "==" "===" "a == b && c != d") = "a === b && c !== d".
Proof. reflexivity. Qed.

Example split_emphasis : split_str "**" "1. **Title** rest" = ["1. "; "Title"; " rest"].
Proof. reflexivity. Qed.

Example titlecase_type : titlecase (replace "_" " " "logic_error") = "Logic Error".
Proof. reflexivity. Qed.

Example split_keeps_last_empty :
  splitlines ("a" +++ nl +++ "b" +++ nl) = ["a"; "b"; EmptyString].
Proof. reflexivity. Qed.

End Scenarios.

(** * Further properties *)

(** ** The plan: identifiers, initial state and agents *)

Module PlanFacts.
Import PyStr Py Schema Planner Registry.

Lemma to_int_proper (z : Z) :
  Z.to_int z <> Decimal.Pos Decimal.Nil /\ Z.to_int z <> Decimal.Neg Decimal.Nil.
Proof.
  destruct z; simpl; split; try discriminate; intros E; injection E as E;
    apply (DecimalPos.Unsigned.to_uint_nonnil p); exact E.
Qed.

(** Two integers are printed alike only when they are equal. *)
Lemma of_Z_inj (a b : Z) : of_Z a = of_Z b -> a = b.
Proof.
  unfold of_Z. intros E. apply DecimalZ.to_int_inj.
  destruct (to_int_proper a) as [Ha1 Ha2]. destruct (to_int_proper b) as [Hb1 Hb2].
  pose proof (NilZero.isi _ Ha1 Ha2) as Ia. pose proof (NilZero.isi _ Hb1 Hb2) as Ib.
  rewrite E in Ia. rewrite Ia in Ib. injection Ib as Ib. exact Ib.
Qed.

Lemma task_name_inj (a b : nat) : task_name a = task_name b -> a = b.
Proof.
  unfold task_name. intros E. simpl in E. injection E as E.
  apply of_Z_inj in E. lia.
Qed.

(** A task as the planner leaves it. *)
Definition fresh (t : AgentTask) : Prop :=
  task_status t = TaskStatus.pending /\ result t = JNull /\ error t = None.

(** The agents the planner assigns. *)
Definition assigned (t : AgentTask) : Prop :=
  In (agentId t)
     [ "error-extractor"; "code-analyzer"; "multimodal-analyzer";
       "doc-retriever"; "fix-generator" ].

Section WithLib.
Context {lib : Lib}.

(** The loop over the inputs numbers its tasks from the counter on. *)
Lemma plan_inputs_ids (inputs : list DebugInput) :
  forall tasks task_counter,
  exists per_input,
    fold_left plan_input inputs (tasks, task_counter)
      = (tasks ++ per_input, task_counter + List.length inputs)
    /\ List.length per_input = List.length inputs
    /\ map task_id per_input = map task_name (seq task_counter (List.length inputs))
    /\ Forall fresh per_input
    /\ Forall assigned per_input.
Proof.
  induction inputs as [| d inputs IH]; intros tasks task_counter.
  - exists []. simpl. rewrite app_nil_r, Nat.add_0_r. repeat split; constructor.
  - assert (Hstep : exists agent kind,
               In agent [ "error-extractor"; "code-analyzer"; "multimodal-analyzer" ]
               /\ plan_input (tasks, task_counter) d
                  = (tasks ++ [new_task (List.length tasks) (task_name task_counter)
                                 agent kind (input_dict d)], S task_counter)).
    { unfold plan_input. destruct (input_type d); simpl;
        eexists; eexists; (split; [| reflexivity]); simpl; tauto. }
    destruct Hstep as (agent & kind & Hagent & Hstep).
    cbn [fold_left]. rewrite Hstep.
    destruct (IH (tasks ++ [new_task (List.length tasks) (task_name task_counter)
                              agent kind (input_dict d)]) (S task_counter))
      as (rest & Hfold & Hlen & Hids & Hfresh & Hassigned).
    eexists (_ :: rest). split; [| split; [| split; [| split]]].
    + rewrite Hfold, <- app_assoc. simpl. f_equal. lia.
    + simpl. rewrite Hlen. reflexivity.
    + simpl. rewrite Hids. reflexivity.
    + constructor; [repeat split | exact Hfresh].
    + constructor; [| exact Hassigned].
      unfold assigned. simpl agentId. simpl in Hagent |- *. tauto.
Qed.

(** The identifiers, the initial state and the agents of a plan. *)
Lemma plan_tasks_listing (inputs : list DebugInput) :
  map task_id (_plan_tasks inputs)
    = map task_name (seq 1 (List.length (_plan_tasks inputs)))
  /\ Forall fresh (_plan_tasks inputs)
  /\ Forall assigned (_plan_tasks inputs).
Proof.
  destruct (plan_inputs_ids inputs [] 1) as (per_input & Hfold & Hlen & Hids & Hf & Ha).
  unfold _plan_tasks. rewrite Hfold. simpl app.
  destruct per_input as [| t r] eqn:Hper.
  - simpl in Hlen. rewrite <- Hlen. simpl.
    repeat split; repeat constructor; unfold assigned; simpl; tauto.
  - cbv beta iota zeta. rewrite <- Hper in *. clear Hper.
    split; [| split].
    + rewrite !length_app, !map_app, Hids, Hlen. cbn [List.length map].
      rewrite !seq_app. cbn [seq]. rewrite !map_app. cbn [map].
      rewrite <- !app_assoc. cbn [app task_id new_task].
      repeat first [ reflexivity | lia | f_equal ].
    + apply Forall_app. split; [apply Forall_app; split; [exact Hf |] |];
        repeat constructor.
    + apply Forall_app. split; [apply Forall_app; split; [exact Ha |] |];
        repeat constructor; unfold assigned; simpl; tauto.
Qed.

End WithLib.

(** X1. The tasks of a plan are named task-1, task-2, ... in their
    order, so no two tasks of a plan share an identifier; each task is
    pending, without result and without error. *)
Theorem plan_tasks_identifiers {lib : Lib} (inputs : list DebugInput) :
  map task_id (_plan_tasks inputs)
    = map task_name (seq 1 (List.length (_plan_tasks inputs)))
  /\ NoDup (map task_id (_plan_tasks inputs))
  /\ Forall fresh (_plan_tasks inputs).
Proof.
  destruct (plan_tasks_listing inputs) as (Hids & Hfresh & _).
  split; [exact Hids |]. split; [| exact Hfresh].
  rewrite Hids. apply Finite.Injective_map_NoDup.
  - intros a b. apply task_name_inj.
  - apply seq_NoDup.
Qed.

(** X2. Every task of every plan is assigned to an agent of the
    service: the lookup of its agent finds the agent of that identifier,
    and its name is not the name given to unknown agents. *)
Theorem plan_tasks_agents_registered {lib : Lib} (inputs : list DebugInput) :
  Forall (fun t =>
            (exists agent, get_agent_by_id (agentId t) = Some agent
                           /\ agent_id agent = agentId t
                           /\ _get_agent_name (agentId t) = agent_name agent)
            /\ _get_agent_name (agentId t) <> "Unknown Agent")
         (_plan_tasks inputs).
Proof.
  destruct (plan_tasks_listing inputs) as (_ & _ & Hassigned).
  eapply Forall_impl; [| exact Hassigned].
  intros t Ht. unfold assigned in Ht. simpl in Ht.
  destruct Ht as [E | [E | [E | [E | [E | []]]]]]; rewrite <- E;
    (split; [eexists; repeat split | discriminate]).
Qed.

(** An identifier outside the service, and the identifiers it has. *)
Lemma unknown_agent_name :
  _get_agent_name "translator" = "Unknown Agent"
  /\ map agent_id get_agents
     = [ "error-extractor"; "code-analyzer"; "doc-retriever"; "fix-generator";
         "multimodal-analyzer" ]
  /\ NoDup (map agent_id get_agents).
Proof.
  split; [reflexivity |]. split; [reflexivity |].
  simpl. repeat constructor; simpl; intuition discriminate.
Qed.

End PlanFacts.

(** ** One pass of the executor *)

Module PassFacts.
Import PyStr Py Schema Planner Compiler Executor ExecutorFacts CompilerFacts.

(** What identifies a task and is fixed by the plan. *)
Definition core (t : AgentTask) : string * string * string * json * Z :=
  (task_id t, agentId t, task_type t, task_input t, task_timestamp t).

(** The task a handler that returns [r] leaves behind. *)
Definition completed_with (task : AgentTask) (r : json) : AgentTask :=
  {| task_id := task_id task; agentId := agentId task; task_type := task_type task;
     task_input := task_input task; task_status := TaskStatus.completed;
     result := r; error := error task; task_timestamp := task_timestamp task |}.

Lemma core_finished (task : AgentTask) (o : outcome json) :
  core (finished task o) = core task.
Proof. destruct o; reflexivity. Qed.

Lemma map_set_nth {A B} (f : A -> B) (i : nat) (x y : A) (l : list A) :
  nth_error l i = Some x -> f y = f x -> map f (set_nth i y l) = map f l.
Proof.
  revert i. induction l as [| z l IH]; intros [| i] Hi Hf; simpl in *;
    try discriminate.
  - inversion Hi. subst. rewrite Hf. reflexivity.
  - rewrite (IH i Hi Hf). reflexivity.
Qed.

Section WithWorld.
Context {lib : Lib} {World : Type} {handlers : Handlers World}.

(** The loop changes neither the identity of the workflow nor that of
    its tasks, nor their order. *)
Lemma after_identity (wf : AgentWorkflow) (w : World) (k : nat) :
  k <= List.length (tasks wf) ->
  map core (tasks (workflow (after wf w k))) = map core (tasks wf)
  /\ wf_id (workflow (after wf w k)) = wf_id wf
  /\ inputs (workflow (after wf w k)) = inputs wf
  /\ suggestions (workflow (after wf w k)) = suggestions wf
  /\ status (workflow (after wf w k)) = status wf.
Proof.
  induction k as [| k IH]; intros Hk; [repeat split |].
  destruct IH as (Hcore & Hid & Hin & Hsug & Hst); [lia |].
  destruct (nth_error (tasks wf) k) as [task |] eqn:Htask;
    [| apply nth_error_None in Htask; lia].
  pose proof (task_before_turn wf w k task Htask) as Hcur.
  rewrite after_succ, (run_task_at _ _ _ _ Hcur). simpl.
  rewrite (map_set_nth core _ _ _ _ Hcur (core_finished _ _)).
  repeat split; assumption.
Qed.

(** What [_execute_workflow] leaves, by what the compiler did. *)
Lemma execute_cases (wf : AgentWorkflow) (w : World) :
  let final := after wf w (List.length (tasks wf)) in
  (exists l,
     _compile_suggestions (workflow final) = Returned l
     /\ _execute_workflow wf w
        = (Returned tt,
           set_status (set_suggestions (workflow final) l) WorkflowStatus.completed,
           world final))
  \/ (exists e,
        _compile_suggestions (workflow final) = Raised e
        /\ _execute_workflow wf w = (Raised e, workflow final, world final)).
Proof.
  intros final. unfold _execute_workflow. fold final.
  destruct (_compile_suggestions (workflow final)) as [l | e];
    [left | right]; eexists; split; reflexivity.
Qed.

End WithWorld.

(** X3. Whatever the handlers do and whether the compiler returns or
    raises, the executor leaves the identifier and the inputs of the
    workflow as they were, and the tasks in their order with their
    identifier, agent, type, payload and timestamp. *)
Theorem execute_keeps_identity {lib : Lib} {World : Type} {handlers : Handlers World}
  (wf : AgentWorkflow) (w : World) :
  let wf' := snd (fst (_execute_workflow wf w)) in
  map core (tasks wf') = map core (tasks wf)
  /\ List.length (tasks wf') = List.length (tasks wf)
  /\ wf_id wf' = wf_id wf
  /\ inputs wf' = inputs wf.
Proof.
  intros wf'.
  destruct (after_identity wf w (List.length (tasks wf))) as (Hcore & Hid & Hin & _);
    [lia |].
  assert (Hgoal : map core (tasks wf') = map core (tasks wf)
                  /\ wf_id wf' = wf_id wf /\ inputs wf' = inputs wf).
  { unfold wf'.
    destruct (execute_cases wf w) as [(l & _ & He) | (e & _ & He)]; rewrite He; simpl;
      auto. }
  destruct Hgoal as (H1 & H2 & H3). repeat split; try assumption.
  rewrite <- (length_map core), H1, length_map. reflexivity.
Qed.

(** X4. When the handler of the task at position [i] returns [r], the
    task is left completed with [r] as its result and its error
    untouched, right after its turn and in the workflow the executor
    leaves behind. *)
Theorem handler_result_stored {lib : Lib} {World : Type} {handlers : Handlers World}
  (wf : AgentWorkflow) (w : World) (i : nat) (task : AgentTask) (r : json) :
  nth_error (tasks wf) i = Some task ->
  fst (handler_outcome (after wf w i) i task) = Returned r ->
  nth_error (tasks (workflow (after wf w (S i)))) i = Some (completed_with task r)
  /\ nth_error (tasks (snd (fst (_execute_workflow wf w)))) i
     = Some (completed_with task r).
Proof.
  intros Htask Hret.
  assert (Hlt : i < List.length (tasks wf)) by (apply nth_error_Some; congruence).
  assert (Hturn : nth_error (tasks (workflow (after wf w (S i)))) i
                  = Some (completed_with task r)).
  { rewrite (task_after_turn wf w i task Htask), Hret. reflexivity. }
  split; [exact Hturn |].
  assert (Hfinal : nth_error (tasks (workflow (after wf w (List.length (tasks wf))))) i
                   = Some (completed_with task r)).
  { destruct (Nat.eq_dec (S i) (List.length (tasks wf))) as [<- | Hne]; [exact Hturn |].
    rewrite task_frozen by lia. exact Hturn. }
  destruct (execute_cases wf w) as [(l & _ & He) | (e & _ & He)]; rewrite He; simpl;
    exact Hfinal.
Qed.

(** X5. A task changes in its own turn only: up to its turn it is the
    task of the plan, and after its turn it stays as the turn left it,
    so that no later handler overwrites its result. *)
Theorem task_changes_once {lib : Lib} {World : Type} {handlers : Handlers World}
  (wf : AgentWorkflow) (w : World) (i k : nat) :
  i < List.length (tasks wf) -> k <= List.length (tasks wf) ->
  (k <= i ->
   nth_error (tasks (workflow (after wf w k))) i = nth_error (tasks wf) i)
  /\ (i < k ->
      nth_error (tasks (workflow (after wf w k))) i
      = nth_error (tasks (workflow (after wf w (S i)))) i).
Proof.
  intros Hi Hk. split.
  - intros Hki. destruct (after_invariant wf w k Hk) as (_ & _ & Hrest & _).
    apply Hrest. exact Hki.
  - intros Hik. apply task_frozen; assumption.
Qed.

(** X6. On a workflow with at least one task the executor leaves the
    progress at 100, whether the compiler returns or raises. On a
    workflow without tasks it touches nothing but the status, which
    becomes completed, and the suggestions, which become the empty
    list. *)
Theorem execute_final_progress {lib : Lib} {World : Type} {handlers : Handlers World}
  (wf : AgentWorkflow) (w : World) :
  (tasks wf <> [] -> (progress (snd (fst (_execute_workflow wf w))) == 100)%Q)
  /\ (tasks wf = [] ->
      _execute_workflow wf w
      = (Returned tt,
         set_status (set_suggestions wf []) WorkflowStatus.completed, w)).
Proof.
  split.
  - intros Hne.
    assert (Hn : 1 <= List.length (tasks wf)).
    { destruct (tasks wf); [congruence | simpl; lia]. }
    destruct (after_invariant wf w (List.length (tasks wf))) as (_ & _ & _ & Hp & _);
      [lia |].
    assert (Hfinal : (progress (workflow (after wf w (List.length (tasks wf)))) == 100)%Q).
    { rewrite Hp. destruct (List.length (tasks wf)) as [| n] eqn:E; [lia |].
      apply progress_of_full. lia. }
    destruct (execute_cases wf w) as [(l & _ & He) | (e & _ & He)]; rewrite He; simpl;
      exact Hfinal.
  - intros Hnil. unfold _execute_workflow. rewrite Hnil. simpl.
    rewrite compile_nothing_usable by (simpl; rewrite Hnil; reflexivity).
    reflexivity.
Qed.

End PassFacts.

(** ** From the request to the answer *)

Module ApiFacts.
Import PyStr Py Schema Planner Compiler Executor Api.
Import PlannerFacts ExecutorFacts CompilerFacts PassFacts.

Lemma plan_length {lib : Lib} (inputs : list DebugInput) :
  List.length (_plan_tasks inputs)
  = match inputs with [] => 1 | _ :: _ => List.length inputs + 2 end.
Proof.
  destruct (plan_tasks_shape inputs) as (per_input & Hall & Hplan).
  rewrite Hplan. pose proof (Forall2_length Hall) as Hlen.
  destruct inputs as [| d inputs]; destruct per_input as [| t r]; simpl in Hlen;
    try discriminate; [reflexivity |].
  rewrite length_app. simpl. lia.
Qed.

Lemma stored_store (workflow_id : string) (wf : AgentWorkflow) (s : storage) :
  stored workflow_id (store workflow_id wf s) = Some wf.
Proof.
  induction s as [| [k old] s IH]; simpl.
  - rewrite String.eqb_refl. reflexivity.
  - destruct (String.eqb workflow_id k) eqn:E; simpl; rewrite E; [reflexivity | exact IH].
Qed.

Lemma stored_store_other (a b : string) (wf : AgentWorkflow) (s : storage) :
  a <> b -> stored a (store b wf s) = stored a s.
Proof.
  intros Hab. induction s as [| [k old] s IH]; simpl.
  - destruct (String.eqb_spec a b); [contradiction | reflexivity].
  - destruct (String.eqb_spec b k) as [-> | Hbk]; simpl.
    + destruct (String.eqb_spec a k); [contradiction | reflexivity].
    + destruct (String.eqb a k); [reflexivity | exact IH].
Qed.

Lemma queued_enqueue (session_id : string) (x : session) (q : queue) :
  queued session_id (enqueue session_id x q) = Some x.
Proof.
  induction q as [| [k old] q IH]; simpl.
  - rewrite String.eqb_refl. reflexivity.
  - destruct (String.eqb session_id k) eqn:E; simpl; rewrite E; [reflexivity | exact IH].
Qed.

(** Completed and failed tasks are all the tasks once each has been
    processed. *)
Lemma count_processed (l : list AgentTask) :
  Forall processed l ->
  count_status TaskStatus.completed l + count_status TaskStatus.failed l
  = List.length l.
Proof.
  unfold count_status. induction 1 as [| t l Ht _ IH]; simpl; [reflexivity |].
  destruct Ht as [Ht | Ht]; rewrite Ht; simpl; lia.
Qed.

Section WithWorld.
Context {lib : Lib} {World : Type} {handlers : Handlers World}.

(** The workflow the background task leaves in the storage. *)
Lemma run_analysis_stored (workflow_id : string) (s : storage) (w : World)
  (wf : AgentWorkflow) :
  stored workflow_id s = Some wf ->
  exists wf',
    stored workflow_id (fst (run_analysis_workflow workflow_id s w)) = Some wf'
    /\ Forall processed (tasks wf')
    /\ List.length (tasks wf') = List.length (tasks wf)
    /\ inputs wf' = inputs wf
    /\ ((status wf' = WorkflowStatus.completed
         /\ _compile_suggestions
              (workflow (after wf w (List.length (tasks wf))))
            = Returned (suggestions wf'))
        \/ (status wf' = WorkflowStatus.failed
            /\ suggestions wf' = suggestions wf
            /\ progress wf' = 100%Q)).
Proof.
  intros Hs. unfold run_analysis_workflow. rewrite Hs.
  pose proof (all_processed wf w) as Hall.
  destruct (after_invariant wf w (List.length (tasks wf))) as (Hlen & _); [lia |].
  destruct (after_identity wf w (List.length (tasks wf))) as (_ & _ & Hin & Hsug & _);
    [lia |].
  destruct (execute_cases wf w) as [(l & Hc & He) | (e & Hc & He)]; rewrite He; simpl;
    rewrite stored_store; eexists; (split; [reflexivity |]); simpl;
    repeat split; try assumption.
  - left. split; [reflexivity | exact Hc].
  - right. repeat split. exact Hsug.
Qed.

End WithWorld.

(** X7. [start_workflow] returns a workflow in a final status, at
    progress 100, with the given identifier and inputs and with the
    tasks of the plan, each of them completed or failed: either the
    status is completed, or it is failed and the list of suggestions is
    empty. *)
Theorem start_workflow_terminal {lib : Lib} {World : Type} {handlers : Handlers World}
  (workflow_id : string) (inputs : list DebugInput) (w : World) :
  let wf := fst (start_workflow workflow_id inputs w) in
  wf_id wf = workflow_id
  /\ Schema.inputs wf = inputs
  /\ map core (tasks wf) = map core (_plan_tasks inputs)
  /\ Forall processed (tasks wf)
  /\ (progress wf == 100)%Q
  /\ (status wf = WorkflowStatus.completed
      \/ (status wf = WorkflowStatus.failed /\ suggestions wf = [])).
Proof.
  intros wf. unfold wf, start_workflow.
  set (wf0 := set_tasks _ (_plan_tasks inputs)).
  assert (Hn : 1 <= List.length (tasks wf0)).
  { simpl. rewrite plan_length. destruct inputs; simpl; lia. }
  pose proof (all_processed wf0 w) as Hall.
  destruct (after_invariant wf0 w (List.length (tasks wf0))) as (_ & _ & _ & Hp & _);
    [lia |].
  destruct (after_identity wf0 w (List.length (tasks wf0)))
    as (Hcore & Hid & Hin & Hsug & _); [lia |].
  assert (Hfull : (progress (workflow (after wf0 w (List.length (tasks wf0)))) == 100)%Q).
  { rewrite Hp. destruct (List.length (tasks wf0)) as [| n] eqn:E; [lia |].
    apply progress_of_full. lia. }
  destruct (execute_cases wf0 w) as [(l & _ & He) | (e & _ & He)]; rewrite He;
    cbn [fst snd].
  - split; [exact Hid |]. split; [exact Hin |].
    split; [exact Hcore |]. split; [exact Hall |]. split; [exact Hfull |].
    left. reflexivity.
  - split; [exact Hid |]. split; [exact Hin |].
    split; [exact Hcore |]. split; [exact Hall |]. split; [reflexivity |].
    right. split; [reflexivity | exact Hsug].
Qed.

(** X8. [start_analysis] answers 404 for a session that is not in the
    queue and 400 for a session without inputs, so that it never plans
    an empty input list; for a session of n >= 1 inputs it stores, under
    the new identifier, a workflow of n + 2 pending tasks in status
    analyzing at progress 0, for which the suggestions endpoint answers
    that the analysis is still in progress, and it marks the session. *)
Theorem start_analysis_outcomes {lib : Lib}
  (session_id : option string) (workflow_id : string) (q : queue) (s : storage) :
  match start_analysis session_id workflow_id q s with
  | inl e =>
      (queued (session_key session_id) q = None /\ status_code e = 404)
      \/ (exists x, queued (session_key session_id) q = Some x
                    /\ session_inputs x = [] /\ status_code e = 400)
  | inr (wf, q', s') =>
      exists x,
        queued (session_key session_id) q = Some x
        /\ session_inputs x <> []
        /\ inputs wf = session_inputs x
        /\ tasks wf = _plan_tasks (session_inputs x)
        /\ List.length (tasks wf) = List.length (session_inputs x) + 2
        /\ status wf = WorkflowStatus.analyzing
        /\ progress wf = 0%Q
        /\ stored workflow_id s' = Some wf
        /\ get_suggestions workflow_id s'
           = Some (NotCompleted WorkflowStatus.analyzing "Analysis still in progress")
        /\ queued (session_key session_id) q'
           = Some {| session_inputs := session_inputs x;
                     session_status := "analyzing";
                     session_workflow := Some workflow_id |}
  end.
Proof.
  unfold start_analysis.
  destruct (queued (session_key session_id) q) as [x |] eqn:Hq;
    [| left; split; reflexivity].
  destruct (session_inputs x) as [| d ds] eqn:Hin.
  - right. exists x. repeat split; assumption || reflexivity.
  - exists x. rewrite Hin.
    split; [reflexivity |]. split; [discriminate |]. split; [reflexivity |].
    split; [reflexivity |]. split; [simpl; rewrite plan_length; reflexivity |].
    split; [reflexivity |]. split; [reflexivity |].
    split; [apply stored_store |].
    split; [unfold get_suggestions; rewrite stored_store; reflexivity |].
    apply queued_enqueue.
Qed.

(** X9. After the background task has run a stored workflow, the
    suggestions endpoint never answers that the analysis is still in
    progress: either it answers that the analysis failed, without
    suggestions, or it gives the suggestions with a summary in which the
    completed and the failed tasks add up to all the tasks of the
    workflow. Workflows under other identifiers are left as they were. *)
Theorem run_analysis_then_suggestions {lib : Lib} {World : Type}
  {handlers : Handlers World}
  (workflow_id : string) (s : storage) (w : World) (wf : AgentWorkflow) :
  stored workflow_id s = Some wf ->
  let s' := fst (run_analysis_workflow workflow_id s w) in
  match get_suggestions workflow_id s' with
  | Some (Completed l n total completed_n failed_n _) =>
      n = List.length l
      /\ total = List.length (tasks wf)
      /\ completed_n + failed_n = total
  | Some (NotCompleted st message) =>
      st = WorkflowStatus.failed /\ message = "Analysis failed"
  | None => False
  end
  /\ forall other, other <> workflow_id -> stored other s' = stored other s.
Proof.
  intros Hs s'. split.
  - destruct (run_analysis_stored workflow_id s w wf Hs)
      as (wf' & Hstored & Hall & Hlen & _ & Hst).
    unfold get_suggestions. fold s'. unfold s'. rewrite Hstored.
    destruct Hst as [[Hst _] | [Hst _]]; rewrite Hst.
    + split; [reflexivity |]. split; [exact Hlen |].
      rewrite count_processed by exact Hall. reflexivity.
    + split; reflexivity.
  - intros other Hother. unfold s', run_analysis_workflow. rewrite Hs.
    destruct (_execute_workflow wf w) as [[[u | e] wf'] w']; simpl;
      apply stored_store_other; exact Hother.
Qed.

(** X10. [determine_file_type] always returns the value of one of the
    five input kinds, so that every uploaded file makes a valid input
    which the planner routes; an image content type gives screenshot
    whatever the file name, and a file name with none of the listed
    extensions gives code. *)
Theorem determine_file_type_valid (filename content_type : string) :
  (exists ty, determine_file_type filename content_type = InputType.value ty
              /\ route ty <> None)
  /\ (startswith "image/" content_type = true ->
      determine_file_type filename content_type = "screenshot")
  /\ (startswith "image/" content_type = false ->
      (forall ext,
         In ext [ ".log"; ".logs"; ".trace"; ".stack"; ".js"; ".ts"; ".py"; ".java";
                  ".cpp"; ".c"; ".go"; ".rb"; ".svg"; ".drawio"; ".vsd" ] ->
         contains ext (lower filename) = false) ->
      determine_file_type filename content_type = "code").
Proof.
  split; [| split].
  - unfold determine_file_type.
    destruct (negb _ && _); [exists InputType.screenshot; split; [reflexivity | discriminate] |].
    destruct (existsb _ [ ".log"; ".logs" ]);
      [exists InputType.logs; split; [reflexivity | discriminate] |].
    destruct (existsb _ [ ".trace"; ".stack" ]);
      [exists InputType.error_trace; split; [reflexivity | discriminate] |].
    destruct (existsb _ [ ".js"; ".ts"; ".py"; ".java"; ".cpp"; ".c"; ".go"; ".rb" ]);
      [exists InputType.code; split; [reflexivity | discriminate] |].
    destruct (existsb _ [ ".svg"; ".drawio"; ".vsd" ]);
      [exists InputType.diagram | exists InputType.code];
      (split; [reflexivity | discriminate]).
  - intros Himg. unfold determine_file_type. rewrite Himg.
    destruct content_type; [discriminate Himg | reflexivity].
  - intros Himg Hnone. unfold determine_file_type. rewrite Himg, andb_false_r.
    simpl existsb.
    rewrite !Hnone by (simpl; tauto). reflexivity.
Qed.

End ApiFacts.

(** ** The list of suggestions *)

Module SuggestionFacts.
Import PyStr Py Schema Extractors Compiler.
Import ExtractorFacts CompilerFacts.

(** The confidence lies between two integers. *)
Definition between (lo hi : Z) (q : Q) : Prop :=
  (inject_Z lo <= q)%Q /\ (q <= inject_Z hi)%Q.

Lemma Qle_bool_false (a b : Q) : Qle_bool a b = false -> (b < a)%Q.
Proof.
  intros E. apply Qnot_le_lt. intros Hle. apply Qle_bool_iff in Hle. congruence.
Qed.

Lemma clamp_between (lo hi : Z) (v : json) (q : Q) :
  (lo <= hi)%Z -> clamp lo hi v = Returned q -> between lo hi q.
Proof.
  intros Hlh. unfold clamp. destruct (number v) as [x | e]; simpl; [| discriminate].
  intros E. inversion E. subst q. clear E.
  assert (Hq : (inject_Z lo <= inject_Z hi)%Q) by (rewrite <- Zle_Qle; exact Hlh).
  unfold between, Qmax, Qmin.
  destruct (Qle_bool (inject_Z hi) x) eqn:E1.
  - destruct (Qle_bool (inject_Z hi) (inject_Z lo)) eqn:E2.
    + split; [apply Qle_refl | exact Hq].
    + split; [exact Hq | apply Qle_refl].
  - apply Qle_bool_false in E1.
    destruct (Qle_bool x (inject_Z lo)) eqn:E2.
    + split; [apply Qle_refl | exact Hq].
    + apply Qle_bool_false in E2. split; apply Qlt_le_weak; assumption.
Qed.

(** What the four makers of suggestions have in common. *)
Definition made_for (related : list string) (s : FixSuggestion) : Prop :=
  relatedInputs s = related
  /\ documentation s = []
  /\ ((agent s = "Error Analysis Agent" /\ between 70 95 (confidence s)
       /\ sugg_type s = SuggestionType.code_fix)
      \/ (agent s = "Code Analysis Agent" /\ between 60 90 (confidence s)
          /\ sugg_type s = SuggestionType.code_fix)
      \/ (title s = "Code Quality Improvements" /\ confidence s = 80%Q
          /\ sugg_type s = SuggestionType.code_fix)
      \/ (title s = "AI Analysis Unavailable" /\ confidence s = 30%Q
          /\ sugg_type s = SuggestionType.configuration)).

Ltac step_bind :=
  match goal with
  | |- bind ?m _ = Returned _ -> _ =>
      let E := fresh "E" in destruct m eqn:E; simpl; [| discriminate]
  end.

Section WithLib.
Context {lib : Lib}.

Lemma error_suggestion_made (related : list string) (k : nat) (f : fact)
  (s : FixSuggestion) :
  error_suggestion related k f = Returned s ->
  made_for related s /\ agent s = "Error Analysis Agent".
Proof.
  unfold error_suggestion. repeat step_bind.
  intros E'. inversion E'. subst s. clear E'.
  split; [| reflexivity]. split; [reflexivity |]. split; [reflexivity |].
  left. split; [reflexivity |]. split; [| reflexivity].
  simpl. eapply clamp_between; [| eassumption]. lia.
Qed.

Lemma issue_suggestion_made (related : list string) (k : nat) (f : fact)
  (s : FixSuggestion) :
  issue_suggestion related k f = Returned s ->
  made_for related s /\ agent s = "Code Analysis Agent".
Proof.
  unfold issue_suggestion. repeat step_bind.
  intros E'. inversion E'. subst s. clear E'.
  split; [| reflexivity]. split; [reflexivity |]. split; [reflexivity |].
  right. left. split; [reflexivity |]. split; [| reflexivity].
  simpl. eapply clamp_between; [| eassumption]. lia.
Qed.

(** One suggestion per fact, each as its maker makes it. *)
Lemma suggest_all_forall (make : nat -> fact -> outcome FixSuggestion)
  (P : FixSuggestion -> Prop) :
  (forall k f s, make k f = Returned s -> P s) ->
  forall facts k l,
    suggest_all make k facts = Returned l ->
    Forall P l /\ List.length l = List.length facts.
Proof.
  intros Hmake. induction facts as [| f facts IH]; intros k l; simpl.
  - intros E. inversion E. split; [constructor | reflexivity].
  - destruct (make k f) as [s | e] eqn:Es; simpl; [| discriminate].
    destruct (suggest_all make (S k) facts) as [r | e] eqn:Er; simpl; [| discriminate].
    intros E. inversion E. subst l.
    destruct (IH _ _ Er) as [Hall Hlen].
    split; [constructor; eauto | simpl; rewrite Hlen; reflexivity].
Qed.

Lemma suggest_all_returns (make : nat -> fact -> outcome FixSuggestion)
  (facts : list fact) :
  (forall f, In f facts -> forall k, exists s, make k f = Returned s) ->
  forall k, exists l, suggest_all make k facts = Returned l.
Proof.
  induction facts as [| f facts IH]; intros Hmake k; simpl.
  - eexists. reflexivity.
  - destruct (Hmake f (or_introl eq_refl) k) as [s Hs]. rewrite Hs. simpl.
    destruct (IH (fun g Hg => Hmake g (or_intror Hg)) (S k)) as [l Hl].
    rewrite Hl. simpl. eexists. reflexivity.
Qed.

Lemma first_raw_suggestion_made (related : list string) (k : nat)
  (content : list analysis) (s : FixSuggestion) :
  first_raw_suggestion related k content = Returned (Some s) ->
  made_for related s.
Proof.
  induction content as [| a content IH]; simpl; [discriminate |].
  destruct (a_result a) as [| b | z | q | t | l | result]; try exact IH.
  destruct (truthy (JObj result)); [| exact IH].
  destruct (len (raw_response_of result)) as [n | e]; simpl; [| discriminate].
  destruct (truthy (raw_response_of result) && (50 <? n)%nat); [| exact IH].
  destruct (as_str (raw_response_of result)) as [text | e]; simpl; [| discriminate].
  intros E. inversion E. subst s.
  split; [reflexivity |]. split; [reflexivity |].
  right. right. left. repeat split.
Qed.

Lemma fallback_made (related : list string) (k : nat) :
  made_for related (fallback_suggestion related k).
Proof.
  split; [reflexivity |]. split; [reflexivity |].
  right. right. right. repeat split.
Qed.

(** The list the compiler returns, stage by stage. *)
Lemma compile_stages (wf : AgentWorkflow) (l : list FixSuggestion) :
  _compile_suggestions wf = Returned l ->
  let related := map input_id (inputs wf) in
  Forall (made_for related) l
  /\ ((exists s1 s2,
         l = s1 ++ s2
         /\ List.length s1 <= 3 /\ List.length s2 <= 2
         /\ Forall (fun s => agent s = "Error Analysis Agent") s1
         /\ Forall (fun s => agent s = "Code Analysis Agent") s2)
      \/ List.length l = 1).
Proof.
  intros Hc related. unfold _compile_suggestions in Hc. fold related in Hc.
  destruct (suggest_all (error_suggestion related) 0 _) as [s1 | e] eqn:E1;
    cbn [bind] in Hc; [| discriminate].
  destruct (suggest_all (issue_suggestion related) (List.length s1) _) as [s2 | e] eqn:E2;
    cbn [bind] in Hc; [| discriminate].
  destruct (suggest_all_forall (error_suggestion related) _
              (error_suggestion_made related) _ _ _ E1) as [H1 L1].
  destruct (suggest_all_forall (issue_suggestion related) _
              (issue_suggestion_made related) _ _ _ E2) as [H2 L2].
  assert (Hstaged : Forall (made_for related) (s1 ++ s2)
                    /\ exists a b, s1 ++ s2 = a ++ b
                         /\ List.length a <= 3 /\ List.length b <= 2
                         /\ Forall (fun s => agent s = "Error Analysis Agent") a
                         /\ Forall (fun s => agent s = "Code Analysis Agent") b).
  { split.
    - apply Forall_app. split; eapply Forall_impl; try eassumption; simpl; tauto.
    - exists s1, s2. split; [reflexivity |].
      split; [rewrite L1; apply firstn_le_length |].
      split; [rewrite L2; apply firstn_le_length |].
      split; eapply Forall_impl; try eassumption; simpl; tauto. }
  destruct (s1 ++ s2) as [| s r] eqn:Hs.
  - destruct (flat_map analysis_of (tasks wf)) as [| a content].
    + inversion Hc. split; [constructor |]. left. exact (proj2 Hstaged).
    + destruct (first_raw_suggestion related 0 (a :: content)) as [[found |] | e] eqn:Ef;
        cbn [bind] in Hc; inversion Hc.
      * split; [| right; reflexivity].
        constructor; [| constructor]. eapply first_raw_suggestion_made. exact Ef.
      * split; [| right; reflexivity].
        constructor; [| constructor]. apply fallback_made.
  - assert (El : l = s :: r).
    { destruct (flat_map analysis_of (tasks wf)); inversion Hc; reflexivity. }
    rewrite El. split; [exact (proj1 Hstaged) | left; exact (proj2 Hstaged)].
Qed.

End WithLib.

(** X11. The list the compiler returns is bounded: at most three
    suggestions of the Error Analysis Agent followed by at most two of
    the Code Analysis Agent, or else a single suggestion; at most five
    in all. *)
Theorem compile_at_most_five {lib : Lib} (wf : AgentWorkflow) (l : list FixSuggestion) :
  _compile_suggestions wf = Returned l ->
  List.length l <= 5
  /\ ((exists s1 s2,
         l = s1 ++ s2
         /\ List.length s1 <= 3 /\ List.length s2 <= 2
         /\ Forall (fun s => agent s = "Error Analysis Agent") s1
         /\ Forall (fun s => agent s = "Code Analysis Agent") s2)
      \/ List.length l = 1).
Proof.
  intros Hc. destruct (compile_stages wf l Hc) as [_ Hshape].
  split; [| exact Hshape].
  destruct Hshape as [(s1 & s2 & -> & H1 & H2 & _) | H1]; [rewrite length_app |]; lia.
Qed.

(** X12. Every suggestion the compiler returns has a confidence within
    the range 0..100 its record allows: between 70 and 95 for the Error
    Analysis Agent, between 60 and 90 for the Code Analysis Agent, 80
    for the suggestion made from a raw answer and 30 for the fallback;
    all are code fixes but the fallback, which is a configuration
    suggestion. *)
Theorem compile_confidence_in_range {lib : Lib} (wf : AgentWorkflow)
  (l : list FixSuggestion) :
  _compile_suggestions wf = Returned l ->
  Forall (fun s =>
            between 30 95 (confidence s)
            /\ ((agent s = "Error Analysis Agent" /\ between 70 95 (confidence s)
                 /\ sugg_type s = SuggestionType.code_fix)
                \/ (agent s = "Code Analysis Agent" /\ between 60 90 (confidence s)
                    /\ sugg_type s = SuggestionType.code_fix)
                \/ (title s = "Code Quality Improvements" /\ confidence s = 80%Q
                    /\ sugg_type s = SuggestionType.code_fix)
                \/ (title s = "AI Analysis Unavailable" /\ confidence s = 30%Q
                    /\ sugg_type s = SuggestionType.configuration))) l.
Proof.
  intros Hc. destruct (compile_stages wf l Hc) as [Hall _].
  eapply Forall_impl; [| exact Hall].
  intros s (_ & _ & Hkind). split; [| exact Hkind].
  destruct Hkind as [(_ & [Hlo Hhi] & _) | [(_ & [Hlo Hhi] & _) | [(_ & Hc80 & _) | (_ & Hc30 & _)]]].
  - split; [| exact Hhi]. eapply Qle_trans; [| exact Hlo]. rewrite <- Zle_Qle. lia.
  - split; [eapply Qle_trans; [| exact Hlo] | eapply Qle_trans; [exact Hhi |]];
      rewrite <- Zle_Qle; lia.
  - rewrite Hc80. split; discriminate.
  - rewrite Hc30. split; discriminate.
Qed.

(** X13. Every suggestion the compiler returns is related to all the
    inputs of the workflow, in their order, and to nothing else, and
    carries no documentation reference. *)
Theorem compile_related_inputs {lib : Lib} (wf : AgentWorkflow)
  (l : list FixSuggestion) :
  _compile_suggestions wf = Returned l ->
  Forall (fun s => relatedInputs s = map input_id (inputs wf) /\ documentation s = []) l.
Proof.
  intros Hc. destruct (compile_stages wf l Hc) as [Hall _].
  eapply Forall_impl; [| exact Hall].
  intros s (Hr & Hd & _). split; assumption.
Qed.

(** X14. When the compiler returns, its list is empty exactly when no
    task of the workflow is completed with a result that counts as
    true. *)
Theorem compile_empty_iff {lib : Lib} (wf : AgentWorkflow) (l : list FixSuggestion) :
  _compile_suggestions wf = Returned l ->
  (l = [] <-> Forall (fun t => usable t = false) (tasks wf)).
Proof.
  intros Hc.
  assert (Hfilter : filter usable (tasks wf) = []
                    <-> Forall (fun t => usable t = false) (tasks wf)).
  { induction (tasks wf) as [| t ts IH]; simpl.
    - split; [constructor | reflexivity].
    - destruct (usable t) eqn:Hu.
      + split; [discriminate | intros Hf; inversion Hf; congruence].
      + rewrite IH. split; [constructor; assumption | intros Hf; inversion Hf; assumption]. }
  rewrite <- Hfilter. split.
  - intros ->. destruct (filter usable (tasks wf)) eqn:Hf; [reflexivity |].
    exfalso. apply (compile_something_usable wf [] ); [rewrite Hf; discriminate | exact Hc | reflexivity].
  - intros Hnone. rewrite (compile_nothing_usable wf Hnone) in Hc.
    inversion Hc. reflexivity.
Qed.

End SuggestionFacts.

(** ** The shapes the error-detail extractor reads *)

Module ErrorDetailFacts.
Import PyStr Py Scanner Schema Extractors Compiler.
Import ExtractorFacts CompilerFacts SuggestionFacts.

Lemma startswith_split (p s : string) :
  startswith p s = true -> exists rest, s = p +++ rest.
Proof.
  revert s. induction p as [| c p IH]; intros s Hp; simpl in *.
  - exists s. reflexivity.
  - destruct s as [| d s]; [discriminate |].
    apply andb_prop in Hp. destruct Hp as [Hc Hp].
    apply Ascii.eqb_eq in Hc. subst d.
    destruct (IH s Hp) as [rest ->]. exists rest. reflexivity.
Qed.

Lemma contains_split (sub s : string) :
  contains sub s = true -> exists before rest, s = before +++ sub +++ rest.
Proof.
  induction s as [| c s IH]; simpl; intros Hc.
  - rewrite orb_false_r in Hc. destruct (startswith_split _ _ Hc) as [rest Hrest].
    exists EmptyString, rest. exact Hrest.
  - apply orb_prop in Hc. destruct Hc as [Hc | Hc].
    + destruct (startswith_split _ _ Hc) as [rest Hrest].
      exists EmptyString, rest. exact Hrest.
    + destruct (IH Hc) as (before & rest & ->).
      exists (String c before), rest. reflexivity.
Qed.

Lemma lower_split (s x y : string) :
  lower s = x +++ y -> exists a b, s = a +++ b /\ lower a = x /\ lower b = y.
Proof.
  revert s. induction x as [| c x IH]; intros s Hs; simpl in Hs.
  - exists EmptyString, s. repeat split. exact Hs.
  - destruct s as [| d s]; simpl in Hs; [discriminate |].
    injection Hs as Hd Hs. destruct (IH s Hs) as (a & b & -> & Ha & Hb).
    exists (String d a), b. simpl. rewrite Hd, Ha. repeat split. exact Hb.
Qed.

(** The test of the source holds for the occurrences up to case only. *)
Lemma contains_lower_occurs (w text : string) :
  contains w (lower text) = true -> occurs_ci w text.
Proof.
  intros Hc. destruct (contains_split _ _ Hc) as (before & rest & Hl).
  destruct (lower_split _ _ _ Hl) as (a & b & -> & _ & Hb).
  destruct (lower_split _ _ _ Hb) as (found & c & -> & Hfound & _).
  exists a, found, c. split; [reflexivity | exact Hfound].
Qed.

(** A value [len] does not take. *)
Definition unsized (v : json) : Prop :=
  match v with
  | JNull | JBool _ | JInt _ | JFloat _ => True
  | _ => False
  end.

Lemma item_or_unsized (v : json) (i : nat) (default : json) :
  unsized v -> exists e, item_or v i default = Raised e.
Proof.
  destruct v; simpl; intros Hv; try contradiction; eexists; reflexivity.
Qed.

(** What pydantic is taken to accept: a string for a field of type
    [str], [None] for an optional field, a list of strings for a field
    of type [List[str]]. *)
Definition accepts_strings (lib : Lib) : Prop :=
  (forall s, field_str (JStr s) = Some s)
  /\ field_opt_str JNull = Some None
  /\ (forall l, field_str_list (str_list l) = Some l).

Section WithLib.
Context {lib : Lib}.

(** The facts of the error-detail extractor are of two forms. *)
Definition error_form (f : fact) : Prop :=
  (exists error_type severity cause, f = error_fact error_type severity cause)
  \/ f = runtime_error_fact.

Lemma error_details_forms (analysis_result : json) :
  Forall error_form (_extract_error_details analysis_result).
Proof.
  unfold _extract_error_details.
  destruct analysis_result as [| b | z | q | s | l | kv]; try constructor.
  destruct (has_key "error_types" kv).
  - destruct (iterate _) as [l | e]; [| constructor].
    apply until_raise_forall. intros ie f. unfold error_type_fact.
    destruct (item_or _ (fst ie) (JStr "medium")) as [severity | e]; simpl;
      [| discriminate].
    destruct (item_or _ (fst ie) (JStr "Unknown cause")) as [cause | e]; simpl;
      [| discriminate].
    intros Hf. inversion Hf. left. eexists; eexists; eexists; reflexivity.
  - destruct (has_key "raw_response" kv); [| constructor].
    destruct (as_str _) as [s | e]; [| constructor].
    destruct (_ || _); [constructor; [right; reflexivity | constructor] | constructor].
Qed.

(** A suggestion is made of every such fact. *)
Lemma error_suggestion_returns (related : list string) (k : nat) (f : fact) :
  accepts_strings lib -> error_form f ->
  exists s, error_suggestion related k f = Returned s.
Proof.
  intros (Hstr & Hopt & Hlist) [(error_type & severity & cause & ->) | ->];
    unfold error_suggestion, error_fact, runtime_error_fact, dict_get; simpl lookup;
    cbv iota.
  - unfold clamp. destruct (severity_is_high severity); simpl number; cbn [bind];
      rewrite !Hstr, Hopt, Hlist; simpl; eexists; reflexivity.
  - unfold clamp. simpl number. cbn [bind].
    rewrite !Hstr, Hopt, Hlist. simpl. eexists. reflexivity.
Qed.

Lemma in_firstn {A} (n : nat) (l : list A) (x : A) : In x (firstn n l) -> In x l.
Proof.
  intros Hx. rewrite <- (firstn_skipn n l). apply in_or_app. left. exact Hx.
Qed.

Lemma no_code_issues (ts : list AgentTask) :
  Forall (fun t => task_type t <> "code_analysis") ts ->
  flat_map code_issues_of ts = [].
Proof.
  induction ts as [| t ts IH]; intros Hts; simpl; [reflexivity |].
  inversion Hts as [| t' ts' Ht Hrest]. subst.
  rewrite (IH Hrest), app_nil_r. unfold code_issues_of.
  destruct (usable t); [| reflexivity].
  destruct (String.eqb (task_type t) "error_extraction"); [reflexivity |].
  destruct (String.eqb_spec (task_type t) "code_analysis"); [contradiction | reflexivity].
Qed.

Lemma errors_found_forms (ts : list AgentTask) :
  Forall error_form (flat_map errors_of ts).
Proof.
  induction ts as [| t ts IH]; simpl; [constructor |].
  apply Forall_app. split; [| exact IH].
  unfold errors_of. destruct (usable t); [| constructor].
  destruct (String.eqb _ _); [apply error_details_forms | constructor].
Qed.

End WithLib.

(** X15. A result with a raw_response text and no error_types entry
    gives no fact at all unless the word error or the word exception
    occurs in the text, in some case of its letters; and it never gives
    more than the one Runtime Error fact. *)
Theorem error_details_raw_text {lib : Lib} (kv : list (string * json)) (text : string) :
  lookup "error_types" kv = None ->
  lookup "raw_response" kv = Some (JStr text) ->
  (_extract_error_details (JObj kv) = []
   <-> ~ (occurs_ci "error" text \/ occurs_ci "exception" text))
  /\ (_extract_error_details (JObj kv) = [runtime_error_fact]
      \/ _extract_error_details (JObj kv) = []).
Proof.
  intros Hno Hraw.
  destruct (lookup_no_key _ _ Hno) as [Hk _].
  destruct (lookup_has_key _ _ _ Hraw) as [Hk' Hget].
  unfold _extract_error_details. rewrite Hk, Hk', Hget. simpl as_str. cbv iota.
  destruct (contains "error" (lower text)) eqn:He; simpl orb.
  - split; [| left; reflexivity]. split; [discriminate |].
    intros Hn. exfalso. apply Hn. left. apply contains_lower_occurs. exact He.
  - destruct (contains "exception" (lower text)) eqn:Hx.
    + split; [| left; reflexivity]. split; [discriminate |].
      intros Hn. exfalso. apply Hn. right. apply contains_lower_occurs. exact Hx.
    + split; [| right; reflexivity]. split; [| reflexivity].
      intros _ [Ho | Ho]; apply contains_lower in Ho; congruence.
Qed.

(** X16. The error-detail extractor gives no fact, and raises nothing,
    for a result that is not a dict, for a dict with neither an
    error_types nor a raw_response entry, for a raw_response that is not
    a string, for an error_types entry that cannot be iterated, and for
    a severity_levels or root_causes entry that is present but has no
    length (null, a boolean or a number), whereas an absent entry gives
    the defaults. *)
Theorem error_details_silent {lib : Lib} (analysis_result : json)
  (kv : list (string * json)) :
  (is_dict analysis_result = false -> _extract_error_details analysis_result = [])
  /\ (lookup "error_types" kv = None -> lookup "raw_response" kv = None ->
      _extract_error_details (JObj kv) = [])
  /\ (lookup "error_types" kv = None ->
      (forall text, lookup "raw_response" kv <> Some (JStr text)) ->
      _extract_error_details (JObj kv) = [])
  /\ (forall v, lookup "error_types" kv = Some v -> unsized v ->
      _extract_error_details (JObj kv) = [])
  /\ (forall v, has_key "error_types" kv = true ->
      (lookup "severity_levels" kv = Some v \/ lookup "root_causes" kv = Some v) ->
      unsized v ->
      _extract_error_details (JObj kv) = []).
Proof.
  split; [| split; [| split; [| split]]].
  - destruct analysis_result; simpl; intros Hd; reflexivity || discriminate.
  - intros He Hr. unfold _extract_error_details.
    rewrite (proj1 (lookup_no_key _ _ He)), (proj1 (lookup_no_key _ _ Hr)). reflexivity.
  - intros He Hr. unfold _extract_error_details.
    rewrite (proj1 (lookup_no_key _ _ He)).
    destruct (has_key "raw_response" kv) eqn:Hk; [| reflexivity].
    unfold dict_get. unfold has_key in Hk.
    destruct (lookup "raw_response" kv) as [v |]; [| discriminate].
    destruct v; try reflexivity. exfalso. apply (Hr s). reflexivity.
  - intros v He Hv. unfold _extract_error_details.
    destruct (lookup_has_key _ _ _ He) as [Hk Hget]. rewrite Hk, Hget.
    destruct v; simpl in Hv; try contradiction; reflexivity.
  - intros v Hk Hl Hv. unfold _extract_error_details. rewrite Hk.
    destruct (iterate _) as [l | e]; [| reflexivity].
    destruct l as [| x l]; [reflexivity |].
    simpl. unfold error_type_fact. simpl fst.
    destruct Hl as [Hl | Hl]; rewrite (proj2 (lookup_has_key _ _ _ Hl)).
    + destruct (item_or_unsized v 0 (JStr "medium") Hv) as [e ->]. reflexivity.
    + destruct (item_or _ 0 (JStr "medium")) as [severity | e]; [| reflexivity].
      cbn [bind].
      destruct (item_or_unsized v 0 (JStr "Unknown cause") Hv) as [e ->]. reflexivity.
Qed.

(** X17. When pydantic accepts strings, no task of the workflow is a
    code analysis and the error-detail extractor found at least one
    fact, the compiler returns: it makes one suggestion for each of the
    first three facts, all of the Error Analysis Agent, and neither the
    raw answers nor the fallback are used. *)
Theorem compile_error_facts {lib : Lib} (wf : AgentWorkflow) :
  accepts_strings lib ->
  Forall (fun t => task_type t <> "code_analysis") (tasks wf) ->
  flat_map errors_of (tasks wf) <> [] ->
  exists l,
    _compile_suggestions wf = Returned l
    /\ List.length l = Nat.min 3 (List.length (flat_map errors_of (tasks wf)))
    /\ Forall (fun s => agent s = "Error Analysis Agent") l.
Proof.
  intros Hlib Hnocode Herrors.
  pose proof (no_code_issues _ Hnocode) as Hcode.
  pose proof (errors_found_forms (tasks wf)) as Hforms.
  set (related := map input_id (inputs wf)).
  destruct (suggest_all_returns (error_suggestion related)
              (firstn 3 (flat_map errors_of (tasks wf)))) with (k := 0) as [s1 Hs1].
  { intros f Hf k. apply error_suggestion_returns; [exact Hlib |].
    apply in_firstn in Hf. rewrite Forall_forall in Hforms. apply Hforms. exact Hf. }
  destruct (suggest_all_forall (error_suggestion related) _
              (error_suggestion_made related) _ _ _ Hs1) as [Hall Hlen].
  exists s1. unfold _compile_suggestions. fold related.
  rewrite Hs1, Hcode. cbn [bind firstn suggest_all]. rewrite app_nil_r.
  assert (Hne : s1 <> []).
  { intros ->. simpl in Hlen. symmetry in Hlen. apply length_zero_iff_nil in Hlen.
    destruct (flat_map errors_of (tasks wf)); [congruence | discriminate]. }
  destruct s1 as [| s r]; [congruence |].
  split; [reflexivity |]. split.
  - rewrite Hlen. apply length_firstn.
  - eapply Forall_impl; [| exact Hall]. simpl. tauto.
Qed.

End ErrorDetailFacts.

(** ** The shapes the code-issue extractor reads *)

Module CodeIssueShapes.
Import PyStr Py Scanner Extractors.
Import ExtractorFacts.

(** The entries of an issue object. *)
Definition issue_fields (j : json) : list (string * json) :=
  match j with
  | JObj kv => kv
  | _ => []
  end.

(** The type of an issue object is a string, or is missing. *)
Definition typed (d : list (string * json)) : Prop :=
  match lookup "type" d with
  | None | Some (JStr _) => True
  | Some _ => False
  end.

Definition confidence_of (f : fact) : json := dict_get f "confidence" JNull.

Section WithLib.
Context {lib : Lib}.

Lemma for_each_direct (kvs : list (list (string * json))) (issues : list fact) :
  for_each add_direct_issue (map JObj kvs) issues
  = Cont (issues ++ map direct_fact kvs).
Proof.
  revert issues. induction kvs as [| kv kvs IH]; intros issues; simpl.
  - rewrite app_nil_r. reflexivity.
  - rewrite IH, <- app_assoc. reflexivity.
Qed.

Lemma ai_fact_typed (w : ai_wording) (d : list (string * json)) :
  typed d -> exists f, ai_fact w d = Returned f /\ confidence_of f = JInt 85.
Proof.
  unfold typed, ai_fact, dict_get. intros Ht.
  destruct (lookup "type" d) as [[| b | z | q | s | l | kv] |]; try contradiction;
    simpl; eexists; split; reflexivity.
Qed.

Lemma for_each_ai (w : ai_wording) (ds : list (list (string * json)))
  (issues : list fact) :
  Forall typed ds ->
  exists facts,
    for_each (add_ai_issue w) (map JObj ds) issues = Cont (issues ++ facts)
    /\ List.length facts = List.length ds
    /\ Forall (fun f => confidence_of f = JInt 85) facts.
Proof.
  intros Hds. revert issues. induction Hds as [| d ds Hd _ IH]; intros issues.
  - exists []. simpl. rewrite app_nil_r. repeat split. constructor.
  - destruct (ai_fact_typed w d Hd) as (f & Hf & Hc).
    destruct (IH (issues ++ [f])) as (facts & Hfacts & Hlen & Hall).
    exists (f :: facts). simpl. rewrite Hf. simpl. rewrite Hfacts, <- app_assoc.
    repeat split; [simpl; rewrite Hlen; reflexivity | constructor; assumption].
Qed.



End WithLib.

(** X18. For a result whose direct_issues are issue objects and whose
    ai_analysis is not a dict, or is a dict without a raw_response
    entry (such as the error wrapper of the adapter), the code-issue
    extractor returns exactly one fact per direct issue, in order, with
    the category, line, code and fix of the issue, and with confidence
    90 when the severity of the issue is high and 75 otherwise. *)
Theorem direct_issues_become_facts {lib : Lib}
  (kv : list (string * json)) (issues : list (list (string * json))) :
  lookup "direct_issues" kv = Some (JArr (map JObj issues)) ->
  (is_dict (dict_get kv "ai_analysis" (JObj [])) = false
   \/ exists d, dict_get kv "ai_analysis" (JObj []) = JObj d
                /\ lookup "raw_response" d = None) ->
  _extract_code_issues (JObj kv) = map direct_fact issues
  /\ List.length (_extract_code_issues (JObj kv)) = List.length issues
  /\ forall i issue,
       nth_error issues i = Some issue ->
       exists f,
         nth_error (_extract_code_issues (JObj kv)) i = Some f
         /\ dict_get f "category" JNull = dict_get issue "type" (JStr "Code Issue")
         /\ dict_get f "line_number" JNull = dict_get issue "line" JNull
         /\ dict_get f "code_snippet" JNull = dict_get issue "code" (JStr EmptyString)
         /\ dict_get f "suggested_improvement" JNull
            = dict_get issue "fix" (JStr EmptyString)
         /\ (lookup "severity" issue = Some (JStr "high") -> confidence_of f = JInt 90)
         /\ (lookup "severity" issue <> Some (JStr "high") -> confidence_of f = JInt 75).
Proof.
  intros Hdirect Hai.
  destruct (lookup_has_key _ _ _ Hdirect) as [Hk Hget].
  assert (Hout : _extract_code_issues (JObj kv) = map direct_fact issues).
  { unfold _extract_code_issues, code_issues_flow. rewrite Hk, Hget.
    simpl iterate. cbn [lift]. rewrite for_each_direct. simpl app. cbn [and_then].
    destruct Hai as [Hnd | (d & Hd & Hraw)].
    - unfold add_ai_analysis. rewrite Hnd. reflexivity.
    - rewrite Hd. unfold add_ai_analysis. simpl is_dict. simpl is_list. cbv iota.
      rewrite (proj1 (lookup_no_key _ _ Hraw)). reflexivity. }
  split; [exact Hout |]. split; [rewrite Hout; apply length_map |].
  intros i issue Hi. exists (direct_fact issue).
  split; [rewrite Hout, nth_error_map, Hi; reflexivity |].
  split; [reflexivity |]. split; [reflexivity |]. split; [reflexivity |].
  split; [reflexivity |].
  unfold confidence_of, direct_fact, dict_get. simpl lookup. cbv iota.
  split.
  - intros Hs. rewrite Hs. reflexivity.
  - intros Hs. destruct (lookup "severity" issue) as [[| b | z | q | s | l | o] |];
      try reflexivity.
    unfold json_is_str.
    destruct (String.eqb_spec "high" s) as [<- | _]; [congruence | reflexivity].
Qed.


(** X20. An array of issue objects reaches the facts through the raw
    text only: when the raw_response is the text of a JSON array, or
    holds one that the bracket pattern finds, and the array decodes to
    issue objects whose types are strings, the extractor returns the
    facts of the direct issues followed by one fact of confidence 85 for
    each object of the array. *)
Theorem raw_array_becomes_facts {lib : Lib}
  (kv d : list (string * json)) (issues objects : list (list (string * json)))
  (text : string) :
  lookup "direct_issues" kv = Some (JArr (map JObj issues)) ->
  lookup "ai_analysis" kv = Some (JObj d) ->
  lookup "raw_response" d = Some (JStr text) ->
  (startswith "[" (strip text) = true /\ json_loads text = Some (JArr (map JObj objects))
   \/ startswith "[" (strip text) = false
      /\ exists found, re_search_array text = Some found
                       /\ json_loads found = Some (JArr (map JObj objects))) ->
  Forall typed objects ->
  exists facts,
    _extract_code_issues (JObj kv) = map direct_fact issues ++ facts
    /\ List.length facts = List.length objects
    /\ Forall (fun f => confidence_of f = JInt 85) facts.
Proof.
  intros Hdirect Hai Hraw Hfound Htyped.
  destruct (lookup_has_key _ _ _ Hdirect) as [Hk Hget].
  destruct (lookup_has_key _ _ _ Hai) as [_ Hgetai].
  destruct (lookup_has_key _ _ _ Hraw) as [Hkr Hgetr].
  unfold _extract_code_issues, code_issues_flow. rewrite Hk, Hget, Hgetai.
  simpl iterate. cbn [lift]. rewrite for_each_direct. simpl app. cbn [and_then].
  unfold add_ai_analysis. simpl is_dict. simpl is_list. cbv iota.
  rewrite Hkr, Hgetr. unfold add_raw_response. simpl as_str. cbn [lift].
  unfold parse_raw_text.
  destruct Hfound as [[Hb Hp] | [Hb (found & Hs & Hp)]]; rewrite Hb.
  - rewrite Hp. unfold add_parsed_issues.
    destruct (for_each_ai WholeText objects (map direct_fact issues) Htyped)
      as (facts & -> & Hlen & Hall).
    exists facts. repeat split; assumption.
  - rewrite Hs, Hp. unfold add_parsed_issues.
    destruct (for_each_ai EmbeddedArray objects (map direct_fact issues) Htyped)
      as (facts & -> & Hlen & Hall).
    exists facts. repeat split; assumption.
Qed.

End CodeIssueShapes.

(** ** What the scanners report *)

Module ReportFacts.
Import PyStr Py Scanner.
Import ExtractorFacts ErrorDetailFacts.

Lemma in_enumerate {A} (l : list A) (start i : nat) (x : A) :
  In (i, x) (enumerate start l) ->
  start <= i < start + List.length l /\ nth_error l (i - start) = Some x.
Proof.
  revert start. induction l as [| y l IH]; intros start Hin; simpl in Hin; [contradiction |].
  destruct Hin as [E | Hin].
  - inversion E. subst. simpl. rewrite Nat.sub_diag. split; [lia | reflexivity].
  - destruct (IH _ Hin) as [Hr Hn]. simpl. split; [lia |].
    replace (i - start) with (S (i - S start)) by lia. exact Hn.
Qed.

Lemma flat_map_length_le {A B} (f : A -> list B) (l : list A) (n : nat) :
  (forall x, List.length (f x) <= n) ->
  List.length (flat_map f l) <= n * List.length l.
Proof.
  intros Hf. induction l as [| x l IH]; simpl; [lia |].
  rewrite length_app. specialize (Hf x). nia.
Qed.

(** Why the JavaScript rules report an issue on a line. *)
Definition js_reason (i : nat) (line : string) (issue : json) : Prop :=
  (issue = js_debug_issue i line
   /\ contains "console.log" line = true
   /\ startswith "//" (strip line) = false)
  \/ (issue = js_var_issue i line
      /\ startswith "var " (strip line) = true
      /\ startswith "//" (strip line) = false)
  \/ (issue = js_coercion_issue i line
      /\ contains "==" line = true /\ contains "===" line = false
      /\ contains "!=" line = true).

Lemma js_line_reason (i : nat) (line : string) (issue : json) :
  In issue (js_line_issues i line) -> js_reason i line issue.
Proof.
  unfold js_line_issues, js_reason. intros Hin.
  destruct (contains "console.log" line) eqn:Hlog;
    destruct (startswith "//" (strip line)) eqn:Hcomment;
    destruct (startswith "var " (strip line)) eqn:Hvar;
    destruct (contains "==" line) eqn:Heq;
    destruct (contains "===" line) eqn:Hstrict;
    destruct (contains "!=" line) eqn:Hneq;
    cbn [andb negb app In] in Hin;
    try contradiction;
    try (destruct (startswith_split _ _ Hvar) as [rest Hrest];
         rewrite Hrest in Hcomment; discriminate Hcomment);
    repeat match goal with
           | H : _ \/ _ |- _ => destruct H as [H | H]
           | H : False |- _ => destruct H
           end;
    subst issue; tauto.
Qed.

(** Why the Python rules report an issue on a line. *)
Definition py_reason (lines : list string) (i : nat) (line : string) (issue : json)
  : Prop :=
  (issue = py_except_issue i line /\ startswith "except:" (strip line) = true)
  \/ (issue = py_print_issue i line /\ startswith "print(" (strip line) = true)
  \/ (issue = py_docstring_issue i line
      /\ startswith "def " (strip line) = true
      /\ contains ":" line = true
      /\ startswith dquote3 (strip (next_line lines i)) = false
      /\ startswith squote3 (strip (next_line lines i)) = false).

Lemma py_line_reason (lines : list string) (i : nat) (line : string) (issue : json) :
  In issue (py_line_issues lines i line) -> py_reason lines i line issue.
Proof.
  unfold py_line_issues, py_reason. cbv zeta. intros Hin.
  destruct (startswith "except:" (strip line)) eqn:Hexcept;
    destruct (String.eqb_spec (strip line) "except:") as [Hbare | Hbare];
    try (rewrite Hbare in Hexcept; discriminate Hexcept);
    destruct (startswith "print(" (strip line)) eqn:Hprint;
    destruct (startswith "#" (strip line)) eqn:Hcomment;
    destruct (startswith "def " (strip line)) eqn:Hdef;
    destruct (contains ":" line) eqn:Hcolon;
    destruct (startswith dquote3 (strip (next_line lines i))) eqn:Hd;
    destruct (startswith squote3 (strip (next_line lines i))) eqn:Hs;
    cbn [andb orb negb app In] in Hin;
    try contradiction;
    repeat match goal with
           | H : _ \/ _ |- _ => destruct H as [H | H]
           | H : False |- _ => destruct H
           end;
    subst issue; tauto.
Qed.

(** The line number and the code of an issue. *)
Definition reported_at (i : nat) (line : string) (issue : json) : Prop :=
  exists kv,
    issue = JObj kv
    /\ lookup "line" kv = Some (JInt (Z.of_nat i))
    /\ lookup "code" kv = Some (JStr (strip line)).

(** Whether an issue carries the line number [i]. *)
Definition on_line (i : nat) (issue : json) : bool :=
  match issue with
  | JObj kv =>
      match lookup "line" kv with
      | Some (JInt z) => Z.eqb z (Z.of_nat i)
      | _ => false
      end
  | _ => false
  end.

(** The issues of the body of the loop carry the number of its line,
    and are at most three. *)
Lemma js_line_issues_on_line (i j : nat) (line : string) :
  List.length (js_line_issues j line) <= 3
  /\ (j <> i -> filter (on_line i) (js_line_issues j line) = []).
Proof.
  unfold js_line_issues.
  destruct (contains "console.log" line && negb (startswith "//" (strip line)));
    destruct (startswith "var " (strip line));
    destruct (contains "==" line && negb (contains "===" line) && contains "!=" line);
    (split; [simpl; lia |]); intros Hne;
    assert (E : Z.eqb (Z.of_nat j) (Z.of_nat i) = false) by (apply Z.eqb_neq; lia);
    cbn [app filter on_line js_debug_issue js_var_issue js_coercion_issue line_no];
    cbv [lookup]; simpl; rewrite ?E; reflexivity.
Qed.

Lemma filter_length_enumerate (f : nat -> string -> list json) (i : nat)
  (l : list string) (start : nat) :
  (forall j x, List.length (f j x) <= 3
               /\ (j <> i -> filter (on_line i) (f j x) = [])) ->
  List.length (filter (on_line i)
                 (flat_map (fun il => f (fst il) (snd il)) (enumerate start l)))
  <= if (start <=? i)%nat then 3 else 0.
Proof.
  intros Hf. revert start. induction l as [| x l IH]; intros start; simpl.
  - destruct (start <=? i)%nat; lia.
  - rewrite filter_app, length_app. specialize (IH (S start)).
    destruct (Hf start x) as [Hlen Hother].
    destruct (Nat.eq_dec start i) as [-> | Hne].
    + pose proof (filter_length_le (on_line i) (f i x)) as Hle.
      rewrite Nat.leb_refl.
      destruct (Nat.leb_spec (S i) i) as [Hlt | _]; [lia |]. lia.
    + rewrite (Hother Hne). simpl.
      destruct (Nat.leb_spec (S start) i); destruct (Nat.leb_spec start i); lia.
Qed.

(** X21. Every issue of the JavaScript scan is reported for a line of
    the content, under its number counted from 1 and with the stripped
    line as its code, and for the reason of its rule; in particular no
    Debug Code and no Outdated Syntax issue is reported for a line that
    is a comment. The scan reports at most three issues under any one
    line number, and so at most three times as many issues as the
    content has lines. *)
Theorem js_scan_sound (content : string) (issue : json) :
  In issue (_analyze_js_code content) ->
  (exists i line,
     1 <= i <= List.length (splitlines content)
     /\ nth_error (splitlines content) (i - 1) = Some line
     /\ reported_at i line issue
     /\ js_reason i line issue)
  /\ (forall i, List.length (filter (on_line i) (_analyze_js_code content)) <= 3)
  /\ List.length (_analyze_js_code content) <= 3 * List.length (splitlines content).
Proof.
  intros Hin. split; [| split].
  - unfold _analyze_js_code in Hin. apply in_flat_map in Hin.
    destruct Hin as ([i line] & Hil & Hissue). simpl in Hissue.
    destruct (in_enumerate _ _ _ _ Hil) as [Hrange Hnth].
    exists i, line. split; [lia |]. split; [exact Hnth |].
    pose proof (js_line_reason i line issue Hissue) as Hreason.
    split; [| exact Hreason].
    destruct Hreason as [(-> & _) | [(-> & _) | (-> & _)]];
      eexists; repeat split.
  - intros i. unfold _analyze_js_code.
    pose proof (filter_length_enumerate js_line_issues i (splitlines content) 1
                  (fun j x => js_line_issues_on_line i j x)) as Hle.
    destruct (1 <=? i)%nat; lia.
  - unfold _analyze_js_code. rewrite flat_map_length_le with (n := 3).
    + assert (Hlen : forall (l : list string) s, List.length (enumerate s l) = List.length l).
      { induction l as [| y l IH]; intros s; simpl; [| rewrite IH]; reflexivity. }
      rewrite Hlen. lia.
    + intros [i line]. apply (js_line_issues_on_line 0 i line).
Qed.

(** X22. Every issue of the Python scan is reported for a line of the
    content, under its number counted from 1 and with the stripped line
    as its code, and for the reason of its rule: the stripped line
    starts with except:, print( or def, so that no issue is ever
    reported for a comment line, and a definition is reported only when
    the line after it opens no docstring. *)
Theorem python_scan_sound (content : string) (issue : json) :
  In issue (_analyze_python_code content) ->
  exists i line,
    1 <= i <= List.length (splitlines content)
    /\ nth_error (splitlines content) (i - 1) = Some line
    /\ reported_at i line issue
    /\ py_reason (splitlines content) i line issue
    /\ startswith "#" (strip line) = false.
Proof.
  intros Hin. unfold _analyze_python_code in Hin. cbv zeta in Hin.
  apply in_flat_map in Hin.
  destruct Hin as ([i line] & Hil & Hissue). simpl in Hissue.
  destruct (in_enumerate _ _ _ _ Hil) as [Hrange Hnth].
  exists i, line. split; [lia |]. split; [exact Hnth |].
  pose proof (py_line_reason _ i line issue Hissue) as Hreason.
  split; [| split; [exact Hreason |]].
  - destruct Hreason as [(-> & _) | [(-> & _) | (-> & _)]];
      eexists; repeat split.
  - destruct Hreason as [(_ & Hs) | [(_ & Hs) | (_ & Hs & _)]];
      destruct (startswith_split _ _ Hs) as [rest ->]; reflexivity.
Qed.

End ReportFacts.

(** ** The adapter and the handlers on the payloads of the planner *)

Module ServiceFacts.
Import PyStr Py Schema Scanner Planner Adapter.
Import ExtractorFacts ErrorDetailFacts.

Section WithRemote.
Context {lib : Lib} {remote : Remote}.

Lemma call_returns (api_key prompt : string) :
  exists v, _call_gemini_api api_key prompt = Returned v.
Proof.
  unfold _call_gemini_api. destruct (call_body api_key prompt); eexists; reflexivity.
Qed.

End WithRemote.


Section WithEnvironment.
Context {lib : Lib} {remote : Remote} {env : Service.Environment}.

(** The content of an input of the planner is always resolved: a file
    that cannot be read gives a text that says so. *)
Lemma get_content_returns (d : DebugInput) :
  exists text, Service._get_content (input_dict d) = Returned text.
Proof.
  unfold Service._get_content, Service.metadata_get, input_dict, get, getitem, dict_get.
  simpl lookup. cbn [bind].
  destruct (truthy _).
  - destruct (Service.read_file (content d)); eexists; reflexivity.
  - eexists. reflexivity.
Qed.

Lemma context_lines_return (inputs : list DebugInput) :
  exists lines, Service.context_lines (map input_dict inputs) = Returned lines.
Proof.
  induction inputs as [| d inputs IH]; [eexists; reflexivity |].
  destruct IH as [lines Hlines].
  assert (Hline : exists line, Service.context_line (input_dict d) = Returned line).
  { unfold Service.context_line.
    destruct (get_content_returns d) as [text ->]. cbn [bind].
    unfold getitem, input_dict. simpl lookup. cbn [bind]. eexists. reflexivity. }
  destruct Hline as [line Hline].
  exists (line :: lines).
  change (bind (Service.context_line (input_dict d)) (fun l =>
          bind (Service.context_lines (map input_dict inputs)) (fun ls =>
          Returned (l :: ls))) = Returned (line :: lines)).
  rewrite Hline. cbn [bind]. rewrite Hlines. reflexivity.
Qed.

(** A longer suffix holds the shorter one. *)
Lemma contains_longer (sub extra s : string) :
  contains (sub +++ extra) s = true -> contains sub s = true.
Proof.
  intros Hc. destruct (contains_split _ _ Hc) as (before & rest & ->).
  replace (before +++ (sub +++ extra) +++ rest) with (before +++ sub +++ (extra +++ rest)).
  - apply contains_app.
  - clear Hc. induction before as [| c before IH]; simpl.
    + induction sub as [| c sub IH]; simpl; [reflexivity | rewrite IH; reflexivity].
    + rewrite IH. reflexivity.
Qed.

(** The scanner [_analyze_code] runs for a file name in lower case. *)
Definition chosen_scan (filename content : string) : list json :=
  if contains ".js" filename || contains ".ts" filename
  then _analyze_js_code content
  else if contains ".py" filename then _analyze_python_code content else [].

Lemma js_suffixes_two (filename : string) :
  existsb (fun lang => contains lang filename) Service.js_suffixes
  = contains ".js" filename || contains ".ts" filename.
Proof.
  unfold Service.js_suffixes. simpl existsb. rewrite orb_false_r.
  destruct (contains ".js" filename) eqn:Hjs; [reflexivity |].
  destruct (contains ".ts" filename) eqn:Hts; [reflexivity |].
  destruct (contains ".jsx" filename) eqn:Hjsx.
  { apply (contains_longer ".js" "x") in Hjsx. congruence. }
  destruct (contains ".tsx" filename) eqn:Htsx.
  { apply (contains_longer ".ts" "x") in Htsx. congruence. }
  reflexivity.
Qed.

End WithEnvironment.

(** X24. On the payloads the planner makes of the inputs, the handlers
    of the error extraction, of the multimodal analysis and of the
    documentation search always return, whatever the remote service and
    the file system do; the handler of the code analysis returns when
    the file name of the input is missing or a string, and raises when
    it is any other value. *)
Theorem planned_handlers_return {lib : Lib} {remote : Remote}
  {env : Service.Environment} (d : DebugInput) (inputs : list DebugInput) :
  (exists v, Service._extract_errors (input_dict d) = Returned v)
  /\ (exists v, Service._analyze_multimodal (input_dict d) = Returned v)
  /\ (exists v, Service._search_documentation (all_inputs inputs) = Returned v)
  /\ (lookup "filename" (metadata d) = None
      \/ (exists name, lookup "filename" (metadata d) = Some (JStr name)) ->
      exists v, Service._analyze_code (input_dict d) = Returned v)
  /\ (forall v, lookup "filename" (metadata d) = Some v ->
      (forall name, v <> JStr name) ->
      exists e, Service._analyze_code (input_dict d) = Raised e).
Proof.
  split; [| split; [| split; [| split]]].
  - unfold Service._extract_errors.
    destruct (get_content_returns d) as [text ->]. cbn [bind].
    unfold getitem, input_dict. simpl lookup. cbn [bind]. apply call_returns.
  - unfold Service._analyze_multimodal, Service.metadata_get, input_dict, get, getitem,
      dict_get. simpl lookup. cbn [bind].
    destruct (truthy _); eexists; reflexivity.
  - unfold Service._search_documentation, all_inputs. simpl iterate. cbn [bind].
    destruct (context_lines_return inputs) as [lines ->]. cbn [bind]. apply call_returns.
  - intros Hname. unfold Service._analyze_code.
    destruct (get_content_returns d) as [text ->]. cbn [bind].
    unfold Service.filename_of, Service.metadata_get, input_dict, get, dict_get.
    simpl lookup. cbn [bind].
    destruct Hname as [-> | [name ->]]; simpl as_str; cbn [bind];
      match goal with
      | |- context [_call_gemini_api ?k ?p] =>
          destruct (call_returns k p) as [api ->]
      end; cbn [bind]; eexists; reflexivity.
  - intros v Hv Hnot. unfold Service._analyze_code.
    destruct (get_content_returns d) as [text ->]. cbn [bind].
    unfold Service.filename_of, Service.metadata_get, input_dict, get, dict_get.
    simpl lookup. cbn [bind]. rewrite Hv.
    destruct v; simpl; try (eexists; reflexivity).
    exfalso. apply (Hnot s). reflexivity.
Qed.

(** X25. The code analysis of an input of the planner scans the
    content with the JavaScript rules when the file name, in lower case,
    holds .js or .ts, also when it holds .py as well; with the Python
    rules when it holds .py and neither of them; and with no rule at
    all otherwise, in particular when the input has no file name. The
    scanned text is the resolved content, and the answer of the
    generative service is stored beside the issues as it is. *)
Theorem code_analysis_scanner_choice {lib : Lib} {remote : Remote}
  {env : Service.Environment} (d : DebugInput) (text name : string) :
  Service._get_content (input_dict d) = Returned text ->
  dict_get (metadata d) "filename" (JStr EmptyString) = JStr name ->
  exists api_result,
    _call_gemini_api Service.api_key (Service.code_prompt (take 1500 text))
      = Returned api_result
    /\ Service._analyze_code (input_dict d)
       = Returned (JObj [ ("direct_issues", JArr (chosen_scan (lower name) text));
                          ("ai_analysis", api_result);
                          ("analysis_type", JStr "code_review") ])
    /\ (lookup "filename" (metadata d) = None -> chosen_scan (lower name) text = []).
Proof.
  intros Hcontent Hname.
  destruct (call_returns Service.api_key (Service.code_prompt (take 1500 text)))
    as [api Hapi].
  exists api. split; [exact Hapi |]. split.
  - assert (Hfile : Service.filename_of (input_dict d) = Returned (lower name)).
    { change (Service.filename_of (input_dict d))
        with (bind (as_str (dict_get (metadata d) "filename" (JStr EmptyString)))
                   (fun s => Returned (lower s))).
      rewrite Hname. reflexivity. }
    unfold Service._analyze_code. rewrite Hcontent. cbn [bind].
    rewrite Hfile. cbn [bind].
    rewrite js_suffixes_two, Hapi. cbn [bind]. reflexivity.
  - intros Hnone. unfold dict_get in Hname. rewrite Hnone in Hname.
    inversion Hname. reflexivity.
Qed.

End ServiceFacts.

(** ** The further properties on examples *)

Module Instances.
Import PyStr Py Schema Scanner Planner Extractors Compiler Adapter Executor Api.
Import ExtractorFacts ExecutorFacts WorkflowFacts PassFacts ApiFacts.
Import SuggestionFacts ErrorDetailFacts CodeIssueShapes ReportFacts ServiceFacts.

(** The four tasks of the sample workflow. *)
Definition sample_task (i : nat) : AgentTask :=
  nth i (tasks sample_workflow)
      (new_task (lib := Examples.sample_lib) 0 EmptyString EmptyString EmptyString JNull).

(** A workflow whose only task, an error extraction, completed with a
    raw text. *)
Definition extracted_workflow : AgentWorkflow :=
  {| wf_id := "wf-3";
     inputs := [ Examples.sample_input "in-1" InputType.logs "ERROR: TypeError" ];
     tasks := [ {| task_id := "task-1"; agentId := "error-extractor";
                   task_type := "error_extraction"; task_input := JNull;
                   task_status := TaskStatus.completed;
                   result := raw_text_payload "An ERROR occurred in line 3";
                   error := None; task_timestamp := 0 |} ];
     suggestions := [];
     status := WorkflowStatus.analyzing;
     progress := 100 |}.

Definition extracted_suggestions : list FixSuggestion :=
  match _compile_suggestions (lib := Examples.sample_lib) extracted_workflow with
  | Returned l => l
  | Raised _ => []
  end.

(** A decoder that knows one more text: an array of one empty object. *)
Definition array_lib : Lib :=
  {| json_loads := fun text =>
       if String.eqb text "[{}]" then Some (JArr [JObj []])
       else json_loads (Lib := Examples.sample_lib) text;
     repr_other := repr_other (Lib := Examples.sample_lib);
     re_sub_markers := re_sub_markers (Lib := Examples.sample_lib);
     re_sub_bold := re_sub_bold (Lib := Examples.sample_lib);
     re_search_bold := re_search_bold (Lib := Examples.sample_lib);
     re_search_array := re_search_array (Lib := Examples.sample_lib);
     re_findall_code := re_findall_code (Lib := Examples.sample_lib);
     uuid4 := uuid4 (Lib := Examples.sample_lib);
     now := now (Lib := Examples.sample_lib);
     field_str := field_str (Lib := Examples.sample_lib);
     field_opt_str := field_opt_str (Lib := Examples.sample_lib);
     field_str_list := field_str_list (Lib := Examples.sample_lib) |}.

Definition two_issues : list (list (string * json)) :=
  [ [ ("type", JStr "Debug Code"); ("line", JInt 2); ("severity", JStr "low") ];
    [ ("type", JStr "Exception Handling"); ("line", JInt 7); ("severity", JStr "high") ] ].

Definition analysis_with (ai_analysis : json) : list (string * json) :=
  [ ("direct_issues", JArr (map JObj two_issues));
    ("ai_analysis", ai_analysis);
    ("analysis_type", JStr "code_review") ].

Lemma sample_lib_accepts : accepts_strings Examples.sample_lib.
Proof.
  split; [reflexivity |]. split; [reflexivity |].
  intros l. simpl. unfold str_list. induction l as [| s l IH]; simpl; [reflexivity |].
  simpl in IH. rewrite IH. reflexivity.
Qed.

Lemma handler_result_stored_witness :
  nth_error (tasks (snd (fst (_execute_workflow (lib := Examples.sample_lib)
                                (handlers := Examples.mixed_handlers)
                                sample_workflow tt)))) 0
  = Some (completed_with (sample_task 0)
            (raw_text_payload "ERROR: TypeError in line 3")).
Proof.
  destruct (handler_result_stored (lib := Examples.sample_lib)
              (handlers := Examples.mixed_handlers) sample_workflow tt 0
              (sample_task 0) (raw_text_payload "ERROR: TypeError in line 3"))
    as [_ Hfinal].
  - reflexivity.
  - reflexivity.
  - exact Hfinal.
Defined.

Lemma task_changes_once_witness :
  nth_error (tasks (workflow (after (handlers := Examples.mixed_handlers)
                                    sample_workflow tt 3))) 1
  = nth_error (tasks (workflow (after (handlers := Examples.mixed_handlers)
                                      sample_workflow tt 2))) 1.
Proof.
  destruct (task_changes_once (lib := Examples.sample_lib)
              (handlers := Examples.mixed_handlers) sample_workflow tt 1 3)
    as [_ Hafter].
  - simpl. lia.
  - simpl. lia.
  - apply Hafter. lia.
Defined.

Lemma execute_final_progress_witness :
  (progress (snd (fst (_execute_workflow (lib := Examples.sample_lib)
                         (handlers := Examples.mixed_handlers)
                         sample_workflow tt))) == 100)%Q.
Proof.
  apply (proj1 (execute_final_progress (lib := Examples.sample_lib)
                  (handlers := Examples.mixed_handlers) sample_workflow tt)).
  discriminate.
Defined.

Lemma run_analysis_then_suggestions_witness :
  match get_suggestions "wf-1"
          (fst (run_analysis_workflow (lib := Examples.sample_lib)
                  (handlers := Examples.mixed_handlers) "wf-1"
                  [("wf-1", sample_workflow)] tt)) with
  | Some (Completed l n total completed_n failed_n _) =>
      n = List.length l
      /\ total = List.length (tasks sample_workflow)
      /\ completed_n + failed_n = total
  | Some (NotCompleted st message) =>
      st = WorkflowStatus.failed /\ message = "Analysis failed"
  | None => False
  end.
Proof.
  pose proof (run_analysis_then_suggestions (lib := Examples.sample_lib)
                (handlers := Examples.mixed_handlers) "wf-1"
                [("wf-1", sample_workflow)] tt sample_workflow eq_refl) as Hrun.
  cbv zeta in Hrun. destruct Hrun as [Hrun _].
  vm_compute in Hrun. vm_compute. exact Hrun.
Defined.

Lemma determine_file_type_valid_witness :
  determine_file_type "screen.log" "image/png" = "screenshot"
  /\ determine_file_type "README" "text/plain" = "code".
Proof.
  split.
  - apply (proj1 (proj2 (determine_file_type_valid "screen.log" "image/png"))).
    reflexivity.
  - apply (proj2 (proj2 (determine_file_type_valid "README" "text/plain"))).
    + reflexivity.
    + intros ext Hext. simpl in Hext.
      repeat (destruct Hext as [<- | Hext]; [reflexivity |]). destruct Hext.
Defined.

Lemma compile_at_most_five_witness :
  List.length extracted_suggestions <= 5.
Proof.
  apply (proj1 (compile_at_most_five (lib := Examples.sample_lib)
                  extracted_workflow extracted_suggestions eq_refl)).
Defined.

Lemma compile_confidence_in_range_witness :
  Forall (fun s => between 30 95 (confidence s)) extracted_suggestions.
Proof.
  eapply Forall_impl;
    [| apply (compile_confidence_in_range (lib := Examples.sample_lib)
                extracted_workflow extracted_suggestions eq_refl)].
  intros s [Hs _]. exact Hs.
Defined.

Lemma compile_related_inputs_witness :
  Forall (fun s => relatedInputs s = ["in-1"] /\ documentation s = [])
         extracted_suggestions.
Proof.
  apply (compile_related_inputs (lib := Examples.sample_lib)
           extracted_workflow extracted_suggestions eq_refl).
Defined.

Lemma compile_empty_iff_witness :
  extracted_suggestions = []
  <-> Forall (fun t => usable t = false) (tasks extracted_workflow).
Proof.
  apply (compile_empty_iff (lib := Examples.sample_lib)
           extracted_workflow extracted_suggestions eq_refl).
Defined.

Lemma error_details_raw_text_witness :
  _extract_error_details (lib := Examples.sample_lib)
    (JObj [ ("raw_response", JStr "The Exception is raised twice");
            ("parsed", JBool false) ])
  = [runtime_error_fact]
  \/ _extract_error_details (lib := Examples.sample_lib)
       (JObj [ ("raw_response", JStr "The Exception is raised twice");
               ("parsed", JBool false) ])
     = [].
Proof.
  apply (proj2 (error_details_raw_text (lib := Examples.sample_lib)
                  [ ("raw_response", JStr "The Exception is raised twice");
                    ("parsed", JBool false) ]
                  "The Exception is raised twice" eq_refl eq_refl)).
Defined.

Lemma error_details_silent_witness :
  _extract_error_details (lib := Examples.sample_lib)
    (JObj [ ("error_types", JArr [JStr "TypeError"]); ("severity_levels", JNull) ])
  = [].
Proof.
  destruct (error_details_silent (lib := Examples.sample_lib) JNull
              [ ("error_types", JArr [JStr "TypeError"]); ("severity_levels", JNull) ])
    as (_ & _ & _ & _ & Hunsized).
  apply (Hunsized JNull).
  - reflexivity.
  - left. reflexivity.
  - exact I.
Defined.

Lemma compile_error_facts_witness :
  exists l,
    _compile_suggestions (lib := Examples.sample_lib) extracted_workflow = Returned l
    /\ List.length l = 1.
Proof.
  destruct (compile_error_facts (lib := Examples.sample_lib) extracted_workflow)
    as (l & Hl & Hlen & _).
  - exact sample_lib_accepts.
  - repeat constructor. discriminate.
  - discriminate.
  - exists l. split; [exact Hl | exact Hlen].
Defined.

Lemma direct_issues_become_facts_witness :
  List.length (_extract_code_issues (lib := Examples.sample_lib)
                 (JObj (analysis_with (JObj [ ("error", JStr "API call failed: 500") ]))))
  = 2.
Proof.
  destruct (direct_issues_become_facts (lib := Examples.sample_lib)
              (analysis_with (JObj [ ("error", JStr "API call failed: 500") ]))
              two_issues) as (_ & Hlen & _).
  - reflexivity.
  - right. eexists. split; reflexivity.
  - exact Hlen.
Defined.


Lemma raw_array_becomes_facts_witness :
  exists facts,
    _extract_code_issues (lib := array_lib)
      (JObj (analysis_with (JObj [ ("raw_response", JStr "[{}]");
                                   ("parsed", JBool false) ])))
    = map (direct_fact (lib := array_lib)) two_issues ++ facts
    /\ List.length facts = 1.
Proof.
  destruct (raw_array_becomes_facts (lib := array_lib)
              (analysis_with (JObj [ ("raw_response", JStr "[{}]");
                                     ("parsed", JBool false) ]))
              [ ("raw_response", JStr "[{}]"); ("parsed", JBool false) ]
              two_issues [ [] ] "[{}]")
    as (facts & Hout & Hlen & _).
  - reflexivity.
  - reflexivity.
  - reflexivity.
  - left. split; reflexivity.
  - repeat constructor.
  - exists facts. split; [exact Hout | exact Hlen].
Defined.

Lemma js_scan_sound_witness :
  (forall i, List.length (filter (on_line i) (_analyze_js_code ScannerFacts.scenario_a))
             <= 3)
  /\ List.length (_analyze_js_code ScannerFacts.scenario_a)
     <= 3 * List.length (splitlines ScannerFacts.scenario_a).
Proof.
  exact (proj2 (js_scan_sound ScannerFacts.scenario_a
                  (js_var_issue 1 "var x = 5;") (or_introl eq_refl))).
Defined.

Lemma python_scan_sound_witness :
  exists i line,
    1 <= i <= List.length (splitlines "def f(x):")
    /\ nth_error (splitlines "def f(x):") (i - 1) = Some line
    /\ reported_at i line (py_docstring_issue 1 "def f(x):").
Proof.
  destruct (python_scan_sound "def f(x):" (py_docstring_issue 1 "def f(x):")
              (or_introl eq_refl))
    as (i & line & Hrange & Hnth & Hat & _).
  exists i, line. repeat split; assumption || apply Hrange.
Defined.


Lemma planned_handlers_return_witness :
  exists v,
    Service._analyze_code (lib := Examples.sample_lib)
      (remote := Examples.answers "hello") (env := Examples.sample_env)
      (input_dict (Examples.sample_input "in-1" InputType.code "var x = 5;"))
    = Returned v.
Proof.
  destruct (planned_handlers_return (lib := Examples.sample_lib)
              (remote := Examples.answers "hello") (env := Examples.sample_env)
              (Examples.sample_input "in-1" InputType.code "var x = 5;") [])
    as (_ & _ & _ & Hcode & _).
  apply Hcode. left. reflexivity.
Defined.

Lemma code_analysis_scanner_choice_witness :
  exists api_result,
    Service._analyze_code (lib := Examples.sample_lib)
      (remote := Examples.answers "hello") (env := Examples.sample_env)
      (input_dict (Examples.sample_input "in-1" InputType.code "var x = 5;"))
    = Returned (JObj [ ("direct_issues", JArr []);
                       ("ai_analysis", api_result);
                       ("analysis_type", JStr "code_review") ]).
Proof.
  destruct (code_analysis_scanner_choice (lib := Examples.sample_lib)
              (remote := Examples.answers "hello") (env := Examples.sample_env)
              (Examples.sample_input "in-1" InputType.code "var x = 5;")
              "var x = 5;" EmptyString eq_refl eq_refl)
    as (api & _ & Hout & _).
  exists api. exact Hout.
Defined.

End Instances.
